(** * ProductivityHub: the integration connectors and the widget store

    A shallow embedding of [server/lib/api-connectors.ts] (the Trello, Notion
    and Gmail connectors and their factory) and of the in-memory widget store
    ([MemStorage]), followed by the properties the specification states about
    them.

    Conventions of the embedding.
    - An [async] method is a function into [completion]: [Normal v] is a
      promise fulfilled with [v], [Throw e] a rejected one; [await] is the
      monadic bind, [try { .. } catch] is [try_catch].  A promise returned
      from inside a [try] without [await] settles after the [try] is left:
      its rejection is not caught there.
    - A JavaScript string is a [string] of 8-bit code units.
    - What the host decides (time zone offset, [Date.parse] of a string that
      is not in the ISO format, [toLocaleString], the environment variables,
      the answers of the remote services) is an explicit argument.
    - [console.log], [console.warn] and [console.error] have no effect on any
      value and are left out. *)

From Stdlib Require Import ZArith Ascii String List Bool Lia.
From Stdlib Require DecimalString.
From stdpp Require Import gmap strings.
Import ListNotations.
Local Open Scope Z_scope.
Set Warnings "-register-all".

(** ** Part I: the program *)

(** *** The JavaScript fragment the connectors are written in *)
Module JS.

Inductive error :=
| Error (message : string)
| TypeError (message : string)
| RangeError (message : string)
| SyntaxError (message : string).

Inductive completion (A : Type) :=
| Normal (a : A)
| Throw (e : error).
Arguments Normal {A} a.
Arguments Throw {A} e.

(** [await c] followed by [k]; a rejection skips [k]. *)
Definition bind {A B} (c : completion A) (k : A -> completion B) : completion B :=
  match c with
  | Normal a => k a
  | Throw e => Throw e
  end.

#[export] Instance completion_ret : MRet completion := fun A a => Normal a.
#[export] Instance completion_bind : MBind completion := fun A B k c => bind c k.

(** [try { body } catch (error) { handler }] *)
Definition try_catch {A} (body : completion A) (handler : error -> completion A)
  : completion A :=
  match body with
  | Normal a => Normal a
  | Throw e => handler e
  end.

(** [String.prototype.toLowerCase] on code units below 128. *)
Definition lower_ascii (c : ascii) : ascii :=
  let n := N_of_ascii c in
  if ((65 <=? n) && (n <=? 90))%N then ascii_of_N (n + 32) else c.

Fixpoint toLowerCase (s : string) : string :=
  match s with
  | EmptyString => EmptyString
  | String c s' => String (lower_ascii c) (toLowerCase s')
  end.

(** [a || b] where [a] is [string | undefined]: the empty string and
    [undefined] are falsy. *)
Definition str_or (a : option string) (b : string) : string :=
  match a with
  | Some (String c s) => String c s
  | _ => b
  end.

End JS.
Import JS.

Notation "'let*' x ':=' c 'in' k" := (JS.bind c (fun x => k))
  (at level 10, x name, c at level 100, k at level 200).

(** *** The connector factory *)

(** [process.env], the variables the constructors read. *)
Record Env := {
  TRELLO_TOKEN : option string;
  TRELLO_API_KEY : option string;
  NOTION_TOKEN : option string;
  GMAIL_API_TOKEN : option string
}.

Record TrelloConnector := {
  trello_token : string;
  trello_apiKey : string;
  trello_baseUrl : string
}.

Record NotionConnector := {
  notion_token : string;
  notion_baseUrl : string
}.

Record GmailConnector := {
  gmail_token : string;
  gmail_baseUrl : string
}.

(** [new TrelloConnector(token)] *)
Definition new_TrelloConnector (env : Env) (token : option string) : TrelloConnector :=
  {| trello_token := str_or token (str_or (TRELLO_TOKEN env) "");
     trello_apiKey := str_or (TRELLO_API_KEY env) "";
     trello_baseUrl := "https://api.trello.com/1" |}.

(** [new NotionConnector(token)] *)
Definition new_NotionConnector (env : Env) (token : option string) : NotionConnector :=
  {| notion_token := str_or token (str_or (NOTION_TOKEN env) "");
     notion_baseUrl := "https://api.notion.com/v1" |}.

(** [new GmailConnector(token)] *)
Definition new_GmailConnector (env : Env) (token : option string) : GmailConnector :=
  {| gmail_token := str_or token (str_or (GMAIL_API_TOKEN env) "");
     gmail_baseUrl := "https://www.googleapis.com/gmail/v1" |}.

Module ConnectorFactory.

(** The three classes [createConnector] can return an instance of. *)
Inductive Connector :=
| OfTrello (c : TrelloConnector)
| OfNotion (c : NotionConnector)
| OfGmail (c : GmailConnector).

Definition createConnector (env : Env) (type : string) (token : option string)
  : completion Connector :=
  let tag := toLowerCase type in
  if String.eqb tag "trello" then Normal (OfTrello (new_TrelloConnector env token))
  else if String.eqb tag "notion" then Normal (OfNotion (new_NotionConnector env token))
  else if String.eqb tag "gmail" then Normal (OfGmail (new_GmailConnector env token))
  else Throw (Error ("Unsupported integration type: " +:+ type)).

(** The tags of the [switch]. *)
Definition supported : list string := ["trello"; "notion"; "gmail"].

End ConnectorFactory.

(** *** JSON values, as [response.json()] and [jsonb] columns deliver them *)
Module Json.

(** Numbers are the integer-valued ones.  An object lists its own
    properties in enumeration order, each key once. *)
Inductive value :=
| VUndefined
| VNull
| VBool (b : bool)
| VNum (n : Z)
| VStr (s : string)
| VArr (items : list value)
| VObj (props : list (string * value)).

(** ToBoolean *)
Definition ToBoolean (v : value) : bool :=
  match v with
  | VUndefined | VNull => false
  | VBool b => b
  | VNum n => negb (n =? 0)
  | VStr s => negb (String.eqb s "")
  | VArr _ | VObj _ => true
  end.

(** [a || b] *)
Definition or (a b : value) : value := if ToBoolean a then a else b.

Fixpoint lookup_prop (k : string) (props : list (string * value)) : value :=
  match props with
  | [] => VUndefined
  | (k', v) :: rest => if String.eqb k k' then v else lookup_prop k rest
  end.

(** [o.k] and [o[k]] for an own data property or [length]; inherited
    members are functions and are not JSON values.  Reading a property of
    [undefined] or [null] throws. *)
Definition get (k : string) (o : value) : completion value :=
  match o with
  | VUndefined => Throw (TypeError ("Cannot read properties of undefined (reading '" +:+ k +:+ "')"))
  | VNull => Throw (TypeError ("Cannot read properties of null (reading '" +:+ k +:+ "')"))
  | VObj props => Normal (lookup_prop k props)
  | VArr items => Normal (if String.eqb k "length" then VNum (Z.of_nat (length items)) else VUndefined)
  | VStr s => Normal (if String.eqb k "length" then VNum (Z.of_nat (String.length s)) else VUndefined)
  | VBool _ | VNum _ => Normal VUndefined
  end.

(** [Array.isArray] *)
Definition isArray (v : value) : bool :=
  match v with
  | VArr _ => true
  | _ => false
  end.

End Json.
Import Json.

(** *** The widget store, [MemStorage] *)
Module Storage.

(** [InsertWidget & { userId?: number }]; the two [jsonb] columns and
    [position] may be missing ([VUndefined], [None]). *)
Record InsertWidget := {
  ins_type : string;
  ins_name : string;
  ins_config : value;
  ins_position : option Z;
  ins_gridPosition : value;
  ins_userId : option Z
}.

Record Widget := {
  id : Z;
  userId : option Z;
  type : string;
  name : string;
  config : value;
  position : Z;
  gridPosition : value;
  createdAt : Z
}.

(** The fields of [MemStorage] the widget methods use. *)
Record MemStorage := {
  widgets : gmap Z Widget;
  currentWidgetId : Z
}.

(** [{ x: 0, y: 0, w: 1, h: 1 }] and its like *)
Definition rect (x y w h : Z) : value :=
  VObj [("x", VNum x); ("y", VNum y); ("w", VNum w); ("h", VNum h)].

Definition getWidget (this : MemStorage) (id : Z) : option Widget :=
  widgets this !! id.

(** Returns the widget and the store after the call; [now] is what
    [new Date()] reads. *)
Definition createWidget (this : MemStorage) (insertWidget : InsertWidget) (now : Z)
  : Widget * MemStorage :=
  let id := currentWidgetId this in
  let createdAt := now in
  let widget :=
    {| id := id;
       userId := ins_userId insertWidget;
       type := ins_type insertWidget;
       name := ins_name insertWidget;
       config := Json.or (ins_config insertWidget) (VObj []);
       position := default 0 (ins_position insertWidget);
       gridPosition := Json.or (ins_gridPosition insertWidget) (rect 0 0 1 1);
       createdAt := createdAt |} in
  (widget, {| widgets := <[id := widget]> (widgets this);
              currentWidgetId := id + 1 |}).

End Storage.

(** *** Time values and the [Date] methods the connectors call (ECMA-262, 21.4.1) *)
Module JSDate.

Definition msPerSecond : Z := 1000.
Definition msPerMinute : Z := 60000.
Definition msPerHour : Z := 3600000.
Definition msPerDay : Z := 86400000.

Definition Day (t : Z) : Z := t / msPerDay.
Definition TimeWithinDay (t : Z) : Z := t mod msPerDay.

Definition DaysInYear (y : Z) : Z :=
  if negb (y mod 4 =? 0) then 365
  else if negb (y mod 100 =? 0) then 366
  else if negb (y mod 400 =? 0) then 365
  else 366.

Definition DayFromYear (y : Z) : Z :=
  365 * (y - 1970) + (y - 1969) / 4 - (y - 1901) / 100 + (y - 1601) / 400.

Definition TimeFromYear (y : Z) : Z := msPerDay * DayFromYear y.

(** The largest [y] with [TimeFromYear y <= t]: an estimate from the mean
    length of a year, corrected by one year either way. *)
Definition YearFromTime (t : Z) : Z :=
  let y := 1970 + (Day t * 10000) / 3652425 in
  if Day t <? DayFromYear y then y - 1
  else if DayFromYear (y + 1) <=? Day t then y + 1
  else y.

Definition leapDays (y : Z) : Z := if DaysInYear y =? 366 then 1 else 0.

Definition InLeapYear (t : Z) : Z := leapDays (YearFromTime t).

Definition DayWithinYear (t : Z) : Z := Day t - DayFromYear (YearFromTime t).

Definition MonthFromTime (t : Z) : Z :=
  let d := DayWithinYear t in
  let l := InLeapYear t in
  if d <? 31 then 0
  else if d <? 59 + l then 1
  else if d <? 90 + l then 2
  else if d <? 120 + l then 3
  else if d <? 151 + l then 4
  else if d <? 181 + l then 5
  else if d <? 212 + l then 6
  else if d <? 243 + l then 7
  else if d <? 273 + l then 8
  else if d <? 304 + l then 9
  else if d <? 334 + l then 10
  else 11.

(** The day of the year on which month [m] (0 to 11) starts. *)
Definition monthStart (m l : Z) : Z :=
  match m with
  | 0 => 0
  | 1 => 31
  | 2 => 59 + l
  | 3 => 90 + l
  | 4 => 120 + l
  | 5 => 151 + l
  | 6 => 181 + l
  | 7 => 212 + l
  | 8 => 243 + l
  | 9 => 273 + l
  | 10 => 304 + l
  | _ => 334 + l
  end.

Definition DateFromTime (t : Z) : Z :=
  DayWithinYear t - monthStart (MonthFromTime t) (InLeapYear t) + 1.

Definition HourFromTime (t : Z) : Z := (t / msPerHour) mod 24.
Definition MinFromTime (t : Z) : Z := (t / msPerMinute) mod 60.
Definition SecFromTime (t : Z) : Z := (t / msPerSecond) mod 60.
Definition msFromTime (t : Z) : Z := t mod msPerSecond.

Definition MakeTime (hour min sec ms : Z) : Z :=
  hour * msPerHour + min * msPerMinute + sec * msPerSecond + ms.

(** The day number of the first of month [month mod 12] of year
    [year + month / 12], moved by [date - 1] days. *)
Definition MakeDay (year month date : Z) : Z :=
  let ym := year + month / 12 in
  let mn := month mod 12 in
  DayFromYear ym + monthStart mn (leapDays ym) + date - 1.

Definition MakeDate (day time : Z) : Z := day * msPerDay + time.

(** [None] is NaN, the time value of an invalid [Date]. *)
Definition TimeClip (time : Z) : option Z :=
  if Z.abs time >? 8640000000000000 then None else Some time.

(** What the host decides.  The offset of local time is one constant:
    daylight saving changes are not modelled. *)
Record Host := {
  LocalTZA : Z;
  Date_parse : string -> option Z;
  toLocaleString : Z -> string
}.

Section Methods.
Context (host : Host).

Definition LocalTime (t : Z) : Z := t + LocalTZA host.
Definition UTC (t : Z) : Z := t - LocalTZA host.

(** A [Date] object is its time value. *)
Definition Date := option Z.

(** [new Date()] when the clock reads [t] *)
Definition new_Date_now (t : Z) : Date := TimeClip t.

(** [new Date(s)] *)
Definition new_Date (s : string) : Date :=
  match Date_parse host s with
  | Some tv => TimeClip tv
  | None => None
  end.

Definition getDate (d : Date) : option Z :=
  t ← d; Some (DateFromTime (LocalTime t)).

Definition getHours (d : Date) : option Z :=
  t ← d; Some (HourFromTime (LocalTime t)).

Definition getMinutes (d : Date) : option Z :=
  t ← d; Some (MinFromTime (LocalTime t)).

(** [d.setDate(dt)]: the new value of [d]; [dt] is NaN when [None]. *)
Definition setDate (d : Date) (dt : option Z) : Date :=
  t ← d;
  dt ← dt;
  let t := LocalTime t in
  let newDate := MakeDate (MakeDay (YearFromTime t) (MonthFromTime t) dt) (TimeWithinDay t) in
  TimeClip (UTC newDate).

(** [d.setHours(hour, min)]: the new value of [d]. *)
Definition setHours (d : Date) (hour min : Z) : Date :=
  t ← d;
  let t := LocalTime t in
  let date := MakeDate (Day t) (MakeTime hour min (SecFromTime t) (msFromTime t)) in
  TimeClip (UTC date).

(** [a >= b] and [a <= b] on dates: false when either is invalid. *)
Definition date_geb (a b : Date) : bool :=
  match a, b with
  | Some x, Some y => y <=? x
  | _, _ => false
  end.

Definition date_leb (a b : Date) : bool :=
  match a, b with
  | Some x, Some y => x <=? y
  | _, _ => false
  end.

End Methods.

End JSDate.

(** *** What [fetch] delivers *)
Module Http.

(** A response whose body, read by [response.json()], is an [A];
    [json = None] when the body is not JSON. *)
Record Response (A : Type) := {
  status : Z;
  statusText : string;
  text : string;
  json : option A
}.
Arguments status {A} r.
Arguments statusText {A} r.
Arguments text {A} r.
Arguments json {A} r.

(** [response.ok] *)
Definition ok {A} (r : Response A) : bool :=
  (200 <=? status r) && (status r <=? 299).

(** [await fetch(..)]: rejected ([Rejected], a network failure) or
    fulfilled with a response of any status. *)
Inductive fetched (A : Type) :=
| Rejected (e : error)
| Responded (r : Response A).
Arguments Rejected {A} e.
Arguments Responded {A} r.

(** [`${n}`] for an integer *)
Definition show (n : Z) : string := DecimalString.NilZero.string_of_int (Z.to_int n).

(** The shared body of [fetchFromTrello], [fetchFromNotion] and
    [fetchFromGmail] from the call of [fetch] on: a response that is not
    [ok] throws the error naming the service, the status and its text; the
    [catch] logs and rethrows. *)
Definition fetchFrom {A} (service : string) (answer : fetched A) : completion A :=
  try_catch
    (match answer with
     | Rejected e => Throw e
     | Responded response =>
         if negb (ok response)
         then Throw (Error (service +:+ " API error: " +:+ show (status response)
                            +:+ " " +:+ statusText response))
         else match json response with
              | Some data => Normal data
              | None => Throw (SyntaxError "Unexpected token in JSON")
              end
     end)
    (fun error => Throw error).

End Http.
Import Http.

(** *** The Trello connector *)
Module Trello.

Module Label.
Record t := { id : string; name : string; color : string }.
End Label.

Module Card.
(** [TrelloCard] *)
Record t := {
  id : string;
  name : string;
  desc : string;
  due : option string;
  dueComplete : bool;
  idBoard : string;
  idList : string;
  labels : list Label.t
}.
End Card.

Module Board.
(** [TrelloBoard] *)
Record t := { id : string; name : string; shortUrl : string }.
End Board.

Module List.
(** [TrelloList] *)
Record t := { id : string; name : string; idBoard : string }.
End List.

(** The body [createCard] posts. *)
Record NewCard := {
  new_idList : string;
  new_name : string;
  new_desc : string;
  new_due : option string
}.

(** What Trello answers to the requests of one connector (the credentials
    are part of every URL).
    - [member_boards]: GET /members/me/boards?fields=id,name,shortUrl
    - [board_lists b]: GET /boards/b/lists?fields=id,name,idBoard
    - [list_cards l]: GET /lists/l/cards?fields=id,name,desc,due,..
    - [board_cards b]: GET /boards/b/cards?fields=id,name,desc,due,..
    - [post_card body]: POST /cards *)
Record Remote := {
  member_boards : fetched (list Board.t);
  board_lists : string -> fetched (list List.t);
  list_cards : string -> fetched (list Card.t);
  board_cards : string -> fetched (list Card.t);
  post_card : NewCard -> fetched Card.t
}.

(** A card of [getCardsDueWithin]: [{ ...card, status, members: [] }]. *)
Record EnhancedCard := {
  card : Card.t;
  status : string;
  members : list string
}.

Section Connector.
Context (host : JSDate.Host) (remote : Remote).

Definition fetchFromTrello {A} (answer : fetched A) : completion A :=
  fetchFrom "Trello" answer.

Definition getBoards : completion (list Board.t) :=
  try_catch
    (let* data := fetchFromTrello (member_boards remote) in Normal data)
    (fun error => Normal []).

Definition getLists (boardId : string) : completion (list List.t) :=
  try_catch
    (let* data := fetchFromTrello (board_lists remote boardId) in Normal data)
    (fun error => Normal []).

Definition getCardsOnList (listId : string) : completion (list Card.t) :=
  try_catch
    (let* data := fetchFromTrello (list_cards remote listId) in Normal data)
    (fun error => Normal []).

(** [boardLists]: list names by list id, by board id.  The ids are not
    names of members of [Object.prototype]. *)
Definition BoardLists := gmap string (gmap string string).

(** The inner [for (const list of lists)] *)
Definition addLists (lists : list List.t) (names : gmap string string)
  : gmap string string :=
  fold_left (fun names list => <[List.id list := List.name list]> names) lists names.

(** The first [for (const board of boards)] *)
Fixpoint collectLists (boards : list Board.t) (boardLists : BoardLists)
  : completion BoardLists :=
  match boards with
  | [] => Normal boardLists
  | board :: rest =>
      let* lists := getLists (Board.id board) in
      collectLists rest (<[Board.id board := addLists lists ∅]> boardLists)
  end.

(** The callback of [boardCards.map] *)
Definition enhance (boardLists : BoardLists) (card : Card.t) : EnhancedCard :=
  let listName :=
    str_or (names ← boardLists !! Card.idBoard card; names !! Card.idList card)
           "Unknown" in
  {| card := card; status := listName; members := [] |}.

(** The second [for (const board of boards)] *)
Fixpoint collectCards (boardLists : BoardLists) (boards : list Board.t)
    (allCards : list EnhancedCard) : completion (list EnhancedCard) :=
  match boards with
  | [] => Normal allCards
  | board :: rest =>
      let* boardCards := fetchFromTrello (board_cards remote (Board.id board)) in
      let enhancedCards := map (enhance boardLists) boardCards in
      collectCards boardLists rest (allCards ++ enhancedCards)
  end.

(** The callback of [allCards.filter], with the two dates in scope. *)
Definition dueWithin (now futureDate : JSDate.Date) (card : EnhancedCard) : bool :=
  match Card.due (Trello.card card) with
  | None | Some "" => false
  | Some due =>
      let cardDueDate := JSDate.new_Date host due in
      JSDate.date_geb cardDueDate now && JSDate.date_leb cardDueDate futureDate
  end.

(** [days] is a whole number, as [parseInt] gives it to the route;
    [clock0] and [clock1] are what the two [new Date()] read, in order. *)
Definition getCardsDueWithin (days : Z) (clock0 clock1 : Z)
  : completion (list EnhancedCard) :=
  try_catch
    (let* boards := getBoards in
     if (length boards =? 0)%nat then Normal []
     else
       let* boardLists := collectLists boards ∅ in
       let* allCards := collectCards boardLists boards [] in
       let now := JSDate.new_Date_now clock0 in
       let futureDate :=
         JSDate.setDate host (JSDate.new_Date_now clock1)
           (dt ← JSDate.getDate host now; Some (dt + days)) in
       Normal (List.filter (fun card => dueWithin now futureDate card) allCards))
    (fun error => Normal []).

(** [createCard(listId, { name, desc, due })].  The [try] block ends with
    [return response.json()], without [await]: the promise is settled after
    the [try] is left, so a body that is not JSON rejects [createCard]
    itself.  [response] is the response to read, or [None] when the [catch]
    has returned [null]. *)
Definition createCard (listId : string) (name : string) (desc : option string)
    (due : option string) : completion (option Card.t) :=
  let* response :=
    try_catch
      (match post_card remote {| new_idList := listId; new_name := name;
                                 new_desc := str_or desc ""; new_due := due |} with
       | Rejected e => Throw e
       | Responded response =>
           if negb (ok response)
           then Throw (Error ("Failed to create card: " +:+ show (Http.status response)
                              +:+ " " +:+ statusText response))
           else Normal (Some response)
       end)
      (fun error => Normal None) in
  match response with
  | None => Normal None
  | Some response =>
      match json response with
      | Some data => Normal (Some data)
      | None => Throw (SyntaxError "Unexpected token in JSON")
      end
  end.

End Connector.

End Trello.

(** *** More of JavaScript on JSON values, as the Notion connector uses it *)
Module JsonOps.

(** ToString; an array prints as its elements joined by commas. *)
Fixpoint ToString (v : value) : string :=
  match v with
  | VUndefined => "undefined"
  | VNull => "null"
  | VBool true => "true"
  | VBool false => "false"
  | VNum n => show n
  | VStr s => s
  | VArr items =>
      (fix commas (l : list value) : string :=
         match l with
         | [] => ""
         | x :: rest =>
             let sx := match x with
                       | VUndefined | VNull => ""
                       | _ => ToString x
                       end in
             match rest with
             | [] => sx
             | _ :: _ => sx +:+ "," +:+ commas rest
             end
         end) items
  | VObj _ => "[object Object]"
  end.

(** [items.join('')] *)
Fixpoint join_empty (items : list value) : string :=
  match items with
  | [] => ""
  | x :: rest =>
      match x with
      | VUndefined | VNull => ""
      | _ => ToString x
      end +:+ join_empty rest
  end.

(** [v === s] for a string literal [s] *)
Definition strict_eq_str (v : value) (s : string) : bool :=
  match v with
  | VStr s' => String.eqb s' s
  | _ => false
  end.

Fixpoint chars (s : string) : list value :=
  match s with
  | EmptyString => []
  | String c s' => VStr (String c EmptyString) :: chars s'
  end.

(** [Object.values(o)] *)
Definition Object_values (o : value) : completion (list value) :=
  match o with
  | VUndefined | VNull => Throw (TypeError "Cannot convert undefined or null to object")
  | VObj props => Normal (map snd props)
  | VArr items => Normal items
  | VStr s => Normal (chars s)
  | VBool _ | VNum _ => Normal []
  end.

(** [items.find(pred)] for a callback that may throw *)
Fixpoint find (pred : value -> completion bool) (items : list value) : completion value :=
  match items with
  | [] => Normal VUndefined
  | x :: rest => let* b := pred x in if b then Normal x else find pred rest
  end.

(** [v.map(f)]: [map] is a method of arrays only. *)
Definition array_map {B} (f : value -> completion B) (v : value) : completion (list B) :=
  match v with
  | VArr items => mapM f items
  | VUndefined | VNull => Throw (TypeError "Cannot read properties of undefined (reading 'map')")
  | _ => Throw (TypeError "map is not a function")
  end.

(** [v.substring(0, n)]: a method of strings only. *)
Definition substring0 (n : nat) (v : value) : completion string :=
  match v with
  | VStr s => Normal (String.substring 0 n s)
  | VUndefined | VNull => Throw (TypeError "Cannot read properties of undefined (reading 'substring')")
  | _ => Throw (TypeError "substring is not a function")
  end.

(** [v && Array.isArray(v)] as a condition *)
Definition isArrayValue (v : value) : bool := ToBoolean v && isArray v.

(** [v && Array.isArray(v) && v.length > 0] as a condition *)
Definition isNonEmptyArray (v : value) : bool :=
  ToBoolean v && isArray v &&
  match v with
  | VArr items => 0 <? Z.of_nat (length items)
  | _ => false
  end.

(** [a || b] where evaluating either side may throw; [b] is not
    evaluated when [a] is truthy. *)
Definition orM (a b : completion value) : completion value :=
  let* x := a in if ToBoolean x then Normal x else b.

(** [v.length === 0] *)
Definition length_is_zero (v : value) : completion bool :=
  let* n := get "length" v in
  Normal match n with
         | VNum n => n =? 0
         | _ => false
         end.

(** [v[0]] *)
Definition first (v : value) : completion value :=
  match v with
  | VArr items => Normal (List.hd VUndefined items)
  | VStr s => Normal match s with
                     | EmptyString => VUndefined
                     | String c _ => VStr (String c EmptyString)
                     end
  | VObj props => Normal (lookup_prop "0" props)
  | VBool _ | VNum _ => Normal VUndefined
  | VUndefined | VNull => Throw (TypeError "Cannot read properties of undefined (reading '0')")
  end.

End JsonOps.
Import JsonOps.

(** *** The Notion connector *)
Module Notion.

(** [NotionPage]; at run time every field holds whatever the response
    held. *)
Record NotionPage := {
  id : value;
  title : value;
  icon : value;
  lastEditedTime : value;
  url : value
}.

(** A block of [getPageContent]. *)
Record Block := {
  block_id : value;
  block_type : value;
  content : value;
  text : value;
  has_children : value
}.

Record PageContent := {
  page : value;
  blocks : list Block
}.

(** What Notion answers to a request of one connector, by endpoint,
    method and body ([VUndefined]: no body). *)
Definition Remote := string -> string -> value -> fetched value.

Section Connector.
Context (remote : Remote).

Definition fetchFromNotion (endpoint method : string) (body : value) : completion value :=
  fetchFrom "Notion" (remote endpoint method (if ToBoolean body then body else VUndefined)).

(** [runs.map((t: any) => t.plain_text || '').join('')] *)
Definition plainText (runs : value) : completion value :=
  let* texts := array_map (fun t => let* p := get "plain_text" t in
                                    Normal (Json.or p (VStr ""))) runs in
  Normal (VStr (join_empty texts)).

(** [for (const prop of propertyValues) { .. break .. }]: the title
    after the loop, [title] when no property has content. *)
Fixpoint firstWithContent (propertyValues : list value) (title : value)
  : completion value :=
  match propertyValues with
  | [] => Normal title
  | prop :: rest =>
      let* t := get "title" prop in
      if isNonEmptyArray t then plainText t
      else
        let* r := get "rich_text" prop in
        if isNonEmptyArray r then plainText r
        else firstWithContent rest title
  end.

(** [if (titleProperty) { .. }], the branch taken when it is truthy *)
Definition fromTitleProperty (titleProperty title : value) : completion value :=
  let* t := get "title" titleProperty in
  if isArrayValue t then plainText t
  else
    let* r := get "rich_text" titleProperty in
    if isArrayValue r then plainText r
    else Normal title.

(** [if (page.child_page && page.child_page.title) title = ..] *)
Definition childPageTitle (page title : value) : completion value :=
  let* child_page := get "child_page" page in
  if ToBoolean child_page
  then let* t := get "title" child_page in
       Normal (if ToBoolean t then t else title)
  else Normal title.

(** The [try] block of the callback in [getRecentPages]. *)
Definition recentTitle (page : value) : completion value :=
  let title := VStr "Untitled" in
  let* properties := get "properties" page in
  let* title :=
    if ToBoolean properties then
      let* titleProperty :=
        orM (get "title" properties)
          (orM (get "Title" properties)
             (orM (get "Name" properties)
                (orM (get "name" properties)
                   (let* values := Object_values properties in
                    find (fun p => let* ty := get "type" p in
                                   Normal (strict_eq_str ty "title")) values)))) in
      if ToBoolean titleProperty then fromTitleProperty titleProperty title
      else
        let* propertyValues := Object_values properties in
        firstWithContent propertyValues title
    else Normal title in
  childPageTitle page title.

(** The [try] block of the callback in [searchPages]. *)
Definition searchTitle (page : value) : completion value :=
  let title := VStr "Untitled" in
  let* properties := get "properties" page in
  let* title :=
    if ToBoolean properties then
      let* titleProperty :=
        orM (get "title" properties)
          (orM (get "Title" properties)
             (orM (get "Name" properties)
                (get "name" properties))) in
      if ToBoolean titleProperty then fromTitleProperty titleProperty title
      else
        let* propertyValues := Object_values properties in
        firstWithContent propertyValues title
    else Normal title in
  childPageTitle page title.

(** The rest of either callback: the [catch] that falls back to the
    page id, and the page returned. *)
Definition toPage (extract : value -> completion value) (page : value)
  : completion NotionPage :=
  let* title :=
    try_catch (extract page)
      (fun err =>
         let* pid := get "id" page in
         let* prefix := substring0 8 pid in
         Normal (VStr ("Page " +:+ prefix))) in
  let* id := get "id" page in
  let* icon := get "icon" page in
  let* last_edited_time := get "last_edited_time" page in
  let* url := get "url" page in
  Normal {| id := id; title := title; icon := icon;
            lastEditedTime := last_edited_time; url := url |}.

Definition sortByEdit : value :=
  VObj [("direction", VStr "descending"); ("timestamp", VStr "last_edited_time")].

(** The log of the first result reads [data.results[0].id]. *)
Definition getRecentPages (limit : Z) : completion (list NotionPage) :=
  try_catch
    (let requestBody := VObj [("sort", sortByEdit); ("page_size", VNum limit)] in
     let* data := fetchFromNotion "/search" "POST" requestBody in
     let* results := get "results" data in
     if negb (ToBoolean results) then Normal []
     else
       let* empty := length_is_zero results in
       if empty then Normal []
       else
         let* sample := first results in
         let* sample_id := get "id" sample in
         array_map (toPage recentTitle) results)
    (fun error => Normal []).

Definition searchPages (query : string) : completion (list NotionPage) :=
  try_catch
    (let requestBody :=
       VObj [("query", VStr query); ("page_size", VNum 10); ("sort", sortByEdit)] in
     let* data := fetchFromNotion "/search" "POST" requestBody in
     let* results := get "results" data in
     if negb (ToBoolean results) then Normal []
     else
       let* empty := length_is_zero results in
       if empty then Normal []
       else array_map (toPage searchTitle) results)
    (fun error => Normal []).

(** The body [createPage] posts. *)
Definition newPageBody (title parentId : string) : value :=
  VObj [("parent", VObj [("page_id", VStr parentId)]);
        ("properties",
         VObj [("title",
                VObj [("title",
                       VArr [VObj [("text", VObj [("content", VStr title)])]])])])].

Definition createPage (title : string) (parentId : option string)
  : completion (option NotionPage) :=
  try_catch
    (match parentId with
     | None | Some "" => Throw (Error "Parent ID is required to create a Notion page")
     | Some parentId =>
         let* data := fetchFromNotion "/pages" "POST" (newPageBody title parentId) in
         let* id := get "id" data in
         let* last_edited_time := get "last_edited_time" data in
         let* url := get "url" data in
         Normal (Some {| id := id; title := VStr title; icon := VUndefined;
                         lastEditedTime := last_edited_time; url := url |})
     end)
    (fun error => Normal None).

(** The callback of [(blocksData.results || []).map] *)
Definition processBlock (block : value) : completion Block :=
  let* blockType := get "type" block in
  let* content := get (ToString blockType) block in
  let* id := get "id" block in
  let* text :=
    match content with
    | VUndefined | VNull => Normal VUndefined
    | _ =>
        let* rich_text := get "rich_text" content in
        match rich_text with
        | VUndefined | VNull => Normal VUndefined
        | _ => plainText rich_text
        end
    end in
  let* has_children := get "has_children" block in
  Normal {| block_id := id; block_type := blockType; content := content;
            text := Json.or text (VStr ""); has_children := has_children |}.

Definition getPageContent (pageId : string) : completion PageContent :=
  try_catch
    (let* pageData := fetchFromNotion ("/pages/" +:+ pageId) "GET" VUndefined in
     let* blocksData := fetchFromNotion ("/blocks/" +:+ pageId +:+ "/children") "GET" VUndefined in
     let* results := get "results" blocksData in
     let* processedBlocks := array_map processBlock (Json.or results (VArr [])) in
     Normal {| page := pageData; blocks := processedBlocks |})
    (fun error => Throw error).

End Connector.

End Notion.

(** *** Strings: the three regular expressions of the composer, [split],
    [parseInt], [includes] and [toISOString] *)
Module Text.

Definition code (c : ascii) : N := N_of_ascii c.

Definition between (lo hi : N) (c : ascii) : bool :=
  ((lo <=? code c) && (code c <=? hi))%N.

(** [\d] *)
Definition isDigit (c : ascii) : bool := between 48 57 c.

(** [\w] *)
Definition isWord (c : ascii) : bool :=
  isDigit c || between 65 90 c || between 97 122 c || (code c =? 95)%N.

(** [\s], the code units below 256 *)
Definition isSpace (c : ascii) : bool :=
  between 9 13 c || (code c =? 32)%N || (code c =? 160)%N.

(** What [.] does not match *)
Definition isLineTerminator (c : ascii) : bool :=
  (code c =? 10)%N || (code c =? 13)%N.

(** [[-/]] *)
Definition isDateSep (c : ascii) : bool := (code c =? 45)%N || (code c =? 47)%N.

(** [[.?!]] *)
Definition isSentenceEnd (c : ascii) : bool :=
  (code c =? 46)%N || (code c =? 63)%N || (code c =? 33)%N.

Definition isEmpty (s : string) : bool :=
  match s with
  | EmptyString => true
  | String _ _ => false
  end.

(** The longest prefix of at most [max] characters in the class, and the
    rest: a greedy [c{0,max}]. *)
Fixpoint spanUpTo (p : ascii -> bool) (max : nat) (s : string) : string * string :=
  match max, s with
  | S k, String c s' =>
      if p c then let '(a, b) := spanUpTo p k s' in (String c a, b)
      else (EmptyString, s)
  | _, _ => (EmptyString, s)
  end.

(** A greedy [c*] *)
Fixpoint span (p : ascii -> bool) (s : string) : string * string :=
  match s with
  | String c s' =>
      if p c then let '(a, b) := span p s' in (String c a, b)
      else (EmptyString, s)
  | EmptyString => (EmptyString, s)
  end.

(** The leftmost match: the pattern is tried at every position in turn. *)
Fixpoint search {A} (matchAt : string -> option A) (s : string) : option A :=
  match matchAt s with
  | Some m => Some m
  | None =>
      match s with
      | EmptyString => None
      | String _ s' => search matchAt s'
      end
  end.

(** [(?:\s*[AaPp][Mm])?]: the text it matches, empty when the marker is
    not there. *)
Definition meridiem (s : string) : string :=
  let '(ws, rest) := span isSpace s in
  match rest with
  | String a (String m _) =>
      if (String.eqb (toLowerCase (String a EmptyString)) "a"
          || String.eqb (toLowerCase (String a EmptyString)) "p")
         && String.eqb (toLowerCase (String m EmptyString)) "m"
      then ws +:+ String a (String m EmptyString)
      else EmptyString
  | _ => EmptyString
  end.

(** [/(\d{1,2}:\d{2}(?:\s*[AaPp][Mm])?)/] at the start of [s]: group 1.
    One digit instead of two never helps, the next character being a
    digit and not the colon. *)
Definition timeAt (s : string) : option string :=
  let '(hh, r1) := spanUpTo isDigit 2 s in
  if isEmpty hh then None
  else
    match r1 with
    | String ":" (String m1 (String m2 r2)) =>
        if isDigit m1 && isDigit m2
        then Some (hh +:+ String ":" (String m1 (String m2 (meridiem r2))))
        else None
    | _ => None
    end.

Definition timePattern (s : string) : option string := search timeAt s.

(** [\d{1,2}[-/]\d{1,2}[-/]\d{2,4}] at the start of [s] *)
Definition numericDateAt (s : string) : option string :=
  let '(d1, r1) := spanUpTo isDigit 2 s in
  if isEmpty d1 then None
  else
    match r1 with
    | String c1 r2 =>
        if isDateSep c1 then
          let '(d2, r3) := spanUpTo isDigit 2 r2 in
          if isEmpty d2 then None
          else
            match r3 with
            | String c2 r4 =>
                if isDateSep c2 then
                  let '(d3, _) := spanUpTo isDigit 4 r4 in
                  if (2 <=? String.length d3)%nat
                  then Some (d1 +:+ String c1 (d2 +:+ String c2 d3))
                  else None
                else None
            | EmptyString => None
            end
        else None
    | EmptyString => None
    end.

(** [(?:st|nd|rd|th)?] under the [i] flag: the text it matches. *)
Definition ordinal (s : string) : string :=
  match s with
  | String a (String b _) =>
      let low := toLowerCase (String a (String b EmptyString)) in
      if String.eqb low "st" || String.eqb low "nd" || String.eqb low "rd"
         || String.eqb low "th"
      then String a (String b EmptyString)
      else EmptyString
  | _ => EmptyString
  end.

(** [\w+ \d{1,2}(?:st|nd|rd|th)?, \d{4}] at the start of [s] *)
Definition longDateAt (s : string) : option string :=
  let '(w, r1) := span isWord s in
  if isEmpty w then None
  else
    match r1 with
    | String " " r2 =>
        let '(d, r3) := spanUpTo isDigit 2 r2 in
        if isEmpty d then None
        else
          let suffix := ordinal r3 in
          match String.substring (String.length suffix) (String.length r3) r3 with
          | String "," (String " " r4) =>
              let '(y, _) := spanUpTo isDigit 4 r4 in
              if (String.length y =? 4)%nat
              then Some (w +:+ " " +:+ d +:+ suffix +:+ ", " +:+ y)
              else None
          | _ => None
          end
    | _ => None
    end.

(** [/(..)|(..)/i]: the whole match, the first alternative first. *)
Definition dateAt (s : string) : option string :=
  match numericDateAt s with
  | Some m => Some m
  | None => longDateAt s
  end.

Definition datePattern (s : string) : option string := search dateAt s.

(** [.*?[.?!]]: as few characters as possible, none a line terminator. *)
Fixpoint upToSentenceEnd (s : string) : option string :=
  match s with
  | EmptyString => None
  | String c s' =>
      if isSentenceEnd c then Some (String c EmptyString)
      else if isLineTerminator c then None
      else option_map (String c) (upToSentenceEnd s')
  end.

(** [/(please|kindly)\s+(\w+).*?[.?!]/i] at the start of [s] *)
Definition instructionAt (s : string) : option string :=
  let cue := String.substring 0 6 s in
  if String.eqb (toLowerCase cue) "please" || String.eqb (toLowerCase cue) "kindly"
  then
    let '(ws, r1) := span isSpace (String.substring 6 (String.length s) s) in
    if isEmpty ws then None
    else
      let '(w, r2) := span isWord r1 in
      if isEmpty w then None
      else option_map (fun tail => cue +:+ ws +:+ w +:+ tail) (upToSentenceEnd r2)
  else None.

Definition instructionPattern (s : string) : option string := search instructionAt s.

(** [s.split(':')] *)
Fixpoint split_colon (s : string) : list string :=
  match s with
  | EmptyString => [EmptyString]
  | String c s' =>
      match split_colon s' with
      | part :: parts =>
          if (code c =? 58)%N then EmptyString :: part :: parts
          else String c part :: parts
      | [] => [String c EmptyString]
      end
  end.

Fixpoint digitsValue (acc : Z) (s : string) : Z :=
  match s with
  | String c s' =>
      if isDigit c then digitsValue (10 * acc + Z.of_N (code c - 48)) s' else acc
  | EmptyString => acc
  end.

(** [parseInt(s)] for a string that does not start with a sign or a
    radix prefix; [None] is NaN. *)
Definition parseInt (s : option string) : option Z :=
  match s with
  | None => None
  | Some s =>
      let '(_, r) := span isSpace s in
      match r with
      | String c _ => if isDigit c then Some (digitsValue 0 r) else None
      | EmptyString => None
      end
  end.

Fixpoint isPrefix (p s : string) : bool :=
  match p, s with
  | EmptyString, _ => true
  | String a p', String b s' => Ascii.eqb a b && isPrefix p' s'
  | String _ _, EmptyString => false
  end.

(** [s.includes(needle)] *)
Fixpoint includes (needle s : string) : bool :=
  isPrefix needle s ||
  match s with
  | EmptyString => false
  | String _ s' => includes needle s'
  end.

(** [String(n).padStart(width, '0')] for [0 <= n] *)
Definition pad (width : nat) (n : Z) : string :=
  let digits := show n in
  String.concat "" (repeat "0" (width - String.length digits)) +:+ digits.

(** [d.toISOString()] *)
Definition toISOString (d : JSDate.Date) : completion string :=
  match d with
  | None => Throw (RangeError "Invalid time value")
  | Some t =>
      let y := JSDate.YearFromTime t in
      let year :=
        if (0 <=? y) && (y <=? 9999) then pad 4 y
        else (if y <? 0 then "-" else "+") +:+ pad 6 (Z.abs y) in
      Normal (year +:+ "-" +:+ pad 2 (JSDate.MonthFromTime t + 1)
              +:+ "-" +:+ pad 2 (JSDate.DateFromTime t)
              +:+ "T" +:+ pad 2 (JSDate.HourFromTime t)
              +:+ ":" +:+ pad 2 (JSDate.MinFromTime t)
              +:+ ":" +:+ pad 2 (JSDate.SecFromTime t)
              +:+ "." +:+ pad 3 (JSDate.msFromTime t) +:+ "Z")
  end.

End Text.

(** *** The Gmail connector and the composer *)
Module Gmail.

Module Header.
Record t := { name : string; value : string }.
End Header.

Record Payload := { headers : option (list Header.t) }.

(** A message as [/users/me/messages/{id}] returns it; any field but the
    id may be missing. *)
Record RawMessage := {
  raw_id : string;
  raw_snippet : option string;
  raw_payload : option Payload;
  raw_internalDate : option string;
  raw_labelIds : option (list string)
}.

(** [GmailMessage], the result of [processMessage]. *)
Record GmailMessage := {
  id : string;
  from : string;
  subject : string;
  snippet : string;
  payload : Payload;
  internalDate : string;
  labelIds : list string
}.

(** [message.payload?.headers?.find(h => h.name.toLowerCase() === key)?.value] *)
Definition headerValue (key : string) (message : RawMessage) : option string :=
  payload ← raw_payload message;
  headers ← headers payload;
  h ← List.find (fun h => String.eqb (toLowerCase (Header.name h)) key) headers;
  Some (Header.value h).

Definition processMessage (message : RawMessage) : GmailMessage :=
  let from := str_or (headerValue "from" message) "" in
  let subject := str_or (headerValue "subject" message) "" in
  {| id := raw_id message;
     from := from;
     subject := subject;
     snippet := str_or (raw_snippet message) "";
     payload := default {| headers := Some [] |} (raw_payload message);
     internalDate := str_or (raw_internalDate message) "";
     labelIds := default [] (raw_labelIds message) |}.

(** What Gmail answers to GET /users/me/messages/{id}. *)
Definition Remote := string -> fetched RawMessage.

Section Connector.
Context (host : JSDate.Host) (this : GmailConnector) (remote : Remote).

(** [fetchFromGmail(`/users/me/messages/${emailId}`)] *)
Definition fetchMessage (emailId : string) : completion RawMessage :=
  try_catch
    (if Text.isEmpty (gmail_token this) then Throw (Error "Gmail API token is required")
     else fetchFrom "Gmail" (remote emailId))
    (fun error => Throw error).

(** The date of [if (dateMatch) { .. }] just before [toISOString], and
    [None] when the snippet has no match of the date pattern. *)
Definition composeDate (snippet : string) : option JSDate.Date :=
  let dateMatch := Text.datePattern snippet in
  let timeMatch := Text.timePattern snippet in
  match dateMatch with
  | Some dateText =>
      let date := JSDate.new_Date host dateText in
      Some match timeMatch with
           | Some timeText =>
               let timeParts := Text.split_colon timeText in
               let hours := Text.parseInt (nth_error timeParts 0) in
               let minutes := Text.parseInt (nth_error timeParts 1) in
               let hours :=
                 h ← hours;
                 Some (if Text.includes "pm" (toLowerCase timeText) && (h <? 12)
                       then h + 12 else h) in
               match hours, minutes with
               | Some hours, Some minutes => JSDate.setHours host date hours minutes
               | _, _ => None
               end
           | None => date
           end
  | None => None
  end.

(** [dueDate]: [undefined] is [None]. *)
Definition composeDueDate (snippet : string) : completion (option string) :=
  match composeDate snippet with
  | Some date => let* iso := Text.toISOString date in Normal (Some iso)
  | None => Normal None
  end.

(** [new Date(dueDate).toLocaleString()] *)
Definition showDue (dueDate : string) : string :=
  match JSDate.new_Date host dueDate with
  | Some t => JSDate.toLocaleString host t
  | None => "Invalid Date"
  end.

Definition newline : string := String (ascii_of_N 10) EmptyString.

Definition describe (processedEmail : GmailMessage) (dueDate : option string) : string :=
  let instruction := default "" (Text.instructionPattern (snippet processedEmail)) in
  "Re: " +:+ str_or (Some (subject processedEmail)) "No Subject" +:+ newline
  +:+ "From: " +:+ str_or (Some (from processedEmail)) "Unknown" +:+ newline
  +:+ (if Text.isEmpty instruction then "" else "Action: " +:+ instruction +:+ newline)
  +:+ match dueDate with
      | Some (String c s) => "Due: " +:+ showDue (String c s)
      | _ => ""
      end.

(** The [try] block of [createTrelloCardFromEmail]; [trello] is what
    Trello answers to [trelloConnector]. *)
Definition composeCard (emailId : string) (trello : Trello.Remote) (listId : string)
  : completion (option Trello.Card.t) :=
  let* email := fetchMessage emailId in
  let processedEmail := processMessage email in
  let* dueDate := composeDueDate (snippet processedEmail) in
  let description := describe processedEmail dueDate in
  let* card :=
    Trello.createCard trello listId
      (str_or (Some (subject processedEmail)) "No Subject")
      (Some description) dueDate in
  Normal card.

Definition createTrelloCardFromEmail (emailId : string) (trello : Trello.Remote)
    (listId : string) : completion (option Trello.Card.t) :=
  try_catch (composeCard emailId trello listId) (fun error => Normal None).

End Connector.

End Gmail.

(** *** Concrete hosts, remotes and inputs used by the examples below *)
Module Samples.

Definition env0 : Env :=
  {| TRELLO_TOKEN := None; TRELLO_API_KEY := Some "key";
     NOTION_TOKEN := None; GMAIL_API_TOKEN := None |}.

(** A host five hours behind UTC whose [Date.parse] knows these strings:
    local midnight of 25 December 2024, and two instants in ISO format. *)
Definition host0 : JSDate.Host :=
  {| JSDate.LocalTZA := -18000000;
     JSDate.Date_parse := fun s =>
       if String.eqb s "12/25/2024" then Some 1735102800000
       else if String.eqb s "2024-12-25T00:00:00.000Z" then Some 1735084800000
       else if String.eqb s "2025-01-01T00:00:00.000Z" then Some 1735689600000
       else if String.eqb s "2025-01-01T00:00:00.001Z" then Some 1735689600001
       else None;
     JSDate.toLocaleString := fun t => show t |}.

(** A response with the given status and no JSON body. *)
Definition failed {A} (status : Z) (statusText : string) : Response A :=
  {| Http.status := status; Http.statusText := statusText;
     Http.text := ""; Http.json := None |}.

Definition failure {A} (status : Z) (statusText : string) : fetched A :=
  Responded (failed status statusText).

Definition success {A} (data : A) : fetched A :=
  Responded {| Http.status := 200; Http.statusText := "OK";
               Http.text := ""; Http.json := Some data |}.

(** Trello answering 500 to everything. *)
Definition trello500 : Trello.Remote :=
  {| Trello.member_boards := failure 500 "Internal Server Error";
     Trello.board_lists := fun _ => failure 500 "Internal Server Error";
     Trello.list_cards := fun _ => failure 500 "Internal Server Error";
     Trello.board_cards := fun _ => failure 500 "Internal Server Error";
     Trello.post_card := fun _ => failure 500 "Internal Server Error" |}.

(** Notion answering 500 to everything. *)
Definition notion500 : Notion.Remote :=
  fun _ _ _ => failure 500 "Internal Server Error".

Definition sampleCard (id : string) (due : option string) (dueComplete : bool)
    (idBoard : string) : Trello.Card.t :=
  {| Trello.Card.id := id; Trello.Card.name := "card " +:+ id; Trello.Card.desc := "";
     Trello.Card.due := due; Trello.Card.dueComplete := dueComplete;
     Trello.Card.idBoard := idBoard; Trello.Card.idList := "l1";
     Trello.Card.labels := [] |}.

Definition boardA : Trello.Board.t :=
  {| Trello.Board.id := "bA"; Trello.Board.name := "A"; Trello.Board.shortUrl := "" |}.
Definition boardB : Trello.Board.t :=
  {| Trello.Board.id := "bB"; Trello.Board.name := "B"; Trello.Board.shortUrl := "" |}.

(** Board A: a card due at the start of the window (and completed), one
    with no due date, one whose due date does not parse.  Board B: a card
    due one millisecond after the end of a seven day window, one due at
    its end. *)
Definition cardsA : list Trello.Card.t :=
  [ sampleCard "a1" (Some "2024-12-25T00:00:00.000Z") true "bA";
    sampleCard "a2" None false "bA";
    sampleCard "a3" (Some "soon") false "bA" ].
Definition cardsB : list Trello.Card.t :=
  [ sampleCard "b1" (Some "2025-01-01T00:00:00.001Z") false "bB";
    sampleCard "b2" (Some "2025-01-01T00:00:00.000Z") false "bB" ].

Definition trello0 : Trello.Remote :=
  {| Trello.member_boards := success [boardA; boardB];
     Trello.board_lists := fun b =>
       if String.eqb b "bA"
       then success [ {| Trello.List.id := "l1"; Trello.List.name := "To Do";
                         Trello.List.idBoard := "bA" |} ]
       else failure 500 "Internal Server Error";
     Trello.list_cards := fun _ => success [];
     Trello.board_cards := fun b =>
       if String.eqb b "bA" then success cardsA else success cardsB;
     Trello.post_card := fun body =>
       success (sampleCard "new" (Trello.new_due body) false "bA") |}.

(** A database row whose title column is called Task and comes after a
    text column. *)
Definition rowPage : value :=
  VObj [ ("id", VStr "59833787-2cf9-4fdf-8782-e53db20768a5");
         ("properties",
          VObj [ ("Notes", VObj [ ("type", VStr "rich_text");
                                  ("rich_text", VArr [VObj [("plain_text", VStr "note")]]) ]);
                 ("Task", VObj [ ("type", VStr "title");
                                 ("title", VArr [VObj [("plain_text", VStr "Hello")]]) ]) ]);
         ("url", VStr "https://www.notion.so/row") ].

(** A page whose only property is a checkbox. *)
Definition barePage : value :=
  VObj [ ("id", VStr "abcdef01-2345-6789-abcd-ef0123456789");
         ("properties", VObj [ ("Done", VObj [ ("type", VStr "checkbox");
                                               ("checkbox", VBool false) ]) ]);
         ("url", VStr "https://www.notion.so/bare") ].

(** Notion answering every request with the given results. *)
Definition notionWith (results : list value) : Notion.Remote :=
  fun _ _ _ => success (VObj [("object", VStr "list"); ("results", VArr results)]).

Definition gmail0 : GmailConnector := new_GmailConnector env0 (Some "token").

Definition message (snippet : string) : Gmail.RawMessage :=
  {| Gmail.raw_id := "m1"; Gmail.raw_snippet := Some snippet;
     Gmail.raw_payload :=
       Some {| Gmail.headers :=
                 Some [ {| Gmail.Header.name := "Subject"; Gmail.Header.value := "Review" |};
                        {| Gmail.Header.name := "From"; Gmail.Header.value := "ann@example.com" |} ] |};
     Gmail.raw_internalDate := None; Gmail.raw_labelIds := None |}.

(** Gmail holding one message with the given snippet. *)
Definition gmailWith (snippet : string) : Gmail.Remote :=
  fun _ => success (message snippet).

Definition widget0 : Storage.InsertWidget :=
  {| Storage.ins_type := "trello-tasks"; Storage.ins_name := "Tasks";
     Storage.ins_config := VUndefined; Storage.ins_position := None;
     Storage.ins_gridPosition := VUndefined; Storage.ins_userId := Some 1 |}.

Definition store0 : Storage.MemStorage :=
  {| Storage.widgets := ∅; Storage.currentWidgetId := 1 |}.

End Samples.

(** *** The vocabulary of the properties *)

(** The class a connector is an instance of, by its tag. *)
Definition connectorType (c : ConnectorFactory.Connector) : string :=
  match c with
  | ConnectorFactory.OfTrello _ => "trello"
  | ConnectorFactory.OfNotion _ => "notion"
  | ConnectorFactory.OfGmail _ => "gmail"
  end.

(** The same input with another grid position. *)
Definition withGrid (insertWidget : Storage.InsertWidget) (grid : value)
  : Storage.InsertWidget :=
  {| Storage.ins_type := Storage.ins_type insertWidget;
     Storage.ins_name := Storage.ins_name insertWidget;
     Storage.ins_config := Storage.ins_config insertWidget;
     Storage.ins_position := Storage.ins_position insertWidget;
     Storage.ins_gridPosition := grid;
     Storage.ins_userId := Storage.ins_userId insertWidget |}.

(** [createWidget] followed by [getWidget] of the id it assigned. *)
Definition refetch (this : Storage.MemStorage) (insertWidget : Storage.InsertWidget)
    (now : Z) : option Storage.Widget :=
  let '(widget, this') := Storage.createWidget this insertWidget now in
  Storage.getWidget this' (Storage.id widget).

(** The response [r] answers a request of [getPageContent]: the one for the
    page, or the one for its blocks after the page was fetched. *)
Definition answersContentFetch (notion : Notion.Remote) (pageId : string)
    (r : Response value) : Prop :=
  notion ("/pages/" +:+ pageId) "GET" VUndefined = Responded r \/
  ((exists pageData,
       Notion.fetchFromNotion notion ("/pages/" +:+ pageId) "GET" VUndefined
       = Normal pageData) /\
   notion ("/blocks/" +:+ pageId +:+ "/children") "GET" VUndefined = Responded r).

(** The answer to the request for the cards of each board, in order. *)
Definition cardsFetched (remote : Trello.Remote) (boards : list Trello.Board.t)
    (cardsByBoard : list (list Trello.Card.t)) : Prop :=
  Forall2 (fun board cards =>
             Trello.fetchFromTrello (Trello.board_cards remote (Trello.Board.id board))
             = Normal cards)
          boards cardsByBoard.

(** In the words of the specification: the due date is present, parses as
    a valid instant [t], and [lo <= t <= hi]. *)
Definition dueInClosedInterval (host : JSDate.Host) (lo hi : Z) (card : Trello.Card.t)
  : bool :=
  match Trello.Card.due card with
  | Some (String c s) =>
      match JSDate.new_Date host (String c s) with
      | Some t => (lo <=? t) && (t <=? hi)
      | None => false
      end
  | _ => false
  end.

(** The card with its completion flag replaced by [f card]. *)
Definition setComplete (f : Trello.Card.t -> bool) (card : Trello.Card.t) : Trello.Card.t :=
  {| Trello.Card.id := Trello.Card.id card;
     Trello.Card.name := Trello.Card.name card;
     Trello.Card.desc := Trello.Card.desc card;
     Trello.Card.due := Trello.Card.due card;
     Trello.Card.dueComplete := f card;
     Trello.Card.idBoard := Trello.Card.idBoard card;
     Trello.Card.idList := Trello.Card.idList card;
     Trello.Card.labels := Trello.Card.labels card |}.

(** The same answer with [f] applied to the body. *)
Definition mapFetched {A B} (f : A -> B) (answer : fetched A) : fetched B :=
  match answer with
  | Rejected e => Rejected e
  | Responded r =>
      Responded {| Http.status := Http.status r; Http.statusText := Http.statusText r;
                   Http.text := Http.text r; Http.json := option_map f (Http.json r) |}
  end.

(** Trello with the completion flag of every card it returns replaced. *)
Definition withFlags (f : Trello.Card.t -> bool) (remote : Trello.Remote) : Trello.Remote :=
  {| Trello.member_boards := Trello.member_boards remote;
     Trello.board_lists := Trello.board_lists remote;
     Trello.list_cards := fun l => mapFetched (map (setComplete f)) (Trello.list_cards remote l);
     Trello.board_cards := fun b => mapFetched (map (setComplete f)) (Trello.board_cards remote b);
     Trello.post_card := Trello.post_card remote |}.

(** [f] applied to the value returned, if any. *)
Definition mapCompletion {A B} (f : A -> B) (c : completion A) : completion B :=
  match c with
  | Normal a => Normal (f a)
  | Throw e => Throw e
  end.

(** [setComplete] under the status and members of the result. *)
Definition setCompleteEnhanced (f : Trello.Card.t -> bool) (e : Trello.EnhancedCard)
  : Trello.EnhancedCard :=
  {| Trello.card := setComplete f (Trello.card e);
     Trello.status := Trello.status e;
     Trello.members := Trello.members e |}.

(** [v.k] where the read cannot throw. *)
Definition field (k : string) (v : value) : value :=
  match get k v with
  | Normal x => x
  | Throw _ => VUndefined
  end.

(** A property that is no title: it is an object or a primitive (not
    [null]), its type is not [title], and neither its [title] nor its
    [rich_text] is an array with an element. *)
Definition carriesNoTitle (prop : value) : bool :=
  match prop with
  | VUndefined | VNull => false
  | _ =>
      negb (strict_eq_str (field "type" prop) "title")
      && negb (isNonEmptyArray (field "title" prop))
      && negb (isNonEmptyArray (field "rich_text" prop))
  end.

(** No property is called title, Title, Name or name, and none carries a
    title. *)
Definition propertiesUntitled (properties : value) : bool :=
  negb (ToBoolean (field "title" properties))
  && negb (ToBoolean (field "Title" properties))
  && negb (ToBoolean (field "Name" properties))
  && negb (ToBoolean (field "name" properties))
  && match Object_values properties with
     | Normal values => forallb carriesNoTitle values
     | Throw _ => false
     end.

(** A page object with no recognizable title property and no child-page
    title. *)
Definition noRecognizableTitle (page : value) : bool :=
  match page with
  | VObj fields =>
      (negb (ToBoolean (lookup_prop "properties" fields))
       || propertiesUntitled (lookup_prop "properties" fields))
      && (negb (ToBoolean (lookup_prop "child_page" fields))
          || negb (ToBoolean (field "title" (lookup_prop "child_page" fields))))
  | _ => false
  end.

(** The page either callback returns for such a page. *)
Definition untitled (page : value) : Notion.NotionPage :=
  {| Notion.id := field "id" page;
     Notion.title := VStr "Untitled";
     Notion.icon := field "icon" page;
     Notion.lastEditedTime := field "last_edited_time" page;
     Notion.url := field "url" page |}.

(** A server on UTC whose [Date.parse] knows noon of 16 March 2025. *)
Definition hostMidMarch : JSDate.Host :=
  {| JSDate.LocalTZA := 0;
     JSDate.Date_parse := fun s =>
       if String.eqb s "2025-03-16T12:00:00.000Z" then Some 1742126400000 else None;
     JSDate.toLocaleString := fun t => show t |}.

(** Trello with one board and, on it, one card due at noon of 16 March
    2025, completed or not. *)
Definition trelloOneCard (dueComplete : bool) : Trello.Remote :=
  {| Trello.member_boards := Samples.success [Samples.boardA];
     Trello.board_lists := fun _ =>
       Samples.success [ {| Trello.List.id := "l1"; Trello.List.name := "To Do";
                            Trello.List.idBoard := "bA" |} ];
     Trello.list_cards := fun _ => Samples.success [];
     Trello.board_cards := fun _ =>
       Samples.success
         [Samples.sampleCard "c1" (Some "2025-03-16T12:00:00.000Z") dueComplete "bA"];
     Trello.post_card := fun _ => Samples.failure 503 "Service Unavailable" |}.

(** The last millisecond of 15 March 2025 and the first of 16 March, UTC. *)
Definition beforeMidnight : Z := 1742083199999.
Definition atMidnight : Z := 1742083200000.

(** Trello answering the request to create a card with status 200 and a
    body that is not JSON. *)
Definition trelloNotJson : Trello.Remote :=
  {| Trello.member_boards := Samples.success [Samples.boardA];
     Trello.board_lists := fun _ => Samples.success [];
     Trello.list_cards := fun _ => Samples.success [];
     Trello.board_cards := fun _ => Samples.success [];
     Trello.post_card := fun _ =>
       Responded {| Http.status := 200; Http.statusText := "OK";
                    Http.text := "<html>"; Http.json := None |} |}.

(** *** Further inputs and vocabulary *)

(** Trello answering for board A and failing for the cards of board B. *)
Definition trelloPartial : Trello.Remote :=
  {| Trello.member_boards := Samples.success [Samples.boardA; Samples.boardB];
     Trello.board_lists := fun _ => Samples.success [];
     Trello.list_cards := fun _ => Samples.success [];
     Trello.board_cards := fun b =>
       if String.eqb b "bA" then Samples.success Samples.cardsA
       else Samples.failure 503 "Service Unavailable";
     Trello.post_card := fun _ => Samples.failure 503 "Service Unavailable" |}.

(** The lists [getLists] returns for a board. *)
Definition listsOf (remote : Trello.Remote) (boardId : string) : list Trello.List.t :=
  match Trello.getLists remote boardId with
  | Normal lists => lists
  | Throw _ => []
  end.

(** The name of the last list with the given id. *)
Definition lastNamed (listId : string) (lists : list Trello.List.t) : option string :=
  Trello.List.name <$>
    List.find (fun l => String.eqb (Trello.List.id l) listId) (rev lists).

(** The status of a card: the name of the last list with the id of the
    card's list among the lists of the card's board, when that board is one of
    [boards] and the name is not empty. *)
Definition statusOf (remote : Trello.Remote) (boards : list Trello.Board.t)
    (card : Trello.Card.t) : string :=
  str_or
    (if existsb (fun b => String.eqb (Trello.Board.id b) (Trello.Card.idBoard card)) boards
     then lastNamed (Trello.Card.idList card) (listsOf remote (Trello.Card.idBoard card))
     else None)
    "Unknown".

(** A host on UTC that parses nothing. *)
Definition hostUTC : JSDate.Host :=
  {| JSDate.LocalTZA := 0;
     JSDate.Date_parse := fun s =>
       if String.eqb s "2025-03-01T12:00:00.000Z" then Some 1740830400000 else None;
     JSDate.toLocaleString := fun t => show t |}.

(** One board with one card due at noon on 1 March 2025. *)
Definition trelloMarch : Trello.Remote :=
  {| Trello.member_boards := Samples.success [Samples.boardA];
     Trello.board_lists := fun _ => Samples.success [];
     Trello.list_cards := fun _ => Samples.success [];
     Trello.board_cards := fun _ =>
       Samples.success [Samples.sampleCard "m1" (Some "2025-03-01T12:00:00.000Z") false "bA"];
     Trello.post_card := fun _ => Samples.failure 503 "Service Unavailable" |}.

(** [properties.title || properties.Title || properties.Name || properties.name] *)
Definition namedTitleProperty (properties : value) : value :=
  Json.or (field "title" properties)
    (Json.or (field "Title" properties)
       (Json.or (field "Name" properties) (field "name" properties))).

(** The text a run of rich text contributes: its [plain_text] as a string,
    nothing when that is missing or falsy. *)
Definition runText (run : value) : string :=
  if ToBoolean (field "plain_text" run) then ToString (field "plain_text" run) else "".

(** The texts of the runs, one after the other. *)
Definition joinTexts (runs : list value) : string :=
  fold_right (fun run rest => runText run +:+ rest) "" runs.

(** A page without a child-page title. *)
Definition noChildTitle (page : value) : bool :=
  negb (ToBoolean (field "child_page" page))
  || negb (ToBoolean (field "title" (field "child_page" page))).

(** A database row with a column called Name that is a select, and the
    title in a column called Task. *)
Definition selectPage : value :=
  VObj [ ("id", VStr "0f1e2d3c-4b5a-6978-8796-a5b4c3d2e1f0");
         ("properties",
          VObj [ ("Name", VObj [ ("type", VStr "select");
                                 ("select", VObj [("name", VStr "High")]) ]);
                 ("Task", VObj [ ("type", VStr "title");
                                 ("title", VArr [VObj [("plain_text", VStr "Hello")]]) ]) ]) ].

(** A page whose title has two runs and one run without text. *)
Definition titledPage : value :=
  VObj [ ("id", VStr "11112222-3333-4444-5555-666677778888");
         ("properties",
          VObj [ ("title",
                  VObj [ ("type", VStr "title");
                         ("title", VArr [ VObj [("plain_text", VStr "Road")];
                                          VObj [("annotations", VObj [])];
                                          VObj [("plain_text", VStr "map")] ]) ]) ]) ].

(** A sub-page: the child-page title and a title property. *)
Definition childPage : value :=
  VObj [ ("id", VStr "99998888-7777-6666-5555-444433332222");
         ("properties",
          VObj [ ("title",
                  VObj [ ("title", VArr [VObj [("plain_text", VStr "From the property")]]) ]) ]);
         ("child_page", VObj [("title", VStr "From the child page")]) ].

(** Notion holding a page with a heading, a divider and a paragraph. *)
Definition notionContent : Notion.Remote :=
  fun endpoint _ _ =>
    if String.eqb endpoint "/pages/p1"
    then Samples.success (VObj [("id", VStr "p1")])
    else Samples.success
           (VObj [ ("results",
                    VArr [ VObj [ ("id", VStr "b1"); ("type", VStr "heading_1");
                                  ("heading_1",
                                   VObj [("rich_text",
                                          VArr [VObj [("plain_text", VStr "Plan")]])]);
                                  ("has_children", VBool false) ];
                           VObj [ ("id", VStr "b2"); ("type", VStr "divider");
                                  ("divider", VObj []); ("has_children", VBool false) ];
                           VObj [ ("id", VStr "b3"); ("type", VStr "paragraph");
                                  ("paragraph",
                                   VObj [("rich_text",
                                          VArr [ VObj [("plain_text", VStr "Ship ")];
                                                 VObj [("plain_text", VStr "it")] ])]);
                                  ("has_children", VBool true) ] ]) ]).

(** [normalized] is the block [getPageContent] makes of [block]: the id,
    the type, the content stored under the name of the type and the
    [has_children] flag are the block's, and the text is a string. *)
Definition normalizes (block : value) (normalized : Notion.Block) : Prop :=
  Notion.block_id normalized = field "id" block /\
  Notion.block_type normalized = field "type" block /\
  Notion.content normalized = field (ToString (field "type" block)) block /\
  Notion.has_children normalized = field "has_children" block /\
  exists s, Notion.text normalized = VStr s.

(** [blocksData.results || []] as a list; a value that is not an array has
    no [map]. *)
Definition resultsOf (blocksData : value) : list value :=
  match Json.or (field "results" blocksData) (VArr []) with
  | VArr blocks => blocks
  | _ => []
  end.

(** *** The other widget methods of [MemStorage] *)
Module WidgetStore.

(** [Partial<Widget>]: the fields [updates] has. *)
Record WidgetUpdates := {
  upd_id : option Z;
  upd_userId : option (option Z);
  upd_type : option string;
  upd_name : option string;
  upd_config : option value;
  upd_position : option Z;
  upd_gridPosition : option value;
  upd_createdAt : option Z
}.

(** [{ ...widget, ...updates }] *)
Definition spread (widget : Storage.Widget) (updates : WidgetUpdates) : Storage.Widget :=
  {| Storage.id := default (Storage.id widget) (upd_id updates);
     Storage.userId := default (Storage.userId widget) (upd_userId updates);
     Storage.type := default (Storage.type widget) (upd_type updates);
     Storage.name := default (Storage.name widget) (upd_name updates);
     Storage.config := default (Storage.config widget) (upd_config updates);
     Storage.position := default (Storage.position widget) (upd_position updates);
     Storage.gridPosition := default (Storage.gridPosition widget) (upd_gridPosition updates);
     Storage.createdAt := default (Storage.createdAt widget) (upd_createdAt updates) |}.

Definition updateWidget (this : Storage.MemStorage) (id : Z) (updates : WidgetUpdates)
  : option Storage.Widget * Storage.MemStorage :=
  match Storage.widgets this !! id with
  | None => (None, this)
  | Some widget =>
      let updatedWidget := spread widget updates in
      (Some updatedWidget,
       {| Storage.widgets := <[id := updatedWidget]> (Storage.widgets this);
          Storage.currentWidgetId := Storage.currentWidgetId this |})
  end.

(** [updateWidgetPosition({ id, gridPosition })] *)
Definition updateWidgetPosition (this : Storage.MemStorage) (id : Z) (gridPosition : value)
  : option Storage.Widget * Storage.MemStorage :=
  match Storage.widgets this !! id with
  | None => (None, this)
  | Some widget =>
      let updatedWidget :=
        {| Storage.id := Storage.id widget;
           Storage.userId := Storage.userId widget;
           Storage.type := Storage.type widget;
           Storage.name := Storage.name widget;
           Storage.config := Storage.config widget;
           Storage.position := Storage.position widget;
           Storage.gridPosition := gridPosition;
           Storage.createdAt := Storage.createdAt widget |} in
      (Some updatedWidget,
       {| Storage.widgets := <[id := updatedWidget]> (Storage.widgets this);
          Storage.currentWidgetId := Storage.currentWidgetId this |})
  end.

(** [this.widgets.delete(id)]: whether there was such a widget. *)
Definition deleteWidget (this : Storage.MemStorage) (id : Z) : bool * Storage.MemStorage :=
  (bool_decide (is_Some (Storage.widgets this !! id)),
   {| Storage.widgets := delete id (Storage.widgets this);
      Storage.currentWidgetId := Storage.currentWidgetId this |}).

(** The widgets the constructor seeds for the demo user, whose id is 1;
    [now] and [now'] are what the clock reads for the two widgets. *)
Definition seeded (env : Env) (now now' : Z) : Storage.MemStorage :=
  let trelloWidget :=
    {| Storage.id := 1; Storage.userId := Some 1; Storage.type := "trello-tasks";
       Storage.name := "Trello Tasks";
       Storage.config := VObj [("integrationType", VStr "trello")];
       Storage.position := 0; Storage.gridPosition := Storage.rect 0 0 1 1;
       Storage.createdAt := now |} in
  let notionWidget :=
    {| Storage.id := 2; Storage.userId := Some 1; Storage.type := "notion-pages";
       Storage.name := "Notion Pages";
       Storage.config := VObj [("integrationType", VStr "notion")];
       Storage.position := 1; Storage.gridPosition := Storage.rect 1 0 1 1;
       Storage.createdAt := now' |} in
  match NOTION_TOKEN env with
  | Some (String _ _) =>
      {| Storage.widgets := <[2 := notionWidget]> (<[1 := trelloWidget]> ∅);
         Storage.currentWidgetId := 3 |}
  | _ =>
      {| Storage.widgets := <[1 := trelloWidget]> ∅; Storage.currentWidgetId := 2 |}
  end.

End WidgetStore.

(** A call of a widget method that changes the store. *)
Inductive WidgetCall :=
| CallCreate (insertWidget : Storage.InsertWidget) (now : Z)
| CallUpdatePosition (id : Z) (gridPosition : value)
| CallDelete (id : Z).

Definition call (this : Storage.MemStorage) (c : WidgetCall) : Storage.MemStorage :=
  match c with
  | CallCreate insertWidget now => snd (Storage.createWidget this insertWidget now)
  | CallUpdatePosition id gridPosition =>
      snd (WidgetStore.updateWidgetPosition this id gridPosition)
  | CallDelete id => snd (WidgetStore.deleteWidget this id)
  end.

(** The store after the calls, first to last. *)
Definition calls (this : Storage.MemStorage) (cs : list WidgetCall) : Storage.MemStorage :=
  fold_left call cs this.

(** Every widget is stored under its own id, and the ids in use are below
    the next id. *)
Definition idsInOrder (this : Storage.MemStorage) : Prop :=
  forall k widget,
    Storage.widgets this !! k = Some widget ->
    Storage.id widget = k /\ k < Storage.currentWidgetId this.

(** *** The widget routes, after [isAuthenticated] *)
Module Routes.

(** The body a handler sends.  [SchemaIssues] stands for the message of a
    zod error, which lists the issues. *)
Inductive Body :=
| Message (message : string)
| SchemaIssues
| WidgetJson (widget : option Storage.Widget)
| NoBody.

Record Reply := { code : Z; body : Body }.

Definition errorMessage (e : error) : string :=
  match e with
  | Error m | TypeError m | RangeError m | SyntaxError m => m
  end.

(** [widget.userId !== userId] is false *)
Definition owns (userId : Z) (widget : Storage.Widget) : bool :=
  match Storage.userId widget with
  | Some owner => owner =? userId
  | None => false
  end.

(** [updateWidgetPositionSchema.parse({ id, gridPosition })] for a numeric
    id: the grid position must be an object whose x, y, w and h are numbers;
    other keys are stripped.  [None]: the parse throws. *)
Definition parseGridPosition (gridPosition : value) : option value :=
  match gridPosition with
  | VObj props =>
      match lookup_prop "x" props, lookup_prop "y" props,
            lookup_prop "w" props, lookup_prop "h" props with
      | VNum x, VNum y, VNum w, VNum h => Some (Storage.rect x y w h)
      | _, _, _, _ => None
      end
  | _ => None
  end.

(** The common start of the handlers: [widgetId] is [parseInt(req.params.id)],
    [None] when that is NaN.  The widget, or the reply that ends the
    request. *)
Definition findOwned (storage : Storage.MemStorage) (userId : Z) (widgetId : option Z)
  : Reply + Z * Storage.Widget :=
  match widgetId with
  | None => inl {| code := 404; body := Message "Widget not found" |}
  | Some id =>
      match Storage.getWidget storage id with
      | None => inl {| code := 404; body := Message "Widget not found" |}
      | Some widget =>
          if negb (owns userId widget)
          then inl {| code := 403; body := Message "Forbidden" |}
          else inr (id, widget)
      end
  end.

(** DELETE /api/widgets/:id *)
Definition deleteWidgetRoute (storage : Storage.MemStorage) (userId : Z)
    (widgetId : option Z) : Reply * Storage.MemStorage :=
  match findOwned storage userId widgetId with
  | inl reply => (reply, storage)
  | inr (id, widget) =>
      let '(_, storage') := WidgetStore.deleteWidget storage id in
      ({| code := 204; body := NoBody |}, storage')
  end.

(** PUT /api/widgets/:id, [updates] being [req.body] *)
Definition putWidgetRoute (storage : Storage.MemStorage) (userId : Z)
    (widgetId : option Z) (updates : WidgetStore.WidgetUpdates)
  : Reply * Storage.MemStorage :=
  match findOwned storage userId widgetId with
  | inl reply => (reply, storage)
  | inr (id, widget) =>
      let '(updatedWidget, storage') := WidgetStore.updateWidget storage id updates in
      ({| code := 200; body := WidgetJson updatedWidget |}, storage')
  end.

(** PUT /api/widgets/:id/position, [reqBody] being [req.body] *)
Definition putWidgetPositionRoute (storage : Storage.MemStorage) (userId : Z)
    (widgetId : option Z) (reqBody : value) : Reply * Storage.MemStorage :=
  match findOwned storage userId widgetId with
  | inl reply => (reply, storage)
  | inr (id, widget) =>
      match orM (get "position" reqBody) (get "gridPosition" reqBody) with
      | Throw e => ({| code := 400; body := Message (errorMessage e) |}, storage)
      | Normal position =>
          if negb (ToBoolean position)
          then ({| code := 400; body := Message "Position data is required" |}, storage)
          else
            match parseGridPosition position with
            | None => ({| code := 400; body := SchemaIssues |}, storage)
            | Some gridPosition =>
                let '(updatedWidget, storage') :=
                  WidgetStore.updateWidgetPosition storage id gridPosition in
                ({| code := 200; body := WidgetJson updatedWidget |}, storage')
            end
      end
  end.

(** The body [useDnd] sends: [{ position: targetPosition }]. *)
Definition dndBody (targetPosition : Z) : value :=
  VObj [("position", VNum targetPosition)].

End Routes.

(** Updates that give the widget to another user. *)
Definition giveTo (other : Z) : WidgetStore.WidgetUpdates :=
  {| WidgetStore.upd_id := None; WidgetStore.upd_userId := Some (Some other);
     WidgetStore.upd_type := None; WidgetStore.upd_name := None;
     WidgetStore.upd_config := None; WidgetStore.upd_position := None;
     WidgetStore.upd_gridPosition := None; WidgetStore.upd_createdAt := None |}.

(** The store with one widget of user 1, under id 1. *)
Definition storeOfDemo : Storage.MemStorage := WidgetStore.seeded Samples.env0 0 0.

(** *** A JavaScript [Map] with number keys: the entries in insertion order *)
Module JSMap.

Definition t (V : Type) : Type := list (Z * V).

Fixpoint get {V} (k : Z) (m : t V) : option V :=
  match m with
  | [] => None
  | (k', v) :: rest => if k =? k' then Some v else get k rest
  end.

(** [m.set(k, v)]: a key that is there keeps its place. *)
Fixpoint set {V} (k : Z) (v : V) (m : t V) : t V :=
  match m with
  | [] => [(k, v)]
  | (k', v') :: rest => if k =? k' then (k, v) :: rest else (k', v') :: set k v rest
  end.

Fixpoint delete {V} (k : Z) (m : t V) : t V :=
  match m with
  | [] => []
  | (k', v') :: rest => if k =? k' then rest else (k', v') :: delete k rest
  end.

(** [Array.from(m.values())] *)
Definition values {V} (m : t V) : list V := map snd m.

End JSMap.

(** *** The users of [MemStorage] and the login strategy *)
Module Users.

Record User := {
  id : Z;
  username : string;
  password : string;
  email : string;
  fullName : string;
  createdAt : Z
}.

Record InsertUser := {
  ins_username : string;
  ins_password : string;
  ins_email : string;
  ins_fullName : string
}.

(** The fields of [MemStorage] the user methods use. *)
Record Store := {
  users : JSMap.t User;
  currentUserId : Z
}.

Definition getUser (this : Store) (id : Z) : option User :=
  JSMap.get id (users this).

Definition getUserByUsername (this : Store) (name : string) : option User :=
  List.find (fun user => String.eqb (username user) name) (JSMap.values (users this)).

Definition createUser (this : Store) (insertUser : InsertUser) (now : Z) : User * Store :=
  let id := currentUserId this in
  let createdAt := now in
  let user :=
    {| id := id; username := ins_username insertUser;
       password := ins_password insertUser; email := ins_email insertUser;
       fullName := ins_fullName insertUser; createdAt := createdAt |} in
  (user, {| users := JSMap.set id user (users this); currentUserId := id + 1 |}).

(** The user [seedDemoUser] adds to the empty store. *)
Definition demoUser (now : Z) : User :=
  {| id := 1; username := "demo"; password := "password123";
     email := "demo@example.com"; fullName := "Demo User"; createdAt := now |}.

(** The users after the constructor. *)
Definition seeded (now : Z) : Store :=
  {| users := JSMap.set 1 (demoUser now) []; currentUserId := 2 |}.

(** What the login strategy passes to [done]. *)
Inductive Verdict :=
| Accepted (user : User)
| Refused (message : string)
| Failed (err : error).

(** The callback of [new LocalStrategy]; [compare] is [bcrypt.compare]. *)
Definition verify (compare : string -> string -> completion bool) (storage : Store)
    (name pass : string) : Verdict :=
  match getUserByUsername storage name with
  | None => Refused "Invalid username"
  | Some user =>
      if String.eqb name "demo" && String.eqb pass "demo" then Accepted user
      else if negb (String.eqb name "demo") then
        match compare pass (password user) with
        | Throw err => Failed err
        | Normal isValid =>
            if negb isValid then Refused "Invalid password" else Accepted user
        end
      else Accepted user
  end.

End Users.

(** The store after the users are created, first to last. *)
Definition register (this : Users.Store) (inserts : list (Users.InsertUser * Z))
  : Users.Store :=
  fold_left (fun store '(insertUser, now) => snd (Users.createUser store insertUser now))
    inserts this.

(** The keys of the entries are distinct and below the next id, and every
    user is stored under its own id. *)
Definition usersInOrder (this : Users.Store) : Prop :=
  NoDup (map fst (Users.users this)) /\
  forall k user, In (k, user) (Users.users this) ->
                 Users.id user = k /\ k < Users.currentUserId this.

(** A [bcrypt.compare] that accepts nothing. *)
Definition compareNever : string -> string -> completion bool := fun _ _ => Normal false.

(** A [bcrypt.compare] for hashes that are the password reversed. *)
Definition compareReversed : string -> string -> completion bool :=
  fun pass hash => Normal (String.eqb (String.rev pass) hash).

Definition ann : Users.InsertUser :=
  {| Users.ins_username := "ann"; Users.ins_password := "terces";
     Users.ins_email := "ann@example.com"; Users.ins_fullName := "Ann" |}.

(** A second account that asks for the name ann. *)
Definition ann' : Users.InsertUser :=
  {| Users.ins_username := "ann"; Users.ins_password := "drowssap";
     Users.ins_email := "other@example.com"; Users.ins_fullName := "Another Ann" |}.

(** *** [encodeURIComponent] on code units below 256 *)
Module Uri.

(** The characters that are not escaped: letters, digits and [-_.!~*'()]. *)
Definition isUnreserved (c : ascii) : bool :=
  Text.isDigit c || Text.between 65 90 c || Text.between 97 122 c
  || existsb (fun n => (Text.code c =? n)%N) [45; 95; 46; 33; 126; 42; 39; 40; 41]%N.

Definition hexDigit (n : N) : ascii :=
  if (n <? 10)%N then ascii_of_N (48 + n) else ascii_of_N (55 + n).

(** [%XX] *)
Definition escape (byte : N) : string :=
  String "%" (String (hexDigit (byte / 16)) (String (hexDigit (byte mod 16)) EmptyString)).

(** A code unit from 128 on is escaped as the two bytes of its UTF-8
    encoding. *)
Definition encodeUnit (c : ascii) : string :=
  if isUnreserved c then String c EmptyString
  else if (Text.code c <? 128)%N then escape (Text.code c)
  else escape (192 + Text.code c / 64) +:+ escape (128 + Text.code c mod 64).

Fixpoint encodeURIComponent (s : string) : string :=
  match s with
  | EmptyString => EmptyString
  | String c s' => encodeUnit c +:+ encodeURIComponent s'
  end.

End Uri.

(** *** The message lists of the Gmail connector *)
Module GmailLists.

Record MessageRef := { ref_id : string }.

(** The answer to a listing; [messages] may be missing. *)
Record Listing := { messages : option (list MessageRef) }.

(** What Gmail answers to GET on a listing endpoint. *)
Definition ListRemote := string -> fetched Listing.

Section Connector.
Context (this : GmailConnector) (listing : ListRemote) (remote : Gmail.Remote).

(** [fetchFromGmail(endpoint)] for a listing *)
Definition fetchListing (endpoint : string) : completion Listing :=
  try_catch
    (if Text.isEmpty (gmail_token this) then Throw (Error "Gmail API token is required")
     else fetchFrom "Gmail" (listing endpoint))
    (fun error => Throw error).

(** From the test of [data.messages] on: every message is fetched and
    processed; [Promise.all] keeps the order and rejects when a fetch does. *)
Definition fetchMessages (data : Listing) : completion (list Gmail.GmailMessage) :=
  match messages data with
  | None | Some [] => Normal []
  | Some refs =>
      mapM (fun msg =>
              let* fullMsg := Gmail.fetchMessage this remote (ref_id msg) in
              Normal (Gmail.processMessage fullMsg))
           refs
  end.

(** The body the three methods share. *)
Definition listEmails (endpoint : string) : completion (list Gmail.GmailMessage) :=
  try_catch
    (let* data := fetchListing endpoint in fetchMessages data)
    (fun error => Normal []).

Definition getRecentEmails (limit : Z) : completion (list Gmail.GmailMessage) :=
  listEmails ("/users/me/messages?maxResults=" +:+ show limit).

Definition getUnreadEmails : completion (list Gmail.GmailMessage) :=
  listEmails "/users/me/messages?q=is:unread".

Definition searchEmails (query : string) : completion (list Gmail.GmailMessage) :=
  let encodedQuery := Uri.encodeURIComponent query in
  listEmails ("/users/me/messages?q=" +:+ encodedQuery).

End Connector.

End GmailLists.

(** The messages with the listed ids are fetched, in order. *)
Definition messagesFetched (this : GmailConnector) (remote : Gmail.Remote)
    (refs : list GmailLists.MessageRef) (raws : list Gmail.RawMessage) : Prop :=
  Forall2 (fun ref raw => Gmail.fetchMessage this remote (GmailLists.ref_id ref) = Normal raw)
    refs raws.

(** A character [encodeURIComponent] may produce. *)
Definition isUriSafe (c : ascii) : bool :=
  Uri.isUnreserved c || (Text.code c =? 37)%N.

Fixpoint allChars (p : ascii -> bool) (s : string) : bool :=
  match s with
  | EmptyString => true
  | String c s' => p c && allChars p s'
  end.

(** Gmail listing two messages, the second of which cannot be fetched. *)
Definition listingTwo : GmailLists.ListRemote :=
  fun _ => Samples.success
             {| GmailLists.messages :=
                  Some [ {| GmailLists.ref_id := "m1" |}; {| GmailLists.ref_id := "m2" |} ] |}.

Definition gmailOne : Gmail.Remote :=
  fun id => if String.eqb id "m1" then Samples.success (Samples.message "Hello")
            else Samples.failure 404 "Not Found".

Definition gmailBoth : Gmail.Remote :=
  fun id => if String.eqb id "m1" then Samples.success (Samples.message "Hello")
            else Samples.success (Samples.message "Bye").

(** A connector without a token. *)
Definition gmailNoToken : GmailConnector := new_GmailConnector Samples.env0 None.

(** Gmail failing on the one listing whose query holds a raw space. *)
Definition listingRaw : GmailLists.ListRemote :=
  fun endpoint =>
    if String.eqb endpoint "/users/me/messages?q=a b" then Samples.failure 400 "Bad Request"
    else listingTwo endpoint.

(** *** The integrations of [MemStorage] *)
Module Integrations.

Record Integration := {
  id : Z;
  userId : option Z;
  type : string;
  name : string;
  accessToken : option string;
  refreshToken : option string;
  tokenExpiry : option JSDate.Date;
  connected : bool;
  lastSynced : option JSDate.Date;
  createdAt : Z
}.

(** [InsertIntegration & { userId?: number }] as the route passes it: the
    two dates are [Date] objects already. *)
Record InsertIntegration := {
  ins_type : string;
  ins_name : string;
  ins_accessToken : option string;
  ins_refreshToken : option string;
  ins_tokenExpiry : option JSDate.Date;
  ins_connected : option bool;
  ins_lastSynced : option JSDate.Date;
  ins_userId : option Z
}.

(** The fields of [MemStorage] the integration methods use. *)
Record Store := {
  integrations : JSMap.t Integration;
  currentIntegrationId : Z
}.

(** [s || null] *)
Definition orNull (s : option string) : option string :=
  match s with
  | Some (String c s') => Some (String c s')
  | _ => None
  end.

Definition getIntegrationsByUserId (this : Store) (userId : Z) : list Integration :=
  List.filter (fun integration =>
                 match Integrations.userId integration with
                 | Some owner => owner =? userId
                 | None => false
                 end)
    (JSMap.values (integrations this)).

Definition getIntegration (this : Store) (id : Z) : option Integration :=
  JSMap.get id (integrations this).

(** Returns the integration and the store after the call; [now] is what
    [new Date()] reads.  A [Date] is truthy, and [new Date(date)] has the
    time value of [date]. *)
Definition createIntegration (this : Store) (insertIntegration : InsertIntegration)
    (now : Z) : Integration * Store :=
  let id := currentIntegrationId this in
  let createdAt := now in
  let integration :=
    {| id := id;
       userId := ins_userId insertIntegration;
       type := ins_type insertIntegration;
       name := ins_name insertIntegration;
       accessToken := orNull (ins_accessToken insertIntegration);
       refreshToken := orNull (ins_refreshToken insertIntegration);
       tokenExpiry := ins_tokenExpiry insertIntegration;
       connected := default false (ins_connected insertIntegration);
       lastSynced := ins_lastSynced insertIntegration;
       createdAt := createdAt |} in
  (integration, {| integrations := JSMap.set id integration (integrations this);
                   currentIntegrationId := id + 1 |}).

Definition deleteIntegration (this : Store) (id : Z) : bool * Store :=
  (bool_decide (is_Some (JSMap.get id (integrations this))),
   {| integrations := JSMap.delete id (integrations this);
      currentIntegrationId := currentIntegrationId this |}).

(** The integrations the constructor seeds for the demo user, whose id is
    1; [clock n] is what the clock reads the [n]-th time in [seedDemoUser],
    the first reading being the one for the user. *)
Definition seeded (env : Env) (clock : nat -> Z) : Store :=
  let trelloIntegration :=
    {| id := 1; userId := Some 1; type := "trello"; name := "Trello";
       accessToken := Some (str_or (TRELLO_TOKEN env) "");
       refreshToken := None;
       connected := true;
       tokenExpiry := Some (JSDate.new_Date_now (clock 1%nat + 365 * 24 * 60 * 60 * 1000));
       lastSynced := Some (JSDate.new_Date_now (clock 2%nat));
       createdAt := clock 3%nat |} in
  let notionIntegration :=
    {| id := 2; userId := Some 1; type := "notion"; name := "Notion";
       accessToken := Some (str_or (NOTION_TOKEN env) "");
       refreshToken := None;
       connected := negb (Text.isEmpty (str_or (NOTION_TOKEN env) ""));
       tokenExpiry := Some (JSDate.new_Date_now (clock 4%nat + 365 * 24 * 60 * 60 * 1000));
       lastSynced := Some (JSDate.new_Date_now (clock 5%nat));
       createdAt := clock 6%nat |} in
  {| integrations := JSMap.set 2 notionIntegration (JSMap.set 1 trelloIntegration []);
     currentIntegrationId := 3 |}.

End Integrations.

(** *** The routes that read the services for the user's integrations *)
Module Proxy.

Inductive Body (A : Type) :=
| Message (message : string)
| Json (data : A).
Arguments Message {A} message.
Arguments Json {A} data.

Record Reply (A : Type) := { code : Z; body : Body A }.
Arguments code {A} _.
Arguments body {A} _.

(** The body of POST /api/integrations after [insertIntegrationSchema.parse];
    a date is an ISO string. *)
Record ParsedIntegration := {
  parsed_type : string;
  parsed_name : string;
  parsed_accessToken : option string;
  parsed_refreshToken : option string;
  parsed_tokenExpiry : option string;
  parsed_connected : option bool;
  parsed_lastSynced : option string
}.

(** [integrations.find(i => i.type === type && i.connected)] *)
Definition connectedOf (type : string) (integrations : list Integrations.Integration)
  : option Integrations.Integration :=
  List.find (fun i => String.eqb (Integrations.type i) type && Integrations.connected i)
    integrations.

(** [integration.accessToken || undefined] *)
Definition tokenOf (integration : Integrations.Integration) : option string :=
  Integrations.orNull (Integrations.accessToken integration).

Section Routes.
(** What each service answers to the requests of a connector. *)
Context (env : Env) (host : JSDate.Host)
        (trello : TrelloConnector -> Trello.Remote)
        (notion : NotionConnector -> Notion.Remote)
        (gmail : GmailConnector -> GmailLists.ListRemote * Gmail.Remote).

(** POST /api/integrations for a body the schema accepts, after
    [isAuthenticated]. *)
Definition postIntegration (storage : Integrations.Store) (userId : Z)
    (data : ParsedIntegration) (now : Z)
  : Reply Integrations.Integration * Integrations.Store :=
  if userId =? 0
  then ({| code := 401; body := Message "User not authenticated or user ID not found" |},
        storage)
  else
    let toDate (s : option string) : option JSDate.Date :=
      match s with
      | Some (String c s') => Some (JSDate.new_Date host (String c s'))
      | _ => None
      end in
    let integrationData :=
      {| Integrations.ins_type := parsed_type data;
         Integrations.ins_name := parsed_name data;
         Integrations.ins_accessToken := parsed_accessToken data;
         Integrations.ins_refreshToken := parsed_refreshToken data;
         Integrations.ins_tokenExpiry := toDate (parsed_tokenExpiry data);
         Integrations.ins_connected := parsed_connected data;
         Integrations.ins_lastSynced := toDate (parsed_lastSynced data);
         Integrations.ins_userId := Some userId |} in
    let '(integration, storage') :=
      Integrations.createIntegration storage integrationData now in
    ({| code := 201; body := Json integration |}, storage').

(** What the handler's [catch] sends. *)
Definition answer {A} (result : completion A) : Reply A :=
  match result with
  | Normal data => {| code := 200; body := Json data |}
  | Throw error => {| code := 500; body := Message (Routes.errorMessage error) |}
  end.

(** GET /api/trello/cards; [days] is the whole number of the query, [None]
    when the query has none; [clock0] and [clock1] as in [getCardsDueWithin]. *)
Definition trelloCards (storage : Integrations.Store) (userId : Z) (days : option Z)
    (clock0 clock1 : Z) : Reply (list Trello.EnhancedCard) :=
  let integrations := Integrations.getIntegrationsByUserId storage userId in
  match connectedOf "trello" integrations with
  | None => {| code := 404; body := Message "Trello integration not found or not connected" |}
  | Some trelloIntegration =>
      answer
        (let* connector :=
           ConnectorFactory.createConnector env "trello" (tokenOf trelloIntegration) in
         let daysParam := default 7 days in
         match connector with
         | ConnectorFactory.OfTrello c =>
             Trello.getCardsDueWithin host (trello c) daysParam clock0 clock1
         | _ => Throw (TypeError "connector.getCardsDueWithin is not a function")
         end)
  end.

(** GET /api/notion/pages *)
Definition notionPages (storage : Integrations.Store) (userId : Z) (limit : option Z)
  : Reply (list Notion.NotionPage) :=
  let integrations := Integrations.getIntegrationsByUserId storage userId in
  match connectedOf "notion" integrations with
  | None => {| code := 404; body := Message "Notion integration not found or not connected" |}
  | Some notionIntegration =>
      answer
        (let* connector :=
           ConnectorFactory.createConnector env "notion" (tokenOf notionIntegration) in
         let limitParam := default 5 limit in
         match connector with
         | ConnectorFactory.OfNotion c => Notion.getRecentPages (notion c) limitParam
         | _ => Throw (TypeError "connector.getRecentPages is not a function")
         end)
  end.

(** GET /api/notion/pages/:pageId *)
Definition notionPageContent (storage : Integrations.Store) (userId : Z) (pageId : string)
  : Reply Notion.PageContent :=
  if Text.isEmpty pageId then {| code := 400; body := Message "Page ID is required" |}
  else
    let integrations := Integrations.getIntegrationsByUserId storage userId in
    match connectedOf "notion" integrations with
    | None =>
        {| code := 404; body := Message "Notion integration not found or not connected" |}
    | Some notionIntegration =>
        answer
          (let* connector :=
             ConnectorFactory.createConnector env "notion" (tokenOf notionIntegration) in
           match connector with
           | ConnectorFactory.OfNotion c => Notion.getPageContent (notion c) pageId
           | _ => Throw (TypeError "connector.getPageContent is not a function")
           end)
    end.

(** GET /api/gmail/messages; [view] is the query's, [None] when it has
    none. *)
Definition gmailMessages (storage : Integrations.Store) (userId : Z) (view : option string)
  : Reply (list Gmail.GmailMessage) :=
  let view := str_or view "recent" in
  let integrations := Integrations.getIntegrationsByUserId storage userId in
  match connectedOf "gmail" integrations with
  | None => {| code := 404; body := Message "Gmail integration not found or not connected" |}
  | Some gmailIntegration =>
      answer
        (let* connector :=
           ConnectorFactory.createConnector env "gmail" (tokenOf gmailIntegration) in
         match connector with
         | ConnectorFactory.OfGmail c =>
             if String.eqb view "unread"
             then GmailLists.getUnreadEmails c (fst (gmail c)) (snd (gmail c))
             else GmailLists.getRecentEmails c (fst (gmail c)) (snd (gmail c)) 10
         | _ => Throw (TypeError "connector.getRecentEmails is not a function")
         end)
  end.

End Routes.

End Proxy.

(** The user has a connected integration of the type. *)
Definition hasConnected (type : string) (storage : Integrations.Store) (userId : Z) : bool :=
  bool_decide (is_Some (Proxy.connectedOf type
                          (Integrations.getIntegrationsByUserId storage userId))).

(** A connected Trello integration without a token, as a client posts it. *)
Definition tokenless (name : string) : Proxy.ParsedIntegration :=
  {| Proxy.parsed_type := "trello"; Proxy.parsed_name := name;
     Proxy.parsed_accessToken := None; Proxy.parsed_refreshToken := None;
     Proxy.parsed_tokenExpiry := None; Proxy.parsed_connected := Some true;
     Proxy.parsed_lastSynced := None |}.

(** Trello answering the server's own token only. *)
Definition trelloOfServer (c : TrelloConnector) : Trello.Remote :=
  if String.eqb (trello_token c) "server-token" then trelloMarch else Samples.trello500.

Definition envServer : Env :=
  {| TRELLO_TOKEN := Some "server-token"; TRELLO_API_KEY := Some "key";
     NOTION_TOKEN := None; GMAIL_API_TOKEN := None |}.

(** The integrations after the constructor, every clock reading being 0. *)
Definition integrationsOfDemo : Integrations.Store :=
  Integrations.seeded envServer (fun _ => 0).

(** *** The Trello widget of the client *)
Module TrelloWidget.

Record Badge := { text : string; className : string }.

Section Client.
Context (host : JSDate.Host).

(** [d.setHours(hour, min, sec, ms)]: the new value of [d]. *)
Definition setHours4 (d : JSDate.Date) (hour min sec ms : Z) : JSDate.Date :=
  t ← d;
  let t := JSDate.LocalTime host t in
  let date := JSDate.MakeDate (JSDate.Day t) (JSDate.MakeTime hour min sec ms) in
  JSDate.TimeClip (JSDate.UTC host date).

(** [a < b] on dates: false when either is invalid. *)
Definition date_ltb (a b : JSDate.Date) : bool :=
  match a, b with
  | Some x, Some y => x <? y
  | _, _ => false
  end.

(** [a.getTime() === b.getTime()]: NaN is not equal to itself. *)
Definition sameTime (a b : JSDate.Date) : bool :=
  match a, b with
  | Some x, Some y => x =? y
  | _, _ => false
  end.

(** [clock] is what [new Date()] reads. *)
Definition getDueDateStatus (dueDate : option string) (clock : Z) : Badge :=
  match dueDate with
  | None | Some EmptyString =>
      {| text := "No date"; className := "bg-slate-100 text-slate-800" |}
  | Some dueDate =>
      let due := JSDate.new_Date host dueDate in
      let today := JSDate.new_Date_now clock in
      let today := setHours4 today 0 0 0 0 in
      let tomorrow := today in
      let tomorrow :=
        JSDate.setDate host tomorrow (dt ← JSDate.getDate host tomorrow; Some (dt + 1)) in
      if date_ltb due today
      then {| text := "Overdue"; className := "bg-red-100 text-red-800" |}
      else if sameTime due today
      then {| text := "Today"; className := "bg-blue-100 text-blue-800" |}
      else if sameTime due tomorrow
      then {| text := "Tomorrow"; className := "bg-amber-100 text-amber-800" |}
      else {| text := "Upcoming"; className := "bg-slate-100 text-slate-800" |}
  end.

End Client.

End TrelloWidget.

(** The last local midnight at or before the instant [clock]. *)
Definition midnightBefore (host : JSDate.Host) (clock : Z) : Z :=
  clock - (clock + JSDate.LocalTZA host) mod JSDate.msPerDay.

(** The integrations once the demo user connects Notion. *)
Definition integrationsWithNotion : Integrations.Store :=
  snd (Integrations.createIntegration integrationsOfDemo
         {| Integrations.ins_type := "notion"; Integrations.ins_name := "Notes";
            Integrations.ins_accessToken := Some "secret";
            Integrations.ins_refreshToken := None;
            Integrations.ins_tokenExpiry := None;
            Integrations.ins_connected := Some true;
            Integrations.ins_lastSynced := None;
            Integrations.ins_userId := Some 1 |} 0).

(** ** Part II: the properties *)

(** *** The connector factory *)

Lemma toLowerCase_supported s :
  In s ConnectorFactory.supported -> toLowerCase s = s.
Proof.
  unfold ConnectorFactory.supported. simpl.
  intros [<- | [<- | [<- | []]]]; reflexivity.
Qed.

(** C7. [createConnector] compares the lower-cased tag with the three
    supported tags.  When it returns, the result is an instance of the class
    of the one supported tag that equals the given tag up to letter case;
    when it throws, no supported tag equals the given tag up to letter case
    and the error message names the tag as it was given. *)
Theorem createConnector_by_tag (env : Env) (type : string) (token : option string) :
  match ConnectorFactory.createConnector env type token with
  | Normal c =>
      In (connectorType c) ConnectorFactory.supported /\
      toLowerCase type = toLowerCase (connectorType c)
  | Throw e =>
      (forall s, In s ConnectorFactory.supported -> toLowerCase type <> toLowerCase s) /\
      e = Error ("Unsupported integration type: " +:+ type)
  end.
Proof.
  unfold ConnectorFactory.createConnector.
  destruct (String.eqb (toLowerCase type) "trello") eqn:Ht.
  { apply String.eqb_eq in Ht. simpl. rewrite Ht. auto. }
  destruct (String.eqb (toLowerCase type) "notion") eqn:Hn.
  { apply String.eqb_eq in Hn. simpl. rewrite Hn. auto. }
  destruct (String.eqb (toLowerCase type) "gmail") eqn:Hg.
  { apply String.eqb_eq in Hg. simpl. rewrite Hg. auto 6. }
  split; [| reflexivity].
  apply String.eqb_neq in Ht, Hn, Hg.
  intros s Hs. rewrite (toLowerCase_supported s Hs).
  unfold ConnectorFactory.supported in Hs. simpl in Hs.
  destruct Hs as [<- | [<- | [<- | []]]]; assumption.
Qed.

Example createConnector_mixed_case :
  ConnectorFactory.createConnector Samples.env0 "TrElLo" (Some "t")
  = Normal (ConnectorFactory.OfTrello
              {| trello_token := "t"; trello_apiKey := "key";
                 trello_baseUrl := "https://api.trello.com/1" |}).
Proof. reflexivity. Qed.

Example createConnector_unknown :
  ConnectorFactory.createConnector Samples.env0 "Slack" None
  = Throw (Error "Unsupported integration type: Slack").
Proof. reflexivity. Qed.

(** *** The widget store *)

Lemma refetch_created this insertWidget now :
  refetch this insertWidget now = Some (fst (Storage.createWidget this insertWidget now)).
Proof.
  unfold refetch, Storage.createWidget, Storage.getWidget. simpl.
  apply lookup_insert_eq.
Qed.

Lemma or_truthy a b : ToBoolean b = true -> ToBoolean (Json.or a b) = true.
Proof. unfold Json.or. destruct (ToBoolean a) eqn:Ha; auto. Qed.

(** A widget created earlier is still there after another is created. *)
Lemma createWidget_keeps_earlier this first second now now' :
  let '(widget, this') := Storage.createWidget this first now in
  let '(_, this'') := Storage.createWidget this' second now' in
  Storage.getWidget this'' (Storage.id widget) = Some widget.
Proof.
  unfold Storage.createWidget, Storage.getWidget. simpl.
  rewrite lookup_insert_ne by lia. apply lookup_insert_eq.
Qed.

(** C9. A widget created with the rectangle [{x, y, w, h}] and fetched again
    by the id it was given has that rectangle, with the same four values;
    the grid position of any created widget, fetched again, is neither
    [null] nor [undefined]; created without one (or with [null]) it is the
    unit cell at the origin. *)
Theorem createWidget_getWidget_roundtrip
    (this : Storage.MemStorage) (insertWidget : Storage.InsertWidget) (now x y w h : Z) :
  (exists widget,
      refetch this (withGrid insertWidget (Storage.rect x y w h)) now = Some widget /\
      Storage.gridPosition widget = Storage.rect x y w h /\
      get "x" (Storage.gridPosition widget) = Normal (VNum x) /\
      get "y" (Storage.gridPosition widget) = Normal (VNum y) /\
      get "w" (Storage.gridPosition widget) = Normal (VNum w) /\
      get "h" (Storage.gridPosition widget) = Normal (VNum h)) /\
  (exists widget,
      refetch this insertWidget now = Some widget /\
      Storage.gridPosition widget <> VNull /\
      Storage.gridPosition widget <> VUndefined) /\
  (exists widget,
      refetch this (withGrid insertWidget VUndefined) now = Some widget /\
      Storage.gridPosition widget = Storage.rect 0 0 1 1) /\
  (exists widget,
      refetch this (withGrid insertWidget VNull) now = Some widget /\
      Storage.gridPosition widget = Storage.rect 0 0 1 1).
Proof.
  repeat split.
  - eexists. split; [apply refetch_created |]. simpl. repeat split; reflexivity.
  - eexists. split; [apply refetch_created |].
    assert (Ht : ToBoolean (Storage.gridPosition
                              (fst (Storage.createWidget this insertWidget now))) = true)
      by (simpl; apply or_truthy; reflexivity).
    split; intros Heq; rewrite Heq in Ht; discriminate.
  - eexists. split; [apply refetch_created |]. reflexivity.
  - eexists. split; [apply refetch_created |]. reflexivity.
Qed.

Example createWidget_default_grid :
  refetch Samples.store0 Samples.widget0 1735084800000
  = Some {| Storage.id := 1; Storage.userId := Some 1; Storage.type := "trello-tasks";
            Storage.name := "Tasks"; Storage.config := VObj []; Storage.position := 0;
            Storage.gridPosition := Storage.rect 0 0 1 1;
            Storage.createdAt := 1735084800000 |}.
Proof. reflexivity. Qed.

(** *** Failure policy of the connectors *)

Lemma fetchFrom_not_ok {A} service (r : Response A) :
  ok r = false ->
  fetchFrom service (Responded r)
  = Throw (Error (service +:+ " API error: " +:+ show (Http.status r)
                  +:+ " " +:+ Http.statusText r)).
Proof. intros H. unfold fetchFrom. rewrite H. reflexivity. Qed.

(** Neither of the three list operations throws. *)
Lemma getBoards_total remote : exists boards, Trello.getBoards remote = Normal boards.
Proof.
  unfold Trello.getBoards.
  destruct (Trello.fetchFromTrello (Trello.member_boards remote)); simpl; eauto.
Qed.

Lemma getLists_total remote boardId :
  exists lists, Trello.getLists remote boardId = Normal lists.
Proof.
  unfold Trello.getLists.
  destruct (Trello.fetchFromTrello (Trello.board_lists remote boardId)); simpl; eauto.
Qed.

Lemma getCardsOnList_total remote listId :
  exists cards, Trello.getCardsOnList remote listId = Normal cards.
Proof.
  unfold Trello.getCardsOnList.
  destruct (Trello.fetchFromTrello (Trello.list_cards remote listId)); simpl; eauto.
Qed.

(** C8. Each operation by the answer to its own request.  When Trello
    answers the request for the boards with a status outside 200..299,
    [getBoards] returns the empty list (and so does [getCardsDueWithin]);
    when it so answers the request for the lists of a board, [getLists]
    returns the empty list for that board; when it so answers the request
    for the cards of a list, [getCardsOnList] returns the empty list for
    that list.  When Notion so answers the page request, or the blocks
    request after the page was fetched, [getPageContent] throws the error
    that carries the status and its text. *)
Theorem non_2xx_lists_empty_content_throws
    (host : JSDate.Host) (trello : Trello.Remote) (notion : Notion.Remote) :
  (forall rb : Response (list Trello.Board.t),
      Trello.member_boards trello = Responded rb -> ok rb = false ->
      Trello.getBoards trello = Normal [] /\
      forall days clock0 clock1,
        Trello.getCardsDueWithin host trello days clock0 clock1 = Normal []) /\
  (forall (boardId : string) (rl : Response (list Trello.List.t)),
      Trello.board_lists trello boardId = Responded rl -> ok rl = false ->
      Trello.getLists trello boardId = Normal []) /\
  (forall (listId : string) (rc : Response (list Trello.Card.t)),
      Trello.list_cards trello listId = Responded rc -> ok rc = false ->
      Trello.getCardsOnList trello listId = Normal []) /\
  (forall (pageId : string) (rp : Response value),
      answersContentFetch notion pageId rp -> ok rp = false ->
      Notion.getPageContent notion pageId
      = Throw (Error ("Notion API error: " +:+ show (Http.status rp)
                      +:+ " " +:+ Http.statusText rp))).
Proof.
  split; [| split; [| split]].
  - intros rb Hb Hbk.
    assert (HB : Trello.getBoards trello = Normal []).
    { unfold Trello.getBoards, Trello.fetchFromTrello.
      rewrite Hb, (fetchFrom_not_ok _ _ Hbk). reflexivity. }
    split; [exact HB |].
    intros days clock0 clock1. unfold Trello.getCardsDueWithin. rewrite HB. reflexivity.
  - intros boardId rl Hl Hlk.
    unfold Trello.getLists, Trello.fetchFromTrello.
    rewrite Hl, (fetchFrom_not_ok _ _ Hlk). reflexivity.
  - intros listId rc Hc Hck.
    unfold Trello.getCardsOnList, Trello.fetchFromTrello.
    rewrite Hc, (fetchFrom_not_ok _ _ Hck). reflexivity.
  - intros pageId rp Hp Hpk.
    unfold Notion.getPageContent.
    destruct Hp as [Hp | [[pageData Hpage] Hp]].
    + unfold Notion.fetchFromNotion. simpl. rewrite Hp, (fetchFrom_not_ok _ _ Hpk).
      reflexivity.
    + rewrite Hpage. unfold Notion.fetchFromNotion at 1. simpl.
      rewrite Hp, (fetchFrom_not_ok _ _ Hpk). reflexivity.
Qed.

(** Board A of the sample answers the request for its lists; board B
    answers 500, and [getLists] returns the empty list for it alone. *)
Lemma non_2xx_witness :
  Trello.getBoards Samples.trello500 = Normal [] /\
  Trello.getCardsDueWithin Samples.host0 Samples.trello500 7 0 0 = Normal [] /\
  Trello.getLists Samples.trello0 "bB" = Normal [] /\
  Trello.getCardsOnList Samples.trello500 "l" = Normal [] /\
  Notion.getPageContent Samples.notion500 "p"
  = Throw (Error "Notion API error: 500 Internal Server Error").
Proof.
  destruct (non_2xx_lists_empty_content_throws
              Samples.host0 Samples.trello500 Samples.notion500)
    as (Hboards & _ & Hcards & Hcontent).
  destruct (non_2xx_lists_empty_content_throws
              Samples.host0 Samples.trello0 Samples.notion500)
    as (_ & Hlists & _).
  destruct (Hboards (Samples.failed 500 "Internal Server Error") eq_refl eq_refl)
    as [HB HD].
  split; [exact HB |].
  split; [apply HD |].
  split; [apply (Hlists "bB" (Samples.failed 500 "Internal Server Error")); reflexivity |].
  split; [apply (Hcards "l" (Samples.failed 500 "Internal Server Error")); reflexivity |].
  apply (Hcontent "p" (Samples.failed 500 "Internal Server Error"));
    [left; reflexivity | reflexivity].
Defined.


(** *** Calendar arithmetic behind [setDate] and [setHours] *)

Lemma DayFromYear_bounds y :
  146097 * (y - 1970) - 506 <= 400 * JSDate.DayFromYear y <= 146097 * (y - 1970) + 589.
Proof. unfold JSDate.DayFromYear. Z.to_euclidean_division_equations. lia. Qed.

(** [YearFromTime t] is the largest year that starts on or before the day
    of [t]. *)
Lemma YearFromTime_largest t :
  JSDate.DayFromYear (JSDate.YearFromTime t) <= JSDate.Day t
  /\ forall y, JSDate.DayFromYear y <= JSDate.Day t -> y <= JSDate.YearFromTime t.
Proof.
  unfold JSDate.YearFromTime. generalize (JSDate.Day t). intros d.
  set (y0 := 1970 + d * 10000 / 3652425).
  assert (Hy : 3652425 * (y0 - 1970) <= d * 10000 < 3652425 * (y0 - 1969))
    by (subst y0; Z.to_euclidean_division_equations; lia).
  clearbody y0.
  pose proof (DayFromYear_bounds (y0 - 1)).
  pose proof (DayFromYear_bounds y0).
  pose proof (DayFromYear_bounds (y0 + 1)).
  pose proof (DayFromYear_bounds (y0 + 2)).
  assert (Hlate : forall y, y0 + 2 <= y -> d < JSDate.DayFromYear y)
    by (intros y Hge; pose proof (DayFromYear_bounds y); lia).
  destruct (Z.ltb_spec d (JSDate.DayFromYear y0)) as [Hlt | Hge].
  - split; [lia |]. intros y Hle.
    destruct (Z.le_gt_cases y (y0 - 1)) as [| Hgt]; [assumption |].
    destruct (Z.eq_dec y y0) as [-> | Hne]; [lia |].
    destruct (Z.eq_dec y (y0 + 1)) as [-> | Hne']; [lia |].
    specialize (Hlate y ltac:(lia)). lia.
  - destruct (Z.leb_spec (JSDate.DayFromYear (y0 + 1)) d) as [Hle' | Hgt'].
    + split; [lia |]. intros y Hle.
      destruct (Z.le_gt_cases y (y0 + 1)) as [| Hgt]; [assumption |].
      specialize (Hlate y ltac:(lia)). lia.
    + split; [lia |]. intros y Hle.
      destruct (Z.le_gt_cases y y0) as [| Hgt]; [assumption |].
      destruct (Z.eq_dec y (y0 + 1)) as [-> | Hne']; [lia |].
      specialize (Hlate y ltac:(lia)). lia.
Qed.

Lemma MonthFromTime_range t : 0 <= JSDate.MonthFromTime t <= 11.
Proof.
  unfold JSDate.MonthFromTime.
  repeat match goal with
         | |- context [if ?b then _ else _] => destruct b
         end; lia.
Qed.

(** Within the month of [t], day [d] of the month is [d - DateFromTime t]
    days away from the day of [t]. *)
Lemma MakeDay_same_month t d :
  JSDate.MakeDay (JSDate.YearFromTime t) (JSDate.MonthFromTime t) d
  = JSDate.Day t + (d - JSDate.DateFromTime t).
Proof.
  pose proof (MonthFromTime_range t) as Hm.
  unfold JSDate.MakeDay.
  rewrite (Z.div_small (JSDate.MonthFromTime t) 12) by lia.
  rewrite (Z.mod_small (JSDate.MonthFromTime t) 12) by lia.
  rewrite Z.add_0_r.
  unfold JSDate.DateFromTime, JSDate.DayWithinYear, JSDate.InLeapYear. lia.
Qed.

Lemma MakeDate_shift t k :
  JSDate.MakeDate (JSDate.Day t + k) (JSDate.TimeWithinDay t) = t + k * JSDate.msPerDay.
Proof.
  unfold JSDate.MakeDate, JSDate.Day, JSDate.TimeWithinDay, JSDate.msPerDay.
  pose proof (Z.div_mod t 86400000). lia.
Qed.

(** [futureDate.setDate(now.getDate() + days)], the two dates being valid:
    [futureDate] moves by [days] days and by the difference of the two days
    of the month. *)
Lemma setDate_getDate_shift host t0 t1 days :
  JSDate.setDate host (Some t1) (dt ← JSDate.getDate host (Some t0); Some (dt + days))
  = JSDate.TimeClip
      (t1 + (JSDate.DateFromTime (JSDate.LocalTime host t0)
             - JSDate.DateFromTime (JSDate.LocalTime host t1) + days) * JSDate.msPerDay).
Proof.
  simpl. f_equal. rewrite MakeDay_same_month, MakeDate_shift.
  unfold JSDate.UTC, JSDate.LocalTime. lia.
Qed.

Lemma TimeClip_in_range t :
  Z.abs t <= 8640000000000000 -> JSDate.TimeClip t = Some t.
Proof.
  intros H. unfold JSDate.TimeClip.
  destruct (Z.gtb_spec (Z.abs t) 8640000000000000); [lia | reflexivity].
Qed.

(** *** Cards due within a number of days *)

Lemma collectLists_total remote boards boardLists :
  exists boardLists', Trello.collectLists remote boards boardLists = Normal boardLists'.
Proof.
  revert boardLists. induction boards as [| board rest IH]; intros boardLists; simpl.
  - eauto.
  - destruct (getLists_total remote (Trello.Board.id board)) as [lists ->]. simpl.
    apply IH.
Qed.

Lemma collectCards_fetched remote boardLists boards cardsByBoard allCards :
  cardsFetched remote boards cardsByBoard ->
  Trello.collectCards remote boardLists boards allCards
  = Normal (allCards ++ map (Trello.enhance boardLists) (concat cardsByBoard)).
Proof.
  intros H. revert allCards.
  induction H as [| board cards boards cardsByBoard Hfetch _ IH]; intros allCards; simpl.
  - rewrite app_nil_r. reflexivity.
  - rewrite Hfetch. simpl. rewrite IH, map_app, app_assoc. reflexivity.
Qed.

(** What [getCardsDueWithin] returns when the boards and the cards of each
    board are fetched. *)
Lemma getCardsDueWithin_fetched host remote days clock0 clock1 boards cardsByBoard :
  Trello.fetchFromTrello (Trello.member_boards remote) = Normal boards ->
  cardsFetched remote boards cardsByBoard ->
  exists boardLists,
    Trello.getCardsDueWithin host remote days clock0 clock1
    = Normal (List.filter
                (Trello.dueWithin host (JSDate.new_Date_now clock0)
                   (JSDate.setDate host (JSDate.new_Date_now clock1)
                      (dt ← JSDate.getDate host (JSDate.new_Date_now clock0);
                       Some (dt + days))))
                (map (Trello.enhance boardLists) (concat cardsByBoard))).
Proof.
  intros Hboards Hcards.
  unfold Trello.getCardsDueWithin, Trello.getBoards. rewrite Hboards. simpl.
  destruct boards as [| board rest].
  - inversion Hcards; subst. exists ∅. reflexivity.
  - destruct (collectLists_total remote (board :: rest) ∅) as [boardLists HL].
    exists boardLists.
    change ((length (board :: rest) =? 0)%nat) with false. cbv iota.
    rewrite HL. cbn [JS.bind].
    rewrite (collectCards_fetched _ _ _ _ [] Hcards). reflexivity.
Qed.

Lemma dueWithin_enhance host boardLists lo hi card :
  Trello.dueWithin host (Some lo) (Some hi) (Trello.enhance boardLists card)
  = dueInClosedInterval host lo hi card.
Proof.
  unfold Trello.dueWithin, dueInClosedInterval. simpl.
  destruct (Trello.Card.due card) as [[| c s] |]; try reflexivity.
  destruct (JSDate.new_Date host (String c s)); reflexivity.
Qed.

Lemma filter_dueWithin_enhance host boardLists lo hi cards :
  map Trello.card
    (List.filter (Trello.dueWithin host (Some lo) (Some hi))
       (map (Trello.enhance boardLists) cards))
  = List.filter (dueInClosedInterval host lo hi) cards.
Proof.
  induction cards as [| card cards IH]; simpl; [reflexivity |].
  rewrite (dueWithin_enhance host boardLists lo hi card).
  destruct (dueInClosedInterval host lo hi card); simpl; rewrite IH; reflexivity.
Qed.

(** The two dates of the filter when both readings of the clock are [now]. *)
Lemma window_of_now host now days :
  Z.abs now <= 8640000000000000 ->
  Z.abs (now + days * JSDate.msPerDay) <= 8640000000000000 ->
  JSDate.new_Date_now now = Some now /\
  JSDate.setDate host (JSDate.new_Date_now now)
    (dt ← JSDate.getDate host (JSDate.new_Date_now now); Some (dt + days))
  = Some (now + days * JSDate.msPerDay).
Proof.
  intros Hnow Hend. unfold JSDate.new_Date_now.
  rewrite (TimeClip_in_range now Hnow). split; [reflexivity |].
  rewrite setDate_getDate_shift.
  replace (now + _ * JSDate.msPerDay) with (now + days * JSDate.msPerDay) by lia.
  apply TimeClip_in_range, Hend.
Qed.

(** When the two readings of the clock give the same instant [now]: with
    the boards and the cards of every board fetched, and [now] and
    [now + days] instants a [Date] can hold, [getCardsDueWithin days] returns
    the cards whose due date is present, parses as a valid instant and lies
    in the closed interval from [now] to [now + days] days, and no other
    card, in the order of the responses, board after board. *)
Lemma getCardsDueWithin_closed_interval
    (host : JSDate.Host) (remote : Trello.Remote) (days now : Z)
    (boards : list Trello.Board.t) (cardsByBoard : list (list Trello.Card.t)) :
  Z.abs now <= 8640000000000000 ->
  Z.abs (now + days * JSDate.msPerDay) <= 8640000000000000 ->
  Trello.fetchFromTrello (Trello.member_boards remote) = Normal boards ->
  cardsFetched remote boards cardsByBoard ->
  exists result,
    Trello.getCardsDueWithin host remote days now now = Normal result /\
    map Trello.card result
    = List.filter (dueInClosedInterval host now (now + days * JSDate.msPerDay))
        (concat cardsByBoard).
Proof.
  intros Hnow Hend Hboards Hcards.
  destruct (getCardsDueWithin_fetched host remote days now now boards cardsByBoard
              Hboards Hcards) as [boardLists Hresult].
  destruct (window_of_now host now days Hnow Hend) as [Hlo Hhi].
  rewrite Hhi, Hlo in Hresult.
  eexists. split; [exact Hresult |].
  apply filter_dueWithin_enhance.
Qed.

Lemma sample_cards_fetched :
  cardsFetched Samples.trello0 [Samples.boardA; Samples.boardB]
    [Samples.cardsA; Samples.cardsB].
Proof. repeat constructor. Qed.

(** Seven days from midnight of 25 December 2024 (UTC): the card due at
    that instant and the one due at the last instant of the window are
    returned; the card without a due date, the one whose due date does not
    parse and the one due a millisecond late are not. *)
Lemma getCardsDueWithin_closed_interval_witness :
  exists result,
    Trello.getCardsDueWithin Samples.host0 Samples.trello0 7 1735084800000 1735084800000
    = Normal result /\
    map Trello.card result
    = [ Samples.sampleCard "a1" (Some "2024-12-25T00:00:00.000Z") true "bA";
        Samples.sampleCard "b2" (Some "2025-01-01T00:00:00.000Z") false "bB" ].
Proof.
  destruct (getCardsDueWithin_closed_interval
              Samples.host0 Samples.trello0 7 1735084800000
              [Samples.boardA; Samples.boardB] [Samples.cardsA; Samples.cardsB])
    as [result [Hresult Hcards]].
  - vm_compute. discriminate.
  - vm_compute. discriminate.
  - reflexivity.
  - exact sample_cards_fetched.
  - exists result. split; [exact Hresult |]. rewrite Hcards. reflexivity.
Defined.

(** C1. The two dates of the filter come from two readings of the clock:
    [now] is the first, and [futureDate] is the second with its day of the
    month set to that of [now] plus [days].  Trello holds one card, due at
    noon of 16 March 2025; the server, on UTC, is asked for the cards due
    within one day and reads the last millisecond of 15 March, then the
    first of 16 March.  The due date lies between now and one day after now,
    whichever reading is taken for now, and the card is returned when the
    two readings agree on either instant; with the two readings [futureDate]
    is the second reading itself, a millisecond after [now], and nothing is
    returned. *)
Theorem getCardsDueWithin_loses_a_card_across_midnight :
  let card := Samples.sampleCard "c1" (Some "2025-03-16T12:00:00.000Z") false "bA" in
  let remote := trelloOneCard false in
  dueInClosedInterval hostMidMarch beforeMidnight (beforeMidnight + 1 * JSDate.msPerDay) card
  = true /\
  dueInClosedInterval hostMidMarch atMidnight (atMidnight + 1 * JSDate.msPerDay) card
  = true /\
  mapCompletion (map Trello.card)
    (Trello.getCardsDueWithin hostMidMarch remote 1 beforeMidnight beforeMidnight)
  = Normal [card] /\
  mapCompletion (map Trello.card)
    (Trello.getCardsDueWithin hostMidMarch remote 1 atMidnight atMidnight)
  = Normal [card] /\
  JSDate.setDate hostMidMarch (JSDate.new_Date_now atMidnight)
    (dt ← JSDate.getDate hostMidMarch (JSDate.new_Date_now beforeMidnight); Some (dt + 1))
  = Some atMidnight /\
  Trello.getCardsDueWithin hostMidMarch remote 1 beforeMidnight atMidnight = Normal [].
Proof. vm_compute. repeat split; reflexivity. Qed.

Example getCardsDueWithin_sample_status :
  (fun r => match r with
            | Normal cards => map Trello.status cards
            | Throw _ => []
            end)
    (Trello.getCardsDueWithin Samples.host0 Samples.trello0 7 1735084800000 1735084800000)
  = ["To Do"; "Unknown"].
Proof. vm_compute. reflexivity. Qed.

(** When the second reading of the clock is later than the first, on the
    same local day of the month, the window ends [days] days after the
    second reading. *)
Lemma futureDate_of_two_readings host clock0 clock1 days :
  JSDate.DateFromTime (JSDate.LocalTime host clock0)
  = JSDate.DateFromTime (JSDate.LocalTime host clock1) ->
  JSDate.setDate host (Some clock1)
    (dt ← JSDate.getDate host (Some clock0); Some (dt + days))
  = JSDate.TimeClip (clock1 + days * JSDate.msPerDay).
Proof.
  intros Hsame. rewrite setDate_getDate_shift, Hsame. f_equal. lia.
Qed.

(** When the two readings of the clock give the same instant [now]: with
    the boards and the cards of every board fetched, a card whose due date
    lies in the closed interval from [now] to [now + days] days is among
    the cards returned, its completion flag being [true] or [false]: the
    flag is returned as it came. *)
Lemma getCardsDueWithin_keeps_completed
    (host : JSDate.Host) (remote : Trello.Remote) (days now : Z)
    (boards : list Trello.Board.t) (cardsByBoard : list (list Trello.Card.t))
    (card : Trello.Card.t) (completed : bool) :
  Z.abs now <= 8640000000000000 ->
  Z.abs (now + days * JSDate.msPerDay) <= 8640000000000000 ->
  Trello.fetchFromTrello (Trello.member_boards remote) = Normal boards ->
  cardsFetched remote boards cardsByBoard ->
  In card (concat cardsByBoard) ->
  dueInClosedInterval host now (now + days * JSDate.msPerDay) card = true ->
  Trello.Card.dueComplete card = completed ->
  exists result enhanced,
    Trello.getCardsDueWithin host remote days now now = Normal result /\
    In enhanced result /\
    Trello.card enhanced = card /\
    Trello.Card.dueComplete (Trello.card enhanced) = completed.
Proof.
  intros Hnow Hend Hboards Hcards Hin Hdue Hflag.
  destruct (getCardsDueWithin_fetched host remote days now now boards cardsByBoard
              Hboards Hcards) as [boardLists Hresult].
  destruct (window_of_now host now days Hnow Hend) as [Hlo Hhi].
  rewrite Hhi, Hlo in Hresult.
  eexists. exists (Trello.enhance boardLists card).
  split; [exact Hresult |]. split; [| split; [reflexivity | exact Hflag]].
  apply List.filter_In. split.
  - apply List.in_map, Hin.
  - rewrite dueWithin_enhance. exact Hdue.
Qed.

Lemma getCardsDueWithin_keeps_completed_witness :
  exists result enhanced,
    Trello.getCardsDueWithin Samples.host0 Samples.trello0 7 1735084800000 1735084800000
    = Normal result /\
    In enhanced result /\
    Trello.card enhanced
    = Samples.sampleCard "a1" (Some "2024-12-25T00:00:00.000Z") true "bA" /\
    Trello.Card.dueComplete (Trello.card enhanced) = true.
Proof.
  apply (getCardsDueWithin_keeps_completed
           Samples.host0 Samples.trello0 7 1735084800000
           [Samples.boardA; Samples.boardB] [Samples.cardsA; Samples.cardsB]).
  - vm_compute. discriminate.
  - vm_compute. discriminate.
  - reflexivity.
  - exact sample_cards_fetched.
  - simpl. left. reflexivity.
  - reflexivity.
  - reflexivity.
Defined.

(** C10. A completed card whose due date lies in the window is lost with
    the window, by the two readings of the clock and not by its flag.
    Trello holds one card, due at noon of 16 March 2025 and completed or
    not; the server, on UTC, is asked for the cards due within one day.
    When both readings of the clock are the last millisecond of 15 March the
    card is returned with its flag, as the filter reads the due date alone;
    when the second reading is the first millisecond of 16 March the card,
    which is due between now and one day after now, is not returned, be it
    completed or not. *)
Theorem getCardsDueWithin_loses_a_completed_card_across_midnight (completed : bool) :
  let card := Samples.sampleCard "c1" (Some "2025-03-16T12:00:00.000Z") completed "bA" in
  let remote := trelloOneCard completed in
  Trello.Card.dueComplete card = completed /\
  dueInClosedInterval hostMidMarch beforeMidnight (beforeMidnight + 1 * JSDate.msPerDay) card
  = true /\
  mapCompletion (map Trello.card)
    (Trello.getCardsDueWithin hostMidMarch remote 1 beforeMidnight beforeMidnight)
  = Normal [card] /\
  Trello.getCardsDueWithin hostMidMarch remote 1 beforeMidnight atMidnight = Normal [].
Proof. destruct completed; vm_compute; repeat split; reflexivity. Qed.

Lemma fetchFrom_mapFetched {A B} (f : A -> B) service (answer : fetched A) :
  fetchFrom service (mapFetched f answer) = mapCompletion f (fetchFrom service answer).
Proof.
  destruct answer as [e | r]; [reflexivity |].
  unfold fetchFrom, mapFetched, ok. simpl.
  destruct (_ && _); simpl; [| reflexivity].
  destruct (json r); reflexivity.
Qed.

Lemma collectLists_withFlags f remote boards boardLists :
  Trello.collectLists (withFlags f remote) boards boardLists
  = Trello.collectLists remote boards boardLists.
Proof.
  revert boardLists. induction boards as [| board rest IH]; intros boardLists; simpl.
  - reflexivity.
  - unfold Trello.getLists. simpl.
    destruct (Trello.fetchFromTrello (Trello.board_lists remote (Trello.Board.id board)));
      simpl; apply IH.
Qed.

Lemma collectCards_withFlags f remote boardLists boards allCards :
  Trello.collectCards (withFlags f remote) boardLists boards
    (map (setCompleteEnhanced f) allCards)
  = mapCompletion (map (setCompleteEnhanced f))
      (Trello.collectCards remote boardLists boards allCards).
Proof.
  revert allCards. induction boards as [| board rest IH]; intros allCards; simpl.
  - reflexivity.
  - unfold Trello.fetchFromTrello. rewrite fetchFrom_mapFetched.
    destruct (fetchFrom "Trello" (Trello.board_cards remote (Trello.Board.id board)))
      as [cards | e]; simpl; [| reflexivity].
    rewrite <- IH. f_equal. rewrite map_app. f_equal.
    rewrite !map_map. reflexivity.
Qed.

Lemma filter_dueWithin_flags host f lo hi cards :
  List.filter (Trello.dueWithin host lo hi) (map (setCompleteEnhanced f) cards)
  = map (setCompleteEnhanced f) (List.filter (Trello.dueWithin host lo hi) cards).
Proof.
  induction cards as [| card cards IH]; simpl; [reflexivity |].
  change (Trello.dueWithin host lo hi (setCompleteEnhanced f card))
    with (Trello.dueWithin host lo hi card).
  destruct (Trello.dueWithin host lo hi card); simpl; rewrite IH; reflexivity.
Qed.

(** The completion flags have no part in the selection: replacing them in
    every response replaces them in the result and changes nothing else. *)
Lemma getCardsDueWithin_ignores_flags host f remote days clock0 clock1 :
  Trello.getCardsDueWithin host (withFlags f remote) days clock0 clock1
  = mapCompletion (map (setCompleteEnhanced f))
      (Trello.getCardsDueWithin host remote days clock0 clock1).
Proof.
  unfold Trello.getCardsDueWithin.
  change (Trello.getBoards (withFlags f remote)) with (Trello.getBoards remote).
  destruct (getBoards_total remote) as [boards ->]. cbn [JS.bind].
  destruct boards as [| board rest]; [reflexivity |].
  change ((length (board :: rest) =? 0)%nat) with false. cbv iota.
  rewrite collectLists_withFlags.
  destruct (Trello.collectLists remote (board :: rest) ∅) as [boardLists | e];
    [| reflexivity].
  cbn [JS.bind].
  pose proof (collectCards_withFlags f remote boardLists (board :: rest) []) as HC.
  change (map (setCompleteEnhanced f) []) with (@nil Trello.EnhancedCard) in HC.
  rewrite HC.
  destruct (Trello.collectCards remote boardLists (board :: rest) []) as [allCards | e];
    [| reflexivity].
  cbn [JS.bind mapCompletion try_catch].
  rewrite filter_dueWithin_flags. reflexivity.
Qed.

(** *** Titles of Notion pages *)

Lemma get_truthy k v : ToBoolean v = true -> get k v = Normal (field k v).
Proof. unfold field. destruct v; simpl; intros H; try discriminate; reflexivity. Qed.

Lemma get_present k v :
  v <> VUndefined -> v <> VNull -> get k v = Normal (field k v).
Proof. unfold field. destruct v; simpl; intros H1 H2; try congruence. Qed.

Lemma carriesNoTitle_present prop :
  carriesNoTitle prop = true ->
  (forall k, get k prop = Normal (field k prop)) /\
  strict_eq_str (field "type" prop) "title" = false /\
  isNonEmptyArray (field "title" prop) = false /\
  isNonEmptyArray (field "rich_text" prop) = false.
Proof.
  intros H.
  assert (Hp : prop <> VUndefined /\ prop <> VNull)
    by (destruct prop; simpl in H; try discriminate; split; discriminate).
  assert (H' : negb (strict_eq_str (field "type" prop) "title")
               && negb (isNonEmptyArray (field "title" prop))
               && negb (isNonEmptyArray (field "rich_text" prop)) = true)
    by (destruct prop; simpl in H; try discriminate; exact H).
  apply andb_prop in H' as [H' H3]. apply andb_prop in H' as [H1 H2].
  apply negb_true_iff in H1, H2, H3.
  repeat split; try assumption.
  intros k. apply get_present; tauto.
Qed.

Lemma find_typed_title_none values :
  forallb carriesNoTitle values = true ->
  JsonOps.find (fun p => let* ty := get "type" p in Normal (strict_eq_str ty "title")) values
  = Normal VUndefined.
Proof.
  induction values as [| prop rest IH]; simpl; [reflexivity |].
  intros H. apply andb_prop in H as [Hprop Hrest].
  destruct (carriesNoTitle_present prop Hprop) as (Hget & Hty & _ & _).
  rewrite Hget. simpl. rewrite Hty. apply IH, Hrest.
Qed.

Lemma firstWithContent_none values title :
  forallb carriesNoTitle values = true ->
  Notion.firstWithContent values title = Normal title.
Proof.
  induction values as [| prop rest IH]; simpl; [reflexivity |].
  intros H. apply andb_prop in H as [Hprop Hrest].
  destruct (carriesNoTitle_present prop Hprop) as (Hget & _ & Ht & Hr).
  rewrite !Hget. simpl. rewrite Ht, Hr. apply IH, Hrest.
Qed.

Lemma orM_falsy a b x : a = Normal x -> ToBoolean x = false -> orM a b = b.
Proof. intros -> H. unfold orM. simpl. rewrite H. reflexivity. Qed.

Lemma childPageTitle_none fields title :
  negb (ToBoolean (lookup_prop "child_page" fields))
  || negb (ToBoolean (field "title" (lookup_prop "child_page" fields))) = true ->
  Notion.childPageTitle (VObj fields) title = Normal title.
Proof.
  intros H. unfold Notion.childPageTitle. simpl.
  destruct (ToBoolean (lookup_prop "child_page" fields)) eqn:Hc; [| reflexivity].
  rewrite (get_truthy _ _ Hc). simpl in *.
  apply negb_true_iff in H. rewrite H. reflexivity.
Qed.

Lemma propertiesUntitled_inv properties :
  propertiesUntitled properties = true ->
  ToBoolean (field "title" properties) = false /\
  ToBoolean (field "Title" properties) = false /\
  ToBoolean (field "Name" properties) = false /\
  ToBoolean (field "name" properties) = false /\
  exists values,
    Object_values properties = Normal values /\ forallb carriesNoTitle values = true.
Proof.
  unfold propertiesUntitled. intros H.
  apply andb_prop in H as [H Hvalues]. apply andb_prop in H as [H H4].
  apply andb_prop in H as [H H3]. apply andb_prop in H as [H1 H2].
  apply negb_true_iff in H1, H2, H3, H4.
  destruct (Object_values properties) as [values |]; [| discriminate].
  eauto 10.
Qed.

Lemma recentTitle_untitled page :
  noRecognizableTitle page = true -> Notion.recentTitle page = Normal (VStr "Untitled").
Proof.
  destruct page as [| | | | | | fields]; try discriminate. simpl.
  intros H. apply andb_prop in H as [Hprops Hchild].
  unfold Notion.recentTitle. simpl get. cbn [JS.bind].
  destruct (ToBoolean (lookup_prop "properties" fields)) eqn:Hp; cbn [JS.bind].
  - simpl in Hprops.
    destruct (propertiesUntitled_inv _ Hprops) as (H1 & H2 & H3 & H4 & values & Hv & Hn).
    rewrite !(get_truthy _ _ Hp).
    rewrite (orM_falsy _ _ _ eq_refl H1), (orM_falsy _ _ _ eq_refl H2),
      (orM_falsy _ _ _ eq_refl H3), (orM_falsy _ _ _ eq_refl H4).
    rewrite Hv. cbn [JS.bind]. rewrite (find_typed_title_none _ Hn). cbn [JS.bind ToBoolean].
    rewrite (firstWithContent_none _ _ Hn). cbn [JS.bind].
    apply childPageTitle_none, Hchild.
  - apply childPageTitle_none, Hchild.
Qed.

Lemma searchTitle_untitled page :
  noRecognizableTitle page = true -> Notion.searchTitle page = Normal (VStr "Untitled").
Proof.
  destruct page as [| | | | | | fields]; try discriminate. simpl.
  intros H. apply andb_prop in H as [Hprops Hchild].
  unfold Notion.searchTitle. simpl get. cbn [JS.bind].
  destruct (ToBoolean (lookup_prop "properties" fields)) eqn:Hp; cbn [JS.bind].
  - simpl in Hprops.
    destruct (propertiesUntitled_inv _ Hprops) as (H1 & H2 & H3 & H4 & values & Hv & Hn).
    rewrite !(get_truthy _ _ Hp).
    rewrite (orM_falsy _ _ _ eq_refl H1), (orM_falsy _ _ _ eq_refl H2),
      (orM_falsy _ _ _ eq_refl H3).
    cbn [JS.bind]. rewrite H4, Hv. cbn [JS.bind].
    rewrite (firstWithContent_none _ _ Hn). cbn [JS.bind].
    apply childPageTitle_none, Hchild.
  - apply childPageTitle_none, Hchild.
Qed.

Lemma toPage_untitled extract page :
  noRecognizableTitle page = true ->
  extract page = Normal (VStr "Untitled") ->
  Notion.toPage extract page = Normal (untitled page).
Proof.
  intros Hpage Hextract. unfold Notion.toPage. rewrite Hextract.
  destruct page; try discriminate. reflexivity.
Qed.

Lemma mapM_total {A B} (f : A -> completion B) (l : list A) :
  Forall (fun x => exists y, f x = Normal y) l -> exists r, mapM f l = Normal r.
Proof.
  induction 1 as [| x l [y Hx] _ [r IH]]; [exists []; reflexivity |].
  exists (y :: r). cbn [mapM]. rewrite Hx, IH. reflexivity.
Qed.

Lemma mapM_lookup {A B} (f : A -> completion B) (l : list A) r i x :
  mapM f l = Normal r -> l !! i = Some x ->
  exists y, f x = Normal y /\ r !! i = Some y.
Proof.
  revert r i. induction l as [| a l IH]; intros r i Hmap Hi; [discriminate |].
  cbn [mapM] in Hmap.
  destruct (f a) as [b |] eqn:Ha; [| discriminate].
  destruct (mapM f l) as [r' |] eqn:Hl; [| discriminate].
  injection Hmap as <-.
  destruct i as [| i]; simpl in Hi.
  - injection Hi as <-. exists b. split; [exact Ha | reflexivity].
  - apply (IH r' i eq_refl Hi).
Qed.

(** A page the callback converts is not [null] or [undefined]. *)
Lemma toPage_normal_get extract page q k :
  Notion.toPage extract page = Normal q -> get k page = Normal (field k page).
Proof.
  intros H. apply get_present; intros ->; unfold Notion.toPage in H;
    destruct (extract _); discriminate.
Qed.

(** C2 as the code has it.  A page of the search result that has no
    recognizable title property is returned, at its place in the result,
    with the title [Untitled], by [getRecentPages] and by [searchPages],
    when the callback returns for the other pages too; the fallback made of
    the identifier is the title only when the extraction throws. *)
Theorem pages_without_title_are_untitled
    (remote : Notion.Remote) (limit : Z) (query : string)
    (data : value) (pages : list value) (i : nat) (page : value) :
  (forall body, Notion.fetchFromNotion remote "/search" "POST" body = Normal data) ->
  get "results" data = Normal (VArr pages) ->
  Forall (fun p => (exists q, Notion.toPage Notion.recentTitle p = Normal q) /\
                   (exists q, Notion.toPage Notion.searchTitle p = Normal q)) pages ->
  pages !! i = Some page ->
  noRecognizableTitle page = true ->
  exists recent found,
    Notion.getRecentPages remote limit = Normal recent /\
    recent !! i = Some (untitled page) /\
    Notion.searchPages remote query = Normal found /\
    found !! i = Some (untitled page).
Proof.
  intros Hfetch Hresults Hall Hi Hpage.
  destruct (mapM_total (Notion.toPage Notion.recentTitle) pages) as [recent Hrecent].
  { eapply Forall_impl; [exact Hall |]. intros p [Hp _]. exact Hp. }
  destruct (mapM_total (Notion.toPage Notion.searchTitle) pages) as [found Hfound].
  { eapply Forall_impl; [exact Hall |]. intros p [_ Hp]. exact Hp. }
  exists recent, found.
  destruct (mapM_lookup _ _ _ _ _ Hrecent Hi) as (q & Hq & Hri).
  destruct (mapM_lookup _ _ _ _ _ Hfound Hi) as (q' & Hq' & Hfi).
  rewrite (toPage_untitled _ _ Hpage (recentTitle_untitled _ Hpage)) in Hq.
  rewrite (toPage_untitled _ _ Hpage (searchTitle_untitled _ Hpage)) in Hq'.
  injection Hq as <-. injection Hq' as <-.
  destruct pages as [| p0 rest]; [discriminate |].
  repeat split; try assumption.
  - unfold Notion.getRecentPages. rewrite Hfetch. cbn [JS.bind].
    rewrite Hresults. cbn [JS.bind ToBoolean negb].
    unfold length_is_zero, JsonOps.first. simpl get. cbn [JS.bind hd].
    change (Z.of_nat (length (p0 :: rest)) =? 0) with false. cbv iota.
    destruct (mapM_lookup _ _ _ 0%nat p0 Hrecent eq_refl) as (q0 & Hq0 & _).
    rewrite (toPage_normal_get _ _ _ "id" Hq0). cbn [JS.bind array_map].
    rewrite Hrecent. reflexivity.
  - unfold Notion.searchPages. rewrite Hfetch. cbn [JS.bind].
    rewrite Hresults. cbn [JS.bind ToBoolean negb].
    unfold length_is_zero. simpl get. cbn [JS.bind].
    change (Z.of_nat (length (p0 :: rest)) =? 0) with false. cbv iota.
    cbn [array_map]. rewrite Hfound. reflexivity.
Qed.

(** The page with a checkbox only, after a page that has a title. *)
Lemma pages_without_title_witness :
  exists recent found,
    Notion.getRecentPages (Samples.notionWith [Samples.rowPage; Samples.barePage]) 5
    = Normal recent /\
    recent !! 1%nat = Some (untitled Samples.barePage) /\
    Notion.searchPages (Samples.notionWith [Samples.rowPage; Samples.barePage]) "bare"
    = Normal found /\
    found !! 1%nat = Some (untitled Samples.barePage).
Proof.
  apply (pages_without_title_are_untitled
           (Samples.notionWith [Samples.rowPage; Samples.barePage]) 5 "bare"
           (VObj [("object", VStr "list");
                  ("results", VArr [Samples.rowPage; Samples.barePage])])
           [Samples.rowPage; Samples.barePage] 1 Samples.barePage).
  - intros body. unfold Notion.fetchFromNotion, Samples.notionWith. reflexivity.
  - reflexivity.
  - repeat constructor; eexists; reflexivity.
  - reflexivity.
  - reflexivity.
Defined.

(** Against C2 as the specification states it: the title of a page whose
    only property is a checkbox is [Untitled], not [Page abcdef01]. *)
Lemma fallback_title_not_used :
  exists recent found,
    Notion.getRecentPages (Samples.notionWith [Samples.barePage]) 5 = Normal [recent] /\
    Notion.searchPages (Samples.notionWith [Samples.barePage]) "bare" = Normal [found] /\
    Notion.id recent = VStr "abcdef01-2345-6789-abcd-ef0123456789" /\
    Notion.title recent = VStr "Untitled" /\
    Notion.title found = VStr "Untitled" /\
    Notion.title recent <> VStr "Page abcdef01" /\
    Notion.title found <> VStr "Page abcdef01".
Proof.
  do 2 eexists. repeat split; try reflexivity; simpl; discriminate.
Qed.

(** The fallback at work: a property that is [null] makes the extraction
    throw. *)
Example fallback_title_on_exception :
  Notion.toPage Notion.searchTitle
    (VObj [("id", VStr "abcdef01-2345"); ("properties", VObj [("Done", VNull)])])
  = Normal {| Notion.id := VStr "abcdef01-2345"; Notion.title := VStr "Page abcdef01";
              Notion.icon := VUndefined; Notion.lastEditedTime := VUndefined;
              Notion.url := VUndefined |}.
Proof. reflexivity. Qed.

(** C3 on the code.  For a database row whose title column is called Task
    and follows a text column, [getRecentPages] takes the title from the
    column of type [title] and [searchPages] from the text column. *)
Theorem recent_and_search_titles_differ :
  exists recent found,
    Notion.getRecentPages (Samples.notionWith [Samples.rowPage]) 5 = Normal [recent] /\
    Notion.searchPages (Samples.notionWith [Samples.rowPage]) "row" = Normal [found] /\
    Notion.title recent = VStr "Hello" /\
    Notion.title found = VStr "note".
Proof.
  do 2 eexists. repeat split; reflexivity.
Qed.

(** The two extractions agree on a page none of whose properties has the
    type [title]. *)
Lemma titles_agree_without_typed_title page properties values :
  get "properties" page = Normal properties ->
  Object_values properties = Normal values ->
  JsonOps.find (fun p => let* ty := get "type" p in Normal (strict_eq_str ty "title")) values
  = Normal VUndefined ->
  Notion.recentTitle page = Notion.searchTitle page.
Proof.
  intros Hprops Hvalues Hfind.
  unfold Notion.recentTitle, Notion.searchTitle. rewrite Hprops. cbn [JS.bind].
  destruct (ToBoolean properties) eqn:Ht; [| reflexivity].
  rewrite Hvalues. cbn [JS.bind]. rewrite Hfind.
  rewrite !(get_truthy _ _ Ht). unfold orM. cbn [JS.bind].
  destruct (ToBoolean (field "title" properties)); [reflexivity |].
  destruct (ToBoolean (field "Title" properties)); [reflexivity |].
  destruct (ToBoolean (field "Name" properties)); [reflexivity |].
  destruct (ToBoolean (field "name" properties)) eqn:Hname; cbn [JS.bind].
  - rewrite Hname. reflexivity.
  - rewrite Hname. cbn [ToBoolean]. reflexivity.
Qed.

(** *** Creating a Notion page *)

(** Against C6 as the specification states it: without a parent,
    [createPage] returns [null] even when Notion would accept the request;
    it does not throw. *)
Lemma createPage_without_parent_returns_null :
  Notion.createPage (Samples.notionWith []) "Title" None = Normal None /\
  Notion.createPage (Samples.notionWith []) "Title" None
  <> Throw (Error "Parent ID is required to create a Notion page").
Proof. split; [reflexivity | discriminate]. Qed.

(** C6 as the code has it.  [createPage] never throws.  Without a parent
    (none, or the empty string) it returns [null] whatever Notion would
    answer: the error that names the missing parameter is thrown and caught
    inside the method.  With a parent it returns [null] when the request
    fails, and a page when it succeeds with an object. *)
Theorem createPage_returns_null_without_parent
    (remote : Notion.Remote) (title : string) (parentId : option string) :
  match parentId with
  | None | Some "" => Notion.createPage remote title parentId = Normal None
  | Some parent =>
      match Notion.fetchFromNotion remote "/pages" "POST" (Notion.newPageBody title parent) with
      | Throw _ => Notion.createPage remote title parentId = Normal None
      | Normal (VObj fields) =>
          Notion.createPage remote title parentId
          = Normal (Some {| Notion.id := lookup_prop "id" fields;
                            Notion.title := VStr title;
                            Notion.icon := VUndefined;
                            Notion.lastEditedTime := lookup_prop "last_edited_time" fields;
                            Notion.url := lookup_prop "url" fields |})
      | Normal _ => exists r, Notion.createPage remote title parentId = Normal r
      end
  end.
Proof.
  destruct parentId as [[| c parent] |]; try reflexivity.
  unfold Notion.createPage.
  destruct (Notion.fetchFromNotion remote "/pages" "POST"
              (Notion.newPageBody title (String c parent))) as [data | e];
    [| reflexivity].
  destruct data; simpl; eauto.
Qed.

(** *** The composer: a card from an email *)

(** [createCard] returns [null] when the request is rejected or answered
    with a status outside 200..299; it throws only when the answer has a
    status in 200..299 and a body that is not JSON. *)
Lemma createCard_throws_on_body_only remote listId name desc due e :
  Trello.createCard remote listId name desc due = Throw e ->
  exists response,
    Trello.post_card remote
      {| Trello.new_idList := listId; Trello.new_name := name;
         Trello.new_desc := str_or desc ""; Trello.new_due := due |}
    = Responded response /\
    ok response = true /\
    Http.json response = None.
Proof.
  unfold Trello.createCard.
  destruct (Trello.post_card remote _) as [e0 | r]; simpl; [discriminate |].
  destruct (ok r) eqn:Hok; simpl; [| discriminate].
  destruct (Http.json r) eqn:Hjson; [discriminate |].
  intros _. exists r. auto.
Qed.

Lemma LocalTime_UTC host t : JSDate.LocalTime host (JSDate.UTC host t) = t.
Proof. unfold JSDate.LocalTime, JSDate.UTC. lia. Qed.

(** Local hour and minute after [setHours]. *)
Lemma setHours_getHours host t0 hour min t :
  0 <= hour < 24 -> 0 <= min < 60 ->
  JSDate.setHours host (Some t0) hour min = Some t ->
  JSDate.getHours host (Some t) = Some hour /\
  JSDate.getMinutes host (Some t) = Some min.
Proof.
  intros Hh Hm Hset. simpl in Hset. unfold JSDate.TimeClip in Hset.
  destruct (_ >? _); [discriminate |]. injection Hset as <-.
  unfold JSDate.getHours, JSDate.getMinutes. simpl.
  rewrite LocalTime_UTC.
  unfold JSDate.MakeDate, JSDate.MakeTime, JSDate.HourFromTime, JSDate.MinFromTime,
    JSDate.SecFromTime, JSDate.msFromTime,
    JSDate.msPerDay, JSDate.msPerHour, JSDate.msPerMinute, JSDate.msPerSecond.
  generalize (JSDate.Day (JSDate.LocalTime host t0)). intros day.
  generalize (JSDate.LocalTime host t0). intros lt.
  pose proof (Z.mod_pos_bound (lt / 1000) 60 ltac:(lia)) as Hs.
  pose proof (Z.mod_pos_bound lt 1000 ltac:(lia)) as Hms.
  set (s := (lt / 1000) mod 60) in *. set (ms := lt mod 1000) in *.
  split; f_equal.
  - replace (day * 86400000 + (hour * 3600000 + min * 60000 + s * 1000 + ms))
      with ((day * 24 + hour) * 3600000 + (min * 60000 + s * 1000 + ms)) by lia.
    rewrite Z.div_add_l by lia. rewrite (Z.div_small (min * 60000 + s * 1000 + ms)) by lia.
    rewrite Z.add_0_r, Z.add_comm, Z.mod_add by lia. apply Z.mod_small. lia.
  - replace (day * 86400000 + (hour * 3600000 + min * 60000 + s * 1000 + ms))
      with ((day * 1440 + hour * 60 + min) * 60000 + (s * 1000 + ms)) by lia.
    rewrite Z.div_add_l by lia. rewrite (Z.div_small (s * 1000 + ms)) by lia.
    rewrite Z.add_0_r.
    replace (day * 1440 + hour * 60 + min) with (min + (day * 24 + hour) * 60) by lia.
    rewrite Z.mod_add by lia. apply Z.mod_small. lia.
Qed.

(** Against C4 as the specification states it: the snippet contains the
    text 2:30pm, and the time pattern matches 12:30pm: the composed instant
    is half past twelve, not half past two. *)
Lemma leftmost_time_is_taken :
  Text.includes "2:30pm" "Lunch at 12:30pm on 12/25/2024" = true /\
  Text.datePattern "Lunch at 12:30pm on 12/25/2024" = Some "12/25/2024" /\
  exists t,
    Gmail.composeDate Samples.host0 "Lunch at 12:30pm on 12/25/2024" = Some (Some t) /\
    JSDate.getHours Samples.host0 (Some t) = Some 12 /\
    JSDate.getMinutes Samples.host0 (Some t) = Some 30 /\
    JSDate.getHours Samples.host0 (Some t) <> Some 14.
Proof.
  split; [reflexivity |]. split; [reflexivity |].
  eexists. split; [vm_compute; reflexivity |].
  repeat split; try (vm_compute; reflexivity). vm_compute. discriminate.
Qed.

Example earlier_time_is_taken :
  Gmail.composeDueDate Samples.host0 "Call at 9:00 or 2:30pm on 12/25/2024"
  = Normal (Some "2024-12-25T14:00:00.000Z").
Proof. vm_compute. reflexivity. Qed.

Example minutes_overflow :
  Gmail.composeDueDate Samples.host0 "Call at 2:75pm on 12/25/2024"
  = Normal (Some "2024-12-25T20:15:00.000Z").
Proof. vm_compute. reflexivity. Qed.

(** C4 as the code has it.  When the leftmost match of the date pattern
    parses as a valid instant, and the leftmost match of the time pattern
    carries the marker pm with an hour below 12 and a minute below 60, the
    composed instant (if a [Date] can hold it) has the local hour of the
    match plus 12 and its minute, and the due date is that instant in ISO
    format. *)
Theorem composeDate_pm_adds_twelve
    (host : JSDate.Host) (snippet dateText timeText : string) (hour min t0 t : Z) :
  Text.datePattern snippet = Some dateText ->
  JSDate.new_Date host dateText = Some t0 ->
  Text.timePattern snippet = Some timeText ->
  Text.parseInt (nth_error (Text.split_colon timeText) 0) = Some hour ->
  Text.parseInt (nth_error (Text.split_colon timeText) 1) = Some min ->
  Text.includes "pm" (toLowerCase timeText) = true ->
  0 <= hour < 12 ->
  0 <= min < 60 ->
  JSDate.setHours host (Some t0) (hour + 12) min = Some t ->
  Gmail.composeDate host snippet = Some (Some t) /\
  Gmail.composeDueDate host snippet
  = (let* iso := Text.toISOString (Some t) in Normal (Some iso)) /\
  JSDate.getHours host (Some t) = Some (hour + 12) /\
  JSDate.getMinutes host (Some t) = Some min.
Proof.
  intros Hdate Hparse Htime Hhour Hmin Hpm Hh Hm Hset.
  assert (Hcompose : Gmail.composeDate host snippet = Some (Some t)).
  { unfold Gmail.composeDate. rewrite Hdate, Htime, Hhour, Hmin, Hpm, Hparse.
    cbn [mbind option_bind].
    destruct (Z.ltb_spec hour 12); [| lia]. simpl andb. cbv iota.
    rewrite Hset. reflexivity. }
  split; [exact Hcompose |]. split.
  - unfold Gmail.composeDueDate. rewrite Hcompose. reflexivity.
  - apply (setHours_getHours host t0); [lia | lia | exact Hset].
Qed.

(** A snippet whose time is 2:30pm: hour 14, minute 30. *)
Lemma composeDate_pm_witness :
  Gmail.composeDate Samples.host0 "Review at 2:30pm on 12/25/2024"
  = Some (Some 1735155000000) /\
  Gmail.composeDueDate Samples.host0 "Review at 2:30pm on 12/25/2024"
  = (let* iso := Text.toISOString (Some 1735155000000) in Normal (Some iso)) /\
  JSDate.getHours Samples.host0 (Some 1735155000000) = Some (2 + 12) /\
  JSDate.getMinutes Samples.host0 (Some 1735155000000) = Some 30.
Proof.
  apply (composeDate_pm_adds_twelve Samples.host0 "Review at 2:30pm on 12/25/2024"
           "12/25/2024" "2:30pm" 2 30 1735102800000 1735155000000).
  - reflexivity.
  - reflexivity.
  - reflexivity.
  - reflexivity.
  - reflexivity.
  - reflexivity.
  - lia.
  - lia.
  - reflexivity.
Defined.

(** C5. An email that is fetched and whose snippet has no match of the date
    pattern is turned into the request to create a card without a due date,
    and what [createCard] returns is returned, [null] when [createCard]
    throws.  For every input, [createTrelloCardFromEmail] returns normally,
    and it returns [null] when anything in its [try] block throws. *)
Theorem createTrelloCardFromEmail_never_throws
    (host : JSDate.Host) (this : GmailConnector) (remote : Gmail.Remote)
    (trello : Trello.Remote) (emailId listId : string) (email : Gmail.RawMessage) :
  Gmail.fetchMessage this remote emailId = Normal email ->
  Text.datePattern (Gmail.snippet (Gmail.processMessage email)) = None ->
  (Gmail.composeDueDate host (Gmail.snippet (Gmail.processMessage email)) = Normal None /\
   Gmail.createTrelloCardFromEmail host this remote emailId trello listId
   = match Trello.createCard trello listId
             (str_or (Some (Gmail.subject (Gmail.processMessage email))) "No Subject")
             (Some (Gmail.describe host (Gmail.processMessage email) None))
             None with
     | Normal card => Normal card
     | Throw error => Normal None
     end) /\
  (forall host' this' remote' trello' emailId' listId',
      (exists card,
          Gmail.createTrelloCardFromEmail host' this' remote' emailId' trello' listId'
          = Normal card) /\
      (forall e,
          Gmail.composeCard host' this' remote' emailId' trello' listId' = Throw e ->
          Gmail.createTrelloCardFromEmail host' this' remote' emailId' trello' listId'
          = Normal None)).
Proof.
  intros Hfetch Hnone.
  assert (Hdue : Gmail.composeDueDate host (Gmail.snippet (Gmail.processMessage email))
                 = Normal None).
  { unfold Gmail.composeDueDate, Gmail.composeDate. rewrite Hnone. reflexivity. }
  split; [split; [exact Hdue |] |].
  - unfold Gmail.createTrelloCardFromEmail, Gmail.composeCard.
    rewrite Hfetch. cbn [JS.bind]. rewrite Hdue. cbn [JS.bind].
    destruct (Trello.createCard trello listId
                (str_or (Some (Gmail.subject (Gmail.processMessage email))) "No Subject")
                (Some (Gmail.describe host (Gmail.processMessage email) None)) None)
      as [card | error]; reflexivity.
  - intros host' this' remote' trello' emailId' listId'.
    unfold Gmail.createTrelloCardFromEmail. split.
    + destruct (Gmail.composeCard host' this' remote' emailId' trello' listId');
        simpl; eauto.
    + intros e ->. reflexivity.
Qed.

Lemma createTrelloCardFromEmail_witness :
  (Gmail.composeDueDate Samples.host0 "Please review the draft." = Normal None /\
   Gmail.createTrelloCardFromEmail Samples.host0 Samples.gmail0
     (Samples.gmailWith "Please review the draft.") "m1" Samples.trello0 "l1"
   = Normal (Some (Samples.sampleCard "new" None false "bA"))).
Proof.
  destruct (createTrelloCardFromEmail_never_throws
              Samples.host0 Samples.gmail0 (Samples.gmailWith "Please review the draft.")
              Samples.trello0 "m1" "l1" (Samples.message "Please review the draft.")
              eq_refl eq_refl) as [[Hdue Hcard] _].
  split; [exact Hdue |]. rewrite Hcard. reflexivity.
Defined.

(** Trello answers the request to create the card with status 200 and a
    body that is not JSON: [createCard] throws, and
    [createTrelloCardFromEmail], which awaits it inside its [try], returns
    [null]. *)
Example createCard_rejection_is_caught :
  Trello.createCard trelloNotJson "l1" "Review" None None
  = Throw (SyntaxError "Unexpected token in JSON") /\
  Gmail.createTrelloCardFromEmail Samples.host0 Samples.gmail0
    (Samples.gmailWith "Please review the draft.") "m1" trelloNotJson "l1"
  = Normal None.
Proof. split; vm_compute; reflexivity. Qed.

Example description_of_the_card :
  Gmail.describe Samples.host0
    (Gmail.processMessage (Samples.message "Please review the draft. Thanks")) None
  = "Re: Review" +:+ Gmail.newline +:+ "From: ann@example.com" +:+ Gmail.newline
    +:+ "Action: Please review the draft." +:+ Gmail.newline.
Proof. vm_compute. reflexivity. Qed.

(** A date the host cannot parse makes [toISOString] throw; the card is not
    created and [null] is returned. *)
Example unparsable_date_returns_null :
  Gmail.composeDueDate Samples.host0 "Due December 25th, 2024"
  = Throw (RangeError "Invalid time value") /\
  Gmail.createTrelloCardFromEmail Samples.host0 Samples.gmail0
    (Samples.gmailWith "Due December 25th, 2024") "m1" Samples.trello0 "l1"
  = Normal None.
Proof. split; vm_compute; reflexivity. Qed.

(** ** Part III: further properties of the code *)

(** *** [getCardsDueWithin]: failures, status, the two readings of the clock *)

Lemma collectCards_throws remote boardLists boards allCards board e :
  In board boards ->
  Trello.fetchFromTrello (Trello.board_cards remote (Trello.Board.id board)) = Throw e ->
  exists e', Trello.collectCards remote boardLists boards allCards = Throw e'.
Proof.
  intros Hin Hfail. revert allCards.
  induction boards as [| b rest IH]; intros allCards; [destruct Hin |].
  simpl.
  destruct (Trello.fetchFromTrello (Trello.board_cards remote (Trello.Board.id b)))
    as [cards | e0] eqn:Hb; cbn [JS.bind]; [| eauto].
  destruct Hin as [-> | Hin]; [congruence |].
  apply IH, Hin.
Qed.

(** When the request for the cards of one board fails, [getCardsDueWithin]
    returns no card at all, whatever the other boards hold. *)
Theorem getCardsDueWithin_all_or_nothing
    (host : JSDate.Host) (remote : Trello.Remote) (days clock0 clock1 : Z)
    (boards : list Trello.Board.t) (board : Trello.Board.t) (e : error) :
  Trello.fetchFromTrello (Trello.member_boards remote) = Normal boards ->
  In board boards ->
  Trello.fetchFromTrello (Trello.board_cards remote (Trello.Board.id board)) = Throw e ->
  Trello.getCardsDueWithin host remote days clock0 clock1 = Normal [].
Proof.
  intros Hboards Hin Hfail.
  unfold Trello.getCardsDueWithin, Trello.getBoards. rewrite Hboards. cbn [JS.bind try_catch].
  destruct boards as [| b rest]; [reflexivity |].
  change ((length (b :: rest) =? 0)%nat) with false. cbv iota.
  destruct (collectLists_total remote (b :: rest) ∅) as [boardLists ->]. cbn [JS.bind].
  destruct (collectCards_throws remote boardLists (b :: rest) [] board e Hin Hfail)
    as [e' ->].
  reflexivity.
Qed.

Lemma getCardsDueWithin_all_or_nothing_witness :
  Trello.getCardsDueWithin Samples.host0 trelloPartial 7 1735084800000 1735084800000
  = Normal [].
Proof.
  apply (getCardsDueWithin_all_or_nothing Samples.host0 trelloPartial 7
           1735084800000 1735084800000 [Samples.boardA; Samples.boardB] Samples.boardB
           (Error "Trello API error: 503 Service Unavailable")).
  - reflexivity.
  - simpl. auto.
  - reflexivity.
Defined.

Lemma find_app_first {A} (p : A -> bool) (a b : list A) :
  List.find p (a ++ b)
  = match List.find p a with
    | Some x => Some x
    | None => List.find p b
    end.
Proof.
  induction a as [| x a IH]; simpl; [reflexivity |].
  destruct (p x); [reflexivity | exact IH].
Qed.

Lemma addLists_lookup lists (names : gmap string string) listId :
  Trello.addLists lists names !! listId
  = match lastNamed listId lists with
    | Some name => Some name
    | None => names !! listId
    end.
Proof.
  revert names. induction lists as [| l lists IH]; intros names; [reflexivity |].
  unfold Trello.addLists in *. simpl fold_left. rewrite IH.
  unfold lastNamed. simpl rev. rewrite find_app_first.
  destruct (List.find _ (rev lists)); [reflexivity |].
  simpl. destruct (String.eqb_spec (Trello.List.id l) listId) as [<- | Hne]; simpl.
  - apply lookup_insert_eq.
  - apply lookup_insert_ne, Hne.
Qed.

Lemma collectLists_lookup remote boards (acc boardLists : gmap string (gmap string string))
    boardId :
  Trello.collectLists remote boards acc = Normal boardLists ->
  boardLists !! boardId
  = if existsb (fun b => String.eqb (Trello.Board.id b) boardId) boards
    then Some (Trello.addLists (listsOf remote boardId) ∅)
    else acc !! boardId.
Proof.
  revert acc. induction boards as [| board rest IH]; intros acc; simpl.
  - intros [= <-]. reflexivity.
  - destruct (getLists_total remote (Trello.Board.id board)) as [lists Hlists].
    rewrite Hlists. cbn [JS.bind]. intros Hrest. rewrite (IH _ Hrest).
    unfold Trello.BoardLists in *.
    destruct (existsb _ rest); [rewrite orb_true_r; reflexivity |]. rewrite orb_false_r.
    destruct (String.eqb_spec (Trello.Board.id board) boardId) as [<- | Hne].
    + rewrite lookup_insert_eq. unfold listsOf. rewrite Hlists. reflexivity.
    + apply lookup_insert_ne, Hne.
Qed.

Lemma enhance_status remote boards boardLists card :
  Trello.collectLists remote boards ∅ = Normal boardLists ->
  Trello.status (Trello.enhance boardLists card) = statusOf remote boards card.
Proof.
  intros Hlists. unfold Trello.enhance, statusOf. cbn [Trello.status]. f_equal.
  unfold Trello.BoardLists in *.
  rewrite (collectLists_lookup _ _ _ _ (Trello.Card.idBoard card) Hlists).
  destruct (existsb _ boards); [| reflexivity].
  cbn [mbind option_bind]. rewrite addLists_lookup.
  destruct (lastNamed _ _); reflexivity.
Qed.

(** Every card [getCardsDueWithin] returns carries as status the name of
    the list it is on, taken from the lists of its board ([Unknown] when the
    board is not among the boards, its lists could not be fetched, no list
    has the id, or the name is empty), and an empty list of members; a
    failed request for lists does not fail the call. *)
Theorem getCardsDueWithin_status
    (host : JSDate.Host) (remote : Trello.Remote) (days clock0 clock1 : Z)
    (boards : list Trello.Board.t) (cardsByBoard : list (list Trello.Card.t)) :
  Trello.fetchFromTrello (Trello.member_boards remote) = Normal boards ->
  cardsFetched remote boards cardsByBoard ->
  exists result,
    Trello.getCardsDueWithin host remote days clock0 clock1 = Normal result /\
    Forall (fun e => Trello.status e = statusOf remote boards (Trello.card e) /\
                     Trello.members e = []) result.
Proof.
  intros Hboards Hcards.
  unfold Trello.getCardsDueWithin, Trello.getBoards. rewrite Hboards. cbn [JS.bind try_catch].
  destruct boards as [| b rest]; [exists []; split; [reflexivity | constructor] |].
  change ((length (b :: rest) =? 0)%nat) with false. cbv iota.
  destruct (collectLists_total remote (b :: rest) ∅) as [boardLists HL].
  rewrite HL. cbn [JS.bind].
  rewrite (collectCards_fetched _ _ _ _ [] Hcards). cbn [JS.bind app].
  eexists. split; [reflexivity |].
  apply Forall_forall. intros e He. apply list_elem_of_In in He.
  apply List.filter_In in He as [He _]. apply List.in_map_iff in He as (card & <- & _).
  split; [apply (enhance_status _ _ _ _ HL) | reflexivity].
Qed.

(** Board A has the list l1 named To Do, the lists of board B cannot be
    fetched. *)
Lemma getCardsDueWithin_status_witness :
  exists result,
    Trello.getCardsDueWithin Samples.host0 Samples.trello0 7 1735084800000 1735084800000
    = Normal result /\
    Forall (fun e => Trello.status e
                     = statusOf Samples.trello0 [Samples.boardA; Samples.boardB]
                         (Trello.card e) /\
                     Trello.members e = []) result.
Proof.
  apply (getCardsDueWithin_status Samples.host0 Samples.trello0 7
           1735084800000 1735084800000 [Samples.boardA; Samples.boardB]
           [Samples.cardsA; Samples.cardsB]).
  - reflexivity.
  - exact sample_cards_fetched.
Defined.

(** The window when the two readings of the clock differ: it starts at the
    first reading, and it ends [days] days after the second reading, moved
    by as many days as the local day of the month of the first reading
    exceeds that of the second. *)
Theorem getCardsDueWithin_window_of_two_readings
    (host : JSDate.Host) (remote : Trello.Remote) (days clock0 clock1 : Z)
    (boards : list Trello.Board.t) (cardsByBoard : list (list Trello.Card.t)) :
  let shift :=
    JSDate.DateFromTime (JSDate.LocalTime host clock0)
    - JSDate.DateFromTime (JSDate.LocalTime host clock1) + days in
  Z.abs clock0 <= 8640000000000000 ->
  Z.abs clock1 <= 8640000000000000 ->
  Z.abs (clock1 + shift * JSDate.msPerDay) <= 8640000000000000 ->
  Trello.fetchFromTrello (Trello.member_boards remote) = Normal boards ->
  cardsFetched remote boards cardsByBoard ->
  exists result,
    Trello.getCardsDueWithin host remote days clock0 clock1 = Normal result /\
    map Trello.card result
    = List.filter (dueInClosedInterval host clock0 (clock1 + shift * JSDate.msPerDay))
        (concat cardsByBoard).
Proof.
  intros shift H0 H1 Hend Hboards Hcards.
  destruct (getCardsDueWithin_fetched host remote days clock0 clock1 boards cardsByBoard
              Hboards Hcards) as [boardLists Hresult].
  unfold JSDate.new_Date_now in Hresult.
  rewrite (TimeClip_in_range clock0 H0), (TimeClip_in_range clock1 H1) in Hresult.
  rewrite setDate_getDate_shift in Hresult. fold shift in Hresult.
  rewrite (TimeClip_in_range _ Hend) in Hresult.
  eexists. split; [exact Hresult |].
  apply filter_dueWithin_enhance.
Qed.

(** The first reading is the last millisecond of 31 January 2025, the
    second the first of 1 February: the window of one day ends on 4 March,
    31 + 1 days after the second reading, and a card due at noon on 1 March
    is returned. *)
Lemma getCardsDueWithin_window_witness :
  exists result,
    Trello.getCardsDueWithin hostUTC trelloMarch 1 1738367999999 1738368000000
    = Normal result /\
    map Trello.card result
    = [Samples.sampleCard "m1" (Some "2025-03-01T12:00:00.000Z") false "bA"].
Proof.
  destruct (getCardsDueWithin_window_of_two_readings hostUTC trelloMarch 1
              1738367999999 1738368000000 [Samples.boardA]
              [[Samples.sampleCard "m1" (Some "2025-03-01T12:00:00.000Z") false "bA"]])
    as [result [Hresult Hcards]].
  - vm_compute. discriminate.
  - vm_compute. discriminate.
  - vm_compute. discriminate.
  - reflexivity.
  - repeat constructor.
  - exists result. split; [exact Hresult |]. rewrite Hcards. vm_compute. reflexivity.
Defined.

(** *** Titles and content of Notion pages *)

Lemma bind_normal_inv {A B} (c : completion A) (k : A -> completion B) b :
  JS.bind c k = Normal b -> exists a, c = Normal a /\ k a = Normal b.
Proof. destruct c as [a | e]; simpl; intros H; [eauto | discriminate]. Qed.

Lemma childPageTitle_some page child title :
  get "child_page" page = Normal child ->
  ToBoolean child = true ->
  ToBoolean (field "title" child) = true ->
  Notion.childPageTitle page title = Normal (field "title" child).
Proof.
  intros Hget Hchild Htitle. unfold Notion.childPageTitle.
  rewrite Hget. cbn [JS.bind]. rewrite Hchild, (get_truthy _ _ Hchild). cbn [JS.bind].
  rewrite Htitle. reflexivity.
Qed.

(** A truthy child-page title is the title of the page, whatever its
    properties hold, whenever the extraction returns: for [getRecentPages]
    and for [searchPages]. *)
Theorem child_page_title_wins (page child t : value) :
  get "child_page" page = Normal child ->
  ToBoolean child = true ->
  ToBoolean (field "title" child) = true ->
  Notion.recentTitle page = Normal t \/ Notion.searchTitle page = Normal t ->
  t = field "title" child.
Proof.
  intros Hget Hchild Htitle [H | H].
  - unfold Notion.recentTitle in H.
    apply bind_normal_inv in H as (properties & _ & H).
    apply bind_normal_inv in H as (title & _ & H).
    rewrite (childPageTitle_some _ _ _ Hget Hchild Htitle) in H. congruence.
  - unfold Notion.searchTitle in H.
    apply bind_normal_inv in H as (properties & _ & H).
    apply bind_normal_inv in H as (title & _ & H).
    rewrite (childPageTitle_some _ _ _ Hget Hchild Htitle) in H. congruence.
Qed.

Lemma child_page_title_wins_witness :
  VStr "From the child page" = field "title" (VObj [("title", VStr "From the child page")]).
Proof.
  apply (child_page_title_wins childPage
           (VObj [("title", VStr "From the child page")]) (VStr "From the child page")).
  - reflexivity.
  - reflexivity.
  - reflexivity.
  - left. reflexivity.
Defined.

Lemma named_chain_recent properties tail :
  ToBoolean properties = true ->
  ToBoolean (namedTitleProperty properties) = true ->
  orM (get "title" properties)
    (orM (get "Title" properties)
       (orM (get "Name" properties) (orM (get "name" properties) tail)))
  = Normal (namedTitleProperty properties).
Proof.
  intros Hp Hnamed. rewrite !(get_truthy _ _ Hp).
  unfold namedTitleProperty, Json.or, orM in *. cbn [JS.bind].
  destruct (ToBoolean (field "title" properties)); [reflexivity |].
  destruct (ToBoolean (field "Title" properties)); [reflexivity |].
  destruct (ToBoolean (field "Name" properties)); [reflexivity |].
  rewrite Hnamed. reflexivity.
Qed.

Lemma named_chain_search properties :
  ToBoolean properties = true ->
  orM (get "title" properties)
    (orM (get "Title" properties) (orM (get "Name" properties) (get "name" properties)))
  = Normal (namedTitleProperty properties).
Proof.
  intros Hp. rewrite !(get_truthy _ _ Hp).
  unfold namedTitleProperty, Json.or, orM. cbn [JS.bind].
  destruct (ToBoolean (field "title" properties)); [reflexivity |].
  destruct (ToBoolean (field "Title" properties)); [reflexivity |].
  destruct (ToBoolean (field "Name" properties)); reflexivity.
Qed.

(** What both extractions return when a property called title, Title, Name
    or name is truthy. *)
Lemma titles_of_named_property page properties :
  get "properties" page = Normal properties ->
  ToBoolean properties = true ->
  ToBoolean (namedTitleProperty properties) = true ->
  Notion.recentTitle page
  = (let* title := Notion.fromTitleProperty (namedTitleProperty properties) (VStr "Untitled") in
     Notion.childPageTitle page title) /\
  Notion.searchTitle page
  = (let* title := Notion.fromTitleProperty (namedTitleProperty properties) (VStr "Untitled") in
     Notion.childPageTitle page title).
Proof.
  intros Hget Hp Hnamed. unfold Notion.recentTitle, Notion.searchTitle.
  rewrite Hget. cbn [JS.bind]. rewrite Hp.
  rewrite (named_chain_recent _ _ Hp Hnamed), (named_chain_search _ Hp).
  cbn [JS.bind]. rewrite Hnamed. split; reflexivity.
Qed.

(** [getRecentPages] and [searchPages] give a page the same title when one
    of its properties is called title, Title, Name or name (and is truthy),
    and when none of its properties has the type [title]. *)
Theorem recent_and_search_titles_agree (page properties : value) :
  get "properties" page = Normal properties ->
  ToBoolean (namedTitleProperty properties) = true \/
  (exists values,
      Object_values properties = Normal values /\
      JsonOps.find (fun p => let* ty := get "type" p in Normal (strict_eq_str ty "title"))
        values = Normal VUndefined) ->
  Notion.recentTitle page = Notion.searchTitle page /\
  Notion.toPage Notion.recentTitle page = Notion.toPage Notion.searchTitle page.
Proof.
  intros Hget Hcase.
  assert (Heq : Notion.recentTitle page = Notion.searchTitle page).
  { destruct Hcase as [Hnamed | (values & Hvalues & Hfind)].
    - destruct (ToBoolean properties) eqn:Hp.
      + destruct (titles_of_named_property _ _ Hget Hp Hnamed) as [-> ->]. reflexivity.
      + unfold Notion.recentTitle, Notion.searchTitle.
        rewrite Hget. cbn [JS.bind]. rewrite Hp. reflexivity.
    - apply (titles_agree_without_typed_title _ _ _ Hget Hvalues Hfind). }
  split; [exact Heq |]. unfold Notion.toPage. rewrite Heq. reflexivity.
Qed.

Lemma recent_and_search_titles_agree_witness :
  Notion.recentTitle titledPage = Notion.searchTitle titledPage /\
  Notion.toPage Notion.recentTitle titledPage = Notion.toPage Notion.searchTitle titledPage.
Proof.
  apply (recent_and_search_titles_agree titledPage
           (field "properties" titledPage)).
  - reflexivity.
  - left. reflexivity.
Defined.

Lemma childPageTitle_absent page title :
  page <> VUndefined -> page <> VNull ->
  noChildTitle page = true ->
  Notion.childPageTitle page title = Normal title.
Proof.
  intros H1 H2 Hchild. unfold Notion.childPageTitle, noChildTitle in *.
  rewrite (get_present _ _ H1 H2). cbn [JS.bind].
  destruct (ToBoolean (field "child_page" page)) eqn:Hc; [| reflexivity].
  rewrite (get_truthy _ _ Hc). cbn [JS.bind]. simpl in Hchild.
  apply negb_true_iff in Hchild. rewrite Hchild. reflexivity.
Qed.

(** When a property called title, Title, Name or name is truthy and holds
    neither a [title] array nor a [rich_text] array, the other properties are
    not looked at: the title is [Untitled], even if another property has the
    type [title] and a text. *)
Theorem named_property_without_text_hides_title (page properties : value) :
  get "properties" page = Normal properties ->
  ToBoolean properties = true ->
  ToBoolean (namedTitleProperty properties) = true ->
  isArrayValue (field "title" (namedTitleProperty properties)) = false ->
  isArrayValue (field "rich_text" (namedTitleProperty properties)) = false ->
  noChildTitle page = true ->
  Notion.recentTitle page = Normal (VStr "Untitled") /\
  Notion.searchTitle page = Normal (VStr "Untitled").
Proof.
  intros Hget Hp Hnamed Htitle Hrich Hchild.
  assert (Hpage : page <> VUndefined /\ page <> VNull)
    by (split; intros ->; discriminate).
  destruct (titles_of_named_property _ _ Hget Hp Hnamed) as [-> ->].
  assert (Hfrom : Notion.fromTitleProperty (namedTitleProperty properties) (VStr "Untitled")
                  = Normal (VStr "Untitled")).
  { unfold Notion.fromTitleProperty. rewrite !(get_truthy _ _ Hnamed). cbn [JS.bind].
    rewrite Htitle, Hrich. reflexivity. }
  rewrite Hfrom. cbn [JS.bind].
  split; apply childPageTitle_absent; tauto.
Qed.

(** The column called Name is a select; the title Hello of the column Task
    is not found. *)
Lemma named_property_hides_title_witness :
  Notion.recentTitle selectPage = Normal (VStr "Untitled") /\
  Notion.searchTitle selectPage = Normal (VStr "Untitled").
Proof.
  apply (named_property_without_text_hides_title selectPage (field "properties" selectPage));
    reflexivity.
Defined.

Lemma join_empty_runs runs :
  Forall (fun run => run <> VUndefined /\ run <> VNull) runs ->
  mapM (fun t => let* p := get "plain_text" t in Normal (Json.or p (VStr ""))) runs
  = Normal (map (fun run => Json.or (field "plain_text" run) (VStr "")) runs).
Proof.
  induction 1 as [| run runs [H1 H2] _ IH]; [reflexivity |].
  cbn [mapM]. rewrite (get_present _ _ H1 H2). cbn [JS.bind mbind completion_bind].
  rewrite IH. reflexivity.
Qed.

Lemma join_empty_texts runs :
  join_empty (map (fun run => Json.or (field "plain_text" run) (VStr "")) runs)
  = joinTexts runs.
Proof.
  induction runs as [| run runs IH]; [reflexivity |].
  cbn [map join_empty joinTexts fold_right]. fold (joinTexts runs). rewrite IH. f_equal.
  unfold runText, Json.or.
  destruct (ToBoolean (field "plain_text" run)) eqn:Ht; [| reflexivity].
  destruct (field "plain_text" run); try discriminate; reflexivity.
Qed.

Lemma plainText_runs runs :
  Forall (fun run => run <> VUndefined /\ run <> VNull) runs ->
  Notion.plainText (VArr runs) = Normal (VStr (joinTexts runs)).
Proof.
  intros Hruns. unfold Notion.plainText. cbn [array_map].
  rewrite (join_empty_runs _ Hruns). cbn [JS.bind]. rewrite join_empty_texts. reflexivity.
Qed.

(** When a property called title, Title, Name or name is truthy and its
    [title] is an array of runs, the title of the page is the texts of the
    runs one after the other (a run without [plain_text] adds nothing), for
    [getRecentPages] and [searchPages], unless there is a child-page title. *)
Theorem title_is_the_runs_joined (page properties : value) (runs : list value) :
  get "properties" page = Normal properties ->
  ToBoolean properties = true ->
  ToBoolean (namedTitleProperty properties) = true ->
  field "title" (namedTitleProperty properties) = VArr runs ->
  Forall (fun run => run <> VUndefined /\ run <> VNull) runs ->
  noChildTitle page = true ->
  Notion.recentTitle page = Normal (VStr (joinTexts runs)) /\
  Notion.searchTitle page = Normal (VStr (joinTexts runs)).
Proof.
  intros Hget Hp Hnamed Htitle Hruns Hchild.
  assert (Hpage : page <> VUndefined /\ page <> VNull)
    by (split; intros ->; discriminate).
  destruct (titles_of_named_property _ _ Hget Hp Hnamed) as [-> ->].
  assert (Hfrom : Notion.fromTitleProperty (namedTitleProperty properties) (VStr "Untitled")
                  = Normal (VStr (joinTexts runs))).
  { unfold Notion.fromTitleProperty. rewrite !(get_truthy _ _ Hnamed). cbn [JS.bind].
    rewrite Htitle. cbn [isArrayValue ToBoolean isArray andb].
    apply plainText_runs, Hruns. }
  rewrite Hfrom. cbn [JS.bind].
  split; apply childPageTitle_absent; tauto.
Qed.

Lemma title_is_the_runs_joined_witness :
  Notion.recentTitle titledPage = Normal (VStr "Roadmap") /\
  Notion.searchTitle titledPage = Normal (VStr "Roadmap").
Proof.
  apply (title_is_the_runs_joined titledPage (field "properties" titledPage)
           [ VObj [("plain_text", VStr "Road")]; VObj [("annotations", VObj [])];
             VObj [("plain_text", VStr "map")] ]).
  - reflexivity.
  - reflexivity.
  - reflexivity.
  - reflexivity.
  - repeat constructor; discriminate.
  - reflexivity.
Defined.

Lemma mapM_Forall2 {A B} (f : A -> completion B) (l : list A) (r : list B) :
  mapM f l = Normal r -> Forall2 (fun x y => f x = Normal y) l r.
Proof.
  revert r. induction l as [| a l IH]; intros r H.
  - injection H as <-. constructor.
  - cbn [mapM] in H.
    destruct (f a) as [b |] eqn:Ha; [| discriminate].
    destruct (mapM f l) as [r' |] eqn:Hl; [| discriminate].
    injection H as <-. constructor; [exact Ha | apply IH; reflexivity].
Qed.

Lemma plainText_string runs t : Notion.plainText runs = Normal t -> exists s, t = VStr s.
Proof.
  unfold Notion.plainText. intros H.
  apply bind_normal_inv in H as (texts & _ & H). injection H as <-. eauto.
Qed.

Lemma or_string_is_string t :
  t = VUndefined \/ (exists s, t = VStr s) -> exists s, Json.or t (VStr "") = VStr s.
Proof.
  intros [-> | [s ->]]; [exists ""; reflexivity |].
  unfold Json.or. destruct (ToBoolean (VStr s)); eauto.
Qed.

Lemma processBlock_normal block normalized :
  Notion.processBlock block = Normal normalized -> normalizes block normalized.
Proof.
  intros H.
  assert (Hb : block <> VUndefined /\ block <> VNull)
    by (split; intros ->; discriminate).
  destruct Hb as [H1 H2]. unfold Notion.processBlock in H.
  rewrite (get_present "type" _ H1 H2) in H. cbn [JS.bind] in H.
  rewrite (get_present (ToString (field "type" block)) _ H1 H2),
    (get_present "id" _ H1 H2), (get_present "has_children" _ H1 H2) in H.
  cbn [JS.bind] in H.
  apply bind_normal_inv in H as (text & Htext & H). cbn [JS.bind] in H.
  injection H as <-.
  unfold normalizes. cbn. repeat split.
  apply or_string_is_string.
  destruct (field (ToString (field "type" block)) block) eqn:Hc;
    cbv beta iota in Htext;
    try (injection Htext as <-; left; reflexivity);
    (apply bind_normal_inv in Htext as (rich & _ & Htext);
     destruct rich; cbv beta iota in Htext;
     try (injection Htext as <-; left; reflexivity);
     right; apply (plainText_string _ _ Htext)).
Qed.

(** When [getPageContent] returns, the page is the answer to the first
    request, and the blocks are those of the answer to the second, one for
    one and in order: each keeps its id, type, typed content and
    [has_children], and its text is a string. *)
Theorem getPageContent_blocks_in_order
    (notion : Notion.Remote) (pageId : string) (r : Notion.PageContent) :
  Notion.getPageContent notion pageId = Normal r ->
  exists blocksData,
    Notion.fetchFromNotion notion ("/pages/" +:+ pageId) "GET" VUndefined
    = Normal (Notion.page r) /\
    Notion.fetchFromNotion notion ("/blocks/" +:+ pageId +:+ "/children") "GET" VUndefined
    = Normal blocksData /\
    Forall2 normalizes (resultsOf blocksData) (Notion.blocks r).
Proof.
  unfold Notion.getPageContent. intros H.
  destruct (JS.bind _ _) as [r' |] eqn:Hbody in H; [| discriminate].
  injection H as ->.
  apply bind_normal_inv in Hbody as (pageData & Hpage & Hbody).
  apply bind_normal_inv in Hbody as (blocksData & Hblocks & Hbody).
  apply bind_normal_inv in Hbody as (results & Hresults & Hbody).
  apply bind_normal_inv in Hbody as (processed & Hmap & Hbody).
  injection Hbody as <-. exists blocksData. cbn. repeat split; try assumption.
  assert (Hdata : blocksData <> VUndefined /\ blocksData <> VNull)
    by (split; intros ->; discriminate).
  unfold resultsOf, field. rewrite Hresults.
  destruct (Json.or results (VArr [])) as [| | | | | blocks |]; try discriminate.
  cbn [array_map] in Hmap. apply mapM_Forall2 in Hmap.
  eapply Forall2_impl; [exact Hmap |]. intros block normalized. apply processBlock_normal.
Qed.

Lemma getPageContent_blocks_witness :
  exists blocksData,
    Notion.fetchFromNotion notionContent "/pages/p1" "GET" VUndefined
    = Normal (VObj [("id", VStr "p1")]) /\
    Notion.fetchFromNotion notionContent "/blocks/p1/children" "GET" VUndefined
    = Normal blocksData /\
    Forall2 normalizes (resultsOf blocksData)
      [ {| Notion.block_id := VStr "b1"; Notion.block_type := VStr "heading_1";
           Notion.content := VObj [("rich_text", VArr [VObj [("plain_text", VStr "Plan")]])];
           Notion.text := VStr "Plan"; Notion.has_children := VBool false |};
        {| Notion.block_id := VStr "b2"; Notion.block_type := VStr "divider";
           Notion.content := VObj [];
           Notion.text := VStr ""; Notion.has_children := VBool false |};
        {| Notion.block_id := VStr "b3"; Notion.block_type := VStr "paragraph";
           Notion.content := VObj [("rich_text", VArr [ VObj [("plain_text", VStr "Ship ")];
                                                        VObj [("plain_text", VStr "it")] ])];
           Notion.text := VStr "Ship it"; Notion.has_children := VBool true |} ].
Proof.
  apply (getPageContent_blocks_in_order notionContent "p1"
           {| Notion.page := VObj [("id", VStr "p1")]; Notion.blocks := _ |}).
  reflexivity.
Defined.

(** *** The widget store over time *)

Lemma idsInOrder_seeded env now now' : idsInOrder (WidgetStore.seeded env now now').
Proof.
  unfold idsInOrder, WidgetStore.seeded. intros k widget.
  destruct (NOTION_TOKEN env) as [[| c s] |]; simpl; intros H;
    repeat (apply lookup_insert_Some in H as [[<- <-] | [_ H]]; [simpl; lia |]);
    rewrite lookup_empty in H; discriminate.
Qed.

Lemma idsInOrder_call this c : idsInOrder this -> idsInOrder (call this c).
Proof.
  intros Hwf k widget. destruct c as [insertWidget now | id grid | id]; simpl.
  - intros H. apply lookup_insert_Some in H as [[<- <-] | [_ H]]; [simpl; lia |].
    destruct (Hwf _ _ H). lia.
  - unfold WidgetStore.updateWidgetPosition.
    destruct (Storage.widgets this !! id) as [old |] eqn:Hold; simpl; [| apply Hwf].
    intros H. apply lookup_insert_Some in H as [[<- <-] | [_ H]]; [| apply (Hwf _ _ H)].
    simpl. apply (Hwf _ _ Hold).
  - intros H. apply lookup_delete_Some in H as [_ H]. apply (Hwf _ _ H).
Qed.

Lemma counter_call this c :
  Storage.currentWidgetId this <= Storage.currentWidgetId (call this c).
Proof.
  destruct c as [insertWidget now | id grid | id]; simpl; [lia | | lia].
  unfold WidgetStore.updateWidgetPosition.
  destruct (Storage.widgets this !! id); simpl; lia.
Qed.

Lemma calls_invariant this cs :
  idsInOrder this ->
  idsInOrder (calls this cs) /\
  Storage.currentWidgetId this <= Storage.currentWidgetId (calls this cs).
Proof.
  unfold calls. revert this. induction cs as [| c cs IH]; intros this Hwf; simpl.
  - split; [exact Hwf | lia].
  - destruct (IH (call this c) (idsInOrder_call _ c Hwf)) as [Hwf' Hle].
    split; [exact Hwf' |]. pose proof (counter_call this c). lia.
Qed.

(** From the store the constructor seeds, through any calls of
    [createWidget], [updateWidgetPosition] and [deleteWidget]: every widget
    is stored under its own id; [createWidget] gives an id that no stored
    widget has and that is not below any id given before, so the id of a
    deleted widget is not given again; and it leaves every stored widget as
    it was. *)
Theorem widget_ids_are_fresh
    (env : Env) (now0 now1 : Z) (before after : list WidgetCall)
    (insertWidget : Storage.InsertWidget) (now' : Z) :
  let earlier := calls (WidgetStore.seeded env now0 now1) before in
  let this := calls earlier after in
  let created := Storage.createWidget this insertWidget now' in
  idsInOrder this /\
  Storage.currentWidgetId earlier <= Storage.id (fst created) /\
  Storage.widgets this !! Storage.id (fst created) = None /\
  forall k widget,
    Storage.widgets this !! k = Some widget ->
    Storage.getWidget (snd created) k = Some widget.
Proof.
  intros earlier this created.
  destruct (calls_invariant _ before (idsInOrder_seeded env now0 now1)) as [Hearlier _].
  destruct (calls_invariant _ after Hearlier) as [Hthis Hle]. fold earlier this in Hthis, Hle.
  split; [exact Hthis |]. split; [exact Hle |]. split.
  - destruct (Storage.widgets this !! Storage.id (fst created)) as [w |] eqn:Hw;
      [| reflexivity].
    destruct (Hthis _ _ Hw) as [_ Hlt]. simpl in Hlt. lia.
  - intros k widget Hk. unfold Storage.getWidget. simpl.
    rewrite lookup_insert_ne; [exact Hk |].
    destruct (Hthis _ _ Hk). lia.
Qed.

(** A widget is created, moved, deleted, and deleted again: the move is
    seen by [getWidget]; the first [deleteWidget] answers [true] and the
    widget is gone; the second answers [false]; moving the deleted widget
    answers [undefined] and changes nothing; the widgets under other ids are
    as they were before the creation. *)
Theorem widget_created_moved_deleted
    (this : Storage.MemStorage) (insertWidget : Storage.InsertWidget) (now : Z)
    (grid : value) :
  let created := Storage.createWidget this insertWidget now in
  let id := Storage.id (fst created) in
  let moved := WidgetStore.updateWidgetPosition (snd created) id grid in
  let deleted := WidgetStore.deleteWidget (snd moved) id in
  let again := WidgetStore.deleteWidget (snd deleted) id in
  (exists widget,
      fst moved = Some widget /\
      Storage.getWidget (snd moved) id = Some widget /\
      Storage.gridPosition widget = grid /\
      Storage.id widget = id /\
      Storage.userId widget = Storage.ins_userId insertWidget /\
      Storage.name widget = Storage.ins_name insertWidget) /\
  fst deleted = true /\
  Storage.getWidget (snd deleted) id = None /\
  fst again = false /\
  WidgetStore.updateWidgetPosition (snd deleted) id grid = (None, snd deleted) /\
  forall k, k <> id -> Storage.getWidget (snd again) k = Storage.getWidget this k.
Proof.
  intros created id moved deleted again.
  assert (Hcreated : Storage.widgets (snd created) !! id = Some (fst created))
    by apply lookup_insert_eq.
  assert (Hmoved : moved
                   = WidgetStore.updateWidgetPosition (snd created) id grid) by reflexivity.
  unfold WidgetStore.updateWidgetPosition in Hmoved. rewrite Hcreated in Hmoved.
  assert (Hgone : Storage.widgets (snd deleted) !! id = None)
    by apply lookup_delete_eq.
  split; [| split; [| split; [| split; [| split]]]].
  - rewrite Hmoved. eexists. split; [reflexivity |]. cbn.
    unfold Storage.getWidget. cbn. rewrite lookup_insert_eq. repeat split.
  - unfold deleted, WidgetStore.deleteWidget. cbn [fst].
    rewrite Hmoved. cbn. rewrite lookup_insert_eq. apply bool_decide_eq_true. eauto.
  - exact Hgone.
  - unfold again, WidgetStore.deleteWidget. cbn [fst]. rewrite Hgone.
    apply bool_decide_eq_false. intros [w Hw]. discriminate.
  - unfold WidgetStore.updateWidgetPosition. rewrite Hgone. reflexivity.
  - intros k Hk. unfold Storage.getWidget, again, deleted. cbn [snd WidgetStore.deleteWidget Storage.widgets].
    rewrite Hmoved. cbn.
    rewrite !lookup_delete_ne, !lookup_insert_ne by (intros Heq; apply Hk; symmetry; exact Heq).
    reflexivity.
Qed.

(** *** The widget routes *)

Lemma findOwned_owned storage userId widgetId id widget :
  Routes.findOwned storage userId widgetId = inr (id, widget) ->
  widgetId = Some id /\ Storage.getWidget storage id = Some widget /\
  Storage.userId widget = Some userId.
Proof.
  unfold Routes.findOwned.
  destruct widgetId as [i |]; [| discriminate].
  destruct (Storage.getWidget storage i) as [w |] eqn:Hw; [| discriminate].
  destruct (Routes.owns userId w) eqn:Ho; [| discriminate].
  intros [= <- <-]. repeat split; [exact Hw |].
  unfold Routes.owns in Ho. destruct (Storage.userId w) as [o |]; [| discriminate].
  apply Z.eqb_eq in Ho. congruence.
Qed.

(** Whatever a user asks of the three routes that change or delete a
    widget, the widgets of the other users stay as they are. *)
Theorem widget_routes_leave_others_alone
    (storage : Storage.MemStorage) (userId : Z) (widgetId : option Z)
    (updates : WidgetStore.WidgetUpdates) (reqBody : value)
    (k : Z) (widget : Storage.Widget) :
  Storage.getWidget storage k = Some widget ->
  Storage.userId widget <> Some userId ->
  Storage.getWidget (snd (Routes.deleteWidgetRoute storage userId widgetId)) k = Some widget /\
  Storage.getWidget (snd (Routes.putWidgetRoute storage userId widgetId updates)) k
  = Some widget /\
  Storage.getWidget (snd (Routes.putWidgetPositionRoute storage userId widgetId reqBody)) k
  = Some widget.
Proof.
  intros Hk Hother.
  unfold Routes.deleteWidgetRoute, Routes.putWidgetRoute, Routes.putWidgetPositionRoute.
  destruct (Routes.findOwned storage userId widgetId) as [reply | [id owned]] eqn:Hfind;
    [auto |].
  destruct (findOwned_owned _ _ _ _ _ Hfind) as (_ & Hid & Howner).
  assert (Hne : id <> k) by (intros ->; congruence).
  unfold Storage.getWidget in *. repeat split.
  - cbn. rewrite lookup_delete_ne by exact Hne. exact Hk.
  - unfold WidgetStore.updateWidget. rewrite Hid. cbn.
    rewrite lookup_insert_ne by exact Hne. exact Hk.
  - destruct (orM _ _) as [position | e]; [| exact Hk].
    destruct (negb (ToBoolean position)); [exact Hk |].
    destruct (Routes.parseGridPosition position); [| exact Hk].
    unfold WidgetStore.updateWidgetPosition. rewrite Hid. cbn.
    rewrite lookup_insert_ne by exact Hne. exact Hk.
Qed.

Lemma widget_routes_leave_others_alone_witness :
  let widget :=
    {| Storage.id := 1; Storage.userId := Some 1; Storage.type := "trello-tasks";
       Storage.name := "Trello Tasks";
       Storage.config := VObj [("integrationType", VStr "trello")];
       Storage.position := 0; Storage.gridPosition := Storage.rect 0 0 1 1;
       Storage.createdAt := 0 |} in
  Storage.getWidget (snd (Routes.deleteWidgetRoute storeOfDemo 7 (Some 1))) 1 = Some widget /\
  Storage.getWidget (snd (Routes.putWidgetRoute storeOfDemo 7 (Some 1) (giveTo 7))) 1
  = Some widget /\
  Storage.getWidget
    (snd (Routes.putWidgetPositionRoute storeOfDemo 7 (Some 1) (Storage.rect 5 5 1 1))) 1
  = Some widget.
Proof.
  apply (widget_routes_leave_others_alone storeOfDemo 7 (Some 1) (giveTo 7)
           (Storage.rect 5 5 1 1) 1).
  - reflexivity.
  - discriminate.
Defined.

(** The request [useDnd] sends to move a widget, [{ position: n }] with a
    number, is never carried out: the reply is 404, 403 or 400 and the store
    is unchanged. *)
Theorem dnd_request_is_refused
    (storage : Storage.MemStorage) (userId : Z) (widgetId : option Z)
    (targetPosition : Z) :
  let result :=
    Routes.putWidgetPositionRoute storage userId widgetId (Routes.dndBody targetPosition) in
  In (Routes.code (fst result)) [404; 403; 400] /\ snd result = storage.
Proof.
  unfold Routes.putWidgetPositionRoute, Routes.findOwned, Routes.dndBody.
  destruct widgetId as [id |]; [| simpl; auto].
  destruct (Storage.getWidget storage id) as [widget |]; [| simpl; auto].
  destruct (negb (Routes.owns userId widget)); [simpl; auto |].
  destruct (Z.eqb targetPosition 0) eqn:Hzero;
    repeat first [rewrite Hzero | progress simpl];
    (split; [right; right; left; reflexivity | reflexivity]).
Qed.

(** A position that is an object with numbers under x, y, w and h, sent by
    the owner under [position], is stored as exactly these four numbers
    (any other key is dropped); nothing else of the widget changes. *)
Theorem position_route_stores_the_rectangle
    (storage : Storage.MemStorage) (userId id x y w h : Z) (widget : Storage.Widget)
    (props rest : list (string * value)) :
  Storage.getWidget storage id = Some widget ->
  Storage.userId widget = Some userId ->
  lookup_prop "x" props = VNum x -> lookup_prop "y" props = VNum y ->
  lookup_prop "w" props = VNum w -> lookup_prop "h" props = VNum h ->
  let result :=
    Routes.putWidgetPositionRoute storage userId (Some id)
      (VObj (("position", VObj props) :: rest)) in
  exists updated,
    fst result = {| Routes.code := 200; Routes.body := Routes.WidgetJson (Some updated) |} /\
    Storage.getWidget (snd result) id = Some updated /\
    Storage.gridPosition updated = Storage.rect x y w h /\
    WidgetStore.spread updated
      {| WidgetStore.upd_id := None; WidgetStore.upd_userId := None;
         WidgetStore.upd_type := None; WidgetStore.upd_name := None;
         WidgetStore.upd_config := None; WidgetStore.upd_position := None;
         WidgetStore.upd_gridPosition := Some (Storage.gridPosition widget);
         WidgetStore.upd_createdAt := None |}
    = widget.
Proof.
  intros Hget Howner Hx Hy Hw Hh result.
  unfold result, Routes.putWidgetPositionRoute, Routes.findOwned.
  rewrite Hget. unfold Routes.owns. rewrite Howner, Z.eqb_refl. cbn [negb].
  unfold orM. cbn [get lookup_prop]. rewrite String.eqb_refl. cbn [JS.bind ToBoolean negb].
  unfold Routes.parseGridPosition. rewrite Hx, Hy, Hw, Hh.
  unfold WidgetStore.updateWidgetPosition. unfold Storage.getWidget in Hget. rewrite Hget.
  eexists. split; [reflexivity |]. split; [apply lookup_insert_eq |].
  split; [reflexivity |]. destruct widget; reflexivity.
Qed.

(** The body carries a colour besides the rectangle. *)
Lemma position_route_witness :
  exists updated,
    fst (Routes.putWidgetPositionRoute storeOfDemo 1 (Some 1)
           (VObj [("position", VObj [("x", VNum 2); ("y", VNum 3); ("color", VStr "red");
                                     ("w", VNum 1); ("h", VNum 2)])]))
    = {| Routes.code := 200; Routes.body := Routes.WidgetJson (Some updated) |} /\
    Storage.gridPosition updated = Storage.rect 2 3 1 2.
Proof.
  destruct (position_route_stores_the_rectangle storeOfDemo 1 1 2 3 1 2
              {| Storage.id := 1; Storage.userId := Some 1; Storage.type := "trello-tasks";
                 Storage.name := "Trello Tasks";
                 Storage.config := VObj [("integrationType", VStr "trello")];
                 Storage.position := 0; Storage.gridPosition := Storage.rect 0 0 1 1;
                 Storage.createdAt := 0 |}
              [("x", VNum 2); ("y", VNum 3); ("color", VStr "red");
               ("w", VNum 1); ("h", VNum 2)] []
              eq_refl eq_refl eq_refl eq_refl eq_refl eq_refl)
    as (updated & Hreply & _ & Hgrid & _).
  exists updated. split; [exact Hreply | exact Hgrid].
Defined.

(** The owner of a widget can give it away: after a PUT whose body sets
    [userId] to another user, the former owner is refused and the other user
    can delete the widget. *)
Theorem put_route_can_give_the_widget_away
    (storage : Storage.MemStorage) (userId other id : Z) (widget : Storage.Widget) :
  Storage.getWidget storage id = Some widget ->
  Storage.userId widget = Some userId ->
  other <> userId ->
  let result := Routes.putWidgetRoute storage userId (Some id) (giveTo other) in
  Routes.code (fst result) = 200 /\
  Routes.code (fst (Routes.deleteWidgetRoute (snd result) userId (Some id))) = 403 /\
  Routes.code (fst (Routes.deleteWidgetRoute (snd result) other (Some id))) = 204.
Proof.
  intros Hget Howner Hother result.
  assert (Hresult :
    result
    = ({| Routes.code := 200;
          Routes.body := Routes.WidgetJson (Some (WidgetStore.spread widget (giveTo other))) |},
       {| Storage.widgets :=
            <[id := WidgetStore.spread widget (giveTo other)]> (Storage.widgets storage);
          Storage.currentWidgetId := Storage.currentWidgetId storage |})).
  { unfold result, Routes.putWidgetRoute, Routes.findOwned.
    rewrite Hget. unfold Routes.owns. rewrite Howner, Z.eqb_refl. cbn [negb].
    unfold WidgetStore.updateWidget. unfold Storage.getWidget in Hget. rewrite Hget.
    reflexivity. }
  rewrite Hresult. cbn [fst snd Routes.code]. split; [reflexivity |].
  assert (Hstored : forall s c,
    Storage.getWidget
      {| Storage.widgets := <[id := WidgetStore.spread widget (giveTo other)]> s;
         Storage.currentWidgetId := c |} id
    = Some (WidgetStore.spread widget (giveTo other)))
    by (intros; apply lookup_insert_eq).
  unfold Routes.deleteWidgetRoute, Routes.findOwned. rewrite Hstored.
  unfold Routes.owns. simpl.
  rewrite Z.eqb_refl. destruct (Z.eqb_spec other userId); [contradiction |].
  split; reflexivity.
Qed.

Lemma put_route_witness :
  Routes.code (fst (Routes.putWidgetRoute storeOfDemo 1 (Some 1) (giveTo 7))) = 200 /\
  Routes.code (fst (Routes.deleteWidgetRoute
                      (snd (Routes.putWidgetRoute storeOfDemo 1 (Some 1) (giveTo 7)))
                      1 (Some 1))) = 403 /\
  Routes.code (fst (Routes.deleteWidgetRoute
                      (snd (Routes.putWidgetRoute storeOfDemo 1 (Some 1) (giveTo 7)))
                      7 (Some 1))) = 204.
Proof.
  apply (put_route_can_give_the_widget_away storeOfDemo 1 7 1
           {| Storage.id := 1; Storage.userId := Some 1; Storage.type := "trello-tasks";
              Storage.name := "Trello Tasks";
              Storage.config := VObj [("integrationType", VStr "trello")];
              Storage.position := 0; Storage.gridPosition := Storage.rect 0 0 1 1;
              Storage.createdAt := 0 |}).
  - reflexivity.
  - reflexivity.
  - discriminate.
Defined.

(** *** Users and the login strategy *)

Lemma JSMap_set_fresh {V} (k : Z) (v : V) (m : JSMap.t V) :
  ~ In k (map fst m) -> JSMap.set k v m = m ++ [(k, v)].
Proof.
  induction m as [| [k' v'] m IH]; simpl; [reflexivity |].
  intros Hfresh. destruct (Z.eqb_spec k k') as [-> | Hne]; [tauto |].
  rewrite IH by tauto. reflexivity.
Qed.

Lemma JSMap_get_In {V} (k : Z) (v : V) (m : JSMap.t V) :
  NoDup (map fst m) -> In (k, v) m -> JSMap.get k m = Some v.
Proof.
  induction m as [| [k' v'] m IH]; simpl; [tauto |].
  intros Hnodup [Heq | Hin].
  - injection Heq as -> ->. rewrite Z.eqb_refl. reflexivity.
  - inversion Hnodup as [| ? ? Hk' Hnodup']; subst.
    destruct (Z.eqb_spec k k') as [-> | Hne]; [| apply IH; assumption].
    exfalso. apply Hk'. apply list_elem_of_In. apply (in_map fst _ _ Hin).
Qed.

Lemma createUser_appends this insertUser now :
  usersInOrder this ->
  Users.users (snd (Users.createUser this insertUser now))
  = Users.users this ++ [(Users.currentUserId this, fst (Users.createUser this insertUser now))].
Proof.
  intros [_ Hbelow]. simpl. apply JSMap_set_fresh.
  intros Hin. apply in_map_iff in Hin as ([k user] & Hk & Hin). simpl in Hk. subst k.
  destruct (Hbelow _ _ Hin). lia.
Qed.

Lemma usersInOrder_createUser this insertUser now :
  usersInOrder this -> usersInOrder (snd (Users.createUser this insertUser now)).
Proof.
  intros Hwf. pose proof (createUser_appends this insertUser now Hwf) as Happ.
  destruct Hwf as [Hnodup Hbelow]. unfold usersInOrder. rewrite Happ. split.
  - rewrite map_app. simpl. apply NoDup_app. split; [exact Hnodup |]. split.
    + intros k Hk [Heq | []]%list_elem_of_In. subst k.
      apply list_elem_of_In, in_map_iff in Hk as ([k user] & Hk & Hin). simpl in Hk. subst k.
      destruct (Hbelow _ _ Hin). lia.
    + apply NoDup_singleton.
  - intros k user [Hin | [Heq | []]]%in_app_or.
    + destruct (Hbelow _ _ Hin). simpl. lia.
    + injection Heq as <- <-. simpl. lia.
Qed.

Lemma usersInOrder_seeded now : usersInOrder (Users.seeded now).
Proof.
  split; simpl.
  - apply NoDup_singleton.
  - intros k user [[= <- <-] | []]. simpl. lia.
Qed.

Lemma usersInOrder_register this inserts :
  usersInOrder this -> usersInOrder (register this inserts).
Proof.
  unfold register. revert this.
  induction inserts as [| [insertUser now] inserts IH]; intros this Hwf; simpl;
    [exact Hwf |].
  apply IH, usersInOrder_createUser, Hwf.
Qed.

Lemma getUserByUsername_createUser this insertUser now name :
  usersInOrder this ->
  Users.getUserByUsername (snd (Users.createUser this insertUser now)) name
  = match Users.getUserByUsername this name with
    | Some user => Some user
    | None =>
        if String.eqb (Users.ins_username insertUser) name
        then Some (fst (Users.createUser this insertUser now))
        else None
    end.
Proof.
  intros Hwf. unfold Users.getUserByUsername, JSMap.values.
  rewrite (createUser_appends _ _ _ Hwf), map_app, find_app_first.
  destruct (List.find _ (map snd (Users.users this))); reflexivity.
Qed.

(** [MemStorage] does not keep user names apart.  In a store reached from
    the constructor by [createUser] calls, a new user is stored and found by
    its id; by name, the user who took the name first is found, before and
    after: the new user is found by name only if the name was free. *)
Theorem createUser_first_holder_of_a_name_is_found
    (now : Z) (inserts : list (Users.InsertUser * Z))
    (insertUser : Users.InsertUser) (now' : Z) (name : string) :
  let this := register (Users.seeded now) inserts in
  let created := Users.createUser this insertUser now' in
  Users.getUser (snd created) (Users.id (fst created)) = Some (fst created) /\
  Users.getUser this (Users.id (fst created)) = None /\
  Users.getUserByUsername (snd created) name
  = match Users.getUserByUsername this name with
    | Some user => Some user
    | None =>
        if String.eqb (Users.ins_username insertUser) name then Some (fst created) else None
    end.
Proof.
  intros this created.
  assert (Hwf : usersInOrder this)
    by apply usersInOrder_register, usersInOrder_seeded.
  pose proof (usersInOrder_createUser this insertUser now' Hwf) as [Hnodup' _].
  subst created. split; [| split].
  - apply JSMap_get_In; [exact Hnodup' |].
    rewrite (createUser_appends _ _ _ Hwf). apply in_or_app. right. left. reflexivity.
  - unfold Users.getUser. simpl.
    destruct (JSMap.get (Users.currentUserId this) (Users.users this)) as [user |] eqn:Hget;
      [| reflexivity].
    assert (Hin : In (Users.currentUserId this, user) (Users.users this)).
    { clear -Hget. induction (Users.users this) as [| [k' v'] m IH]; [discriminate |].
      simpl in Hget. destruct (Z.eqb_spec (Users.currentUserId this) k') as [<- | Hne].
      - injection Hget as ->. left. reflexivity.
      - right. apply IH, Hget. }
    destruct Hwf as [_ Hbelow]. destruct (Hbelow _ _ Hin). lia.
  - apply getUserByUsername_createUser, Hwf.
Qed.

Example second_ann_is_not_found :
  let store := register (Users.seeded 0) [(ann, 1); (ann', 2)] in
  Users.email <$> Users.getUserByUsername store "ann" = Some "ann@example.com" /\
  Users.email <$> Users.getUser store 3 = Some "other@example.com".
Proof. split; reflexivity. Qed.

Lemma getUserByUsername_register_demo now inserts :
  Users.getUserByUsername (register (Users.seeded now) inserts) "demo"
  = Some (Users.demoUser now).
Proof.
  assert (H : forall this,
             usersInOrder this ->
             Users.getUserByUsername this "demo" = Some (Users.demoUser now) ->
             Users.getUserByUsername (register this inserts) "demo"
             = Some (Users.demoUser now)).
  { unfold register. induction inserts as [| [insertUser t] inserts IH];
      intros this Hwf Hdemo; cbn [fold_left]; [exact Hdemo |].
    apply IH; [apply usersInOrder_createUser, Hwf |].
    rewrite (getUserByUsername_createUser _ _ _ _ Hwf), Hdemo. reflexivity. }
  apply H; [apply usersInOrder_seeded | reflexivity].
Qed.

(** The demo account the constructor seeds is let in with every password,
    whatever [bcrypt.compare] would say and whichever users were created
    since: for the name demo the password is compared with nothing. *)
Theorem demo_is_accepted_with_any_password
    (compare : string -> string -> completion bool) (now : Z)
    (inserts : list (Users.InsertUser * Z)) (pass : string) :
  Users.verify compare (register (Users.seeded now) inserts) "demo" pass
  = Users.Accepted (Users.demoUser now).
Proof.
  unfold Users.verify. rewrite getUserByUsername_register_demo.
  change (String.eqb "demo" "demo") with true. cbn [andb negb].
  destruct (String.eqb pass "demo"); reflexivity.
Qed.

(** For any other name, the user is let in exactly when a user is stored
    under that name and [bcrypt.compare] accepts the password against the
    stored one; the user let in is the first one created with the name. *)
Theorem others_are_accepted_by_bcrypt_only
    (compare : string -> string -> completion bool) (storage : Users.Store)
    (name pass : string) (user : Users.User) :
  name <> "demo" ->
  (Users.verify compare storage name pass = Users.Accepted user <->
   Users.getUserByUsername storage name = Some user /\
   compare pass (Users.password user) = Normal true).
Proof.
  intros Hname. apply String.eqb_neq in Hname.
  unfold Users.verify. rewrite Hname. cbn [andb negb].
  destruct (Users.getUserByUsername storage name) as [found |].
  - destruct (compare pass (Users.password found)) as [[|] | err] eqn:Hcompare; cbn [negb].
    + split; [intros [= <-]; auto | intros [[= <-] _]; reflexivity].
    + split; [discriminate | intros [[= <-] H']; congruence].
    + split; [discriminate | intros [[= <-] H']; congruence].
  - split; [discriminate | intros [H' _]; discriminate].
Qed.

Lemma others_are_accepted_witness :
  Users.verify compareReversed (register (Users.seeded 0) [(ann, 1)]) "ann" "secret"
  = Users.Accepted (fst (Users.createUser (Users.seeded 0) ann 1)) <->
  Users.getUserByUsername (register (Users.seeded 0) [(ann, 1)]) "ann"
  = Some (fst (Users.createUser (Users.seeded 0) ann 1)) /\
  compareReversed "secret" (Users.password (fst (Users.createUser (Users.seeded 0) ann 1)))
  = Normal true.
Proof.
  apply (others_are_accepted_by_bcrypt_only compareReversed
           (register (Users.seeded 0) [(ann, 1)]) "ann" "secret").
  discriminate.
Defined.

(** *** The message lists of the Gmail connector *)

Lemma mapM_fetched {A B C} (f : A -> completion B) (g : B -> C) refs raws :
  Forall2 (fun ref raw => f ref = Normal raw) refs raws ->
  mapM (fun ref => let* raw := f ref in Normal (g raw)) refs = Normal (map g raws).
Proof.
  induction 1 as [| ref raw refs raws Href _ IH]; [reflexivity |].
  cbn [mapM]. rewrite Href. cbn [JS.bind mbind completion_bind]. rewrite IH. reflexivity.
Qed.

Lemma mapM_throws {A B} (f : A -> completion B) l x e :
  In x l -> f x = Throw e -> exists e', mapM f l = Throw e'.
Proof.
  induction l as [| a l IH]; [intros [] |].
  intros [-> | Hin] Hx; cbn [mapM].
  - rewrite Hx. eauto.
  - destruct (f a); [| eauto]. destruct (IH Hin Hx) as [e' ->]. eauto.
Qed.

(** [getRecentEmails], [getUnreadEmails] and [searchEmails] return the
    listed messages in the order of the listing, each processed, when the
    listing and every message are fetched; and they return the empty list as
    soon as one message cannot be fetched. *)
Theorem listEmails_all_or_nothing
    (this : GmailConnector) (listing : GmailLists.ListRemote) (remote : Gmail.Remote)
    (endpoint : string) (refs : list GmailLists.MessageRef) :
  GmailLists.fetchListing this listing endpoint
  = Normal {| GmailLists.messages := Some refs |} ->
  (forall raws,
      messagesFetched this remote refs raws ->
      GmailLists.listEmails this listing remote endpoint
      = Normal (map Gmail.processMessage raws)) /\
  (forall ref e,
      In ref refs ->
      Gmail.fetchMessage this remote (GmailLists.ref_id ref) = Throw e ->
      GmailLists.listEmails this listing remote endpoint = Normal []).
Proof.
  intros Hlisting. unfold GmailLists.listEmails, GmailLists.fetchMessages.
  rewrite Hlisting. cbn [JS.bind GmailLists.messages]. split.
  - intros raws Hraws. destruct refs as [| ref refs].
    + inversion Hraws. reflexivity.
    + rewrite (mapM_fetched _ _ _ _ Hraws). reflexivity.
  - intros ref e Hin Hfail. destruct refs as [| r refs]; [destruct Hin |].
    destruct (mapM_throws
                (fun msg => let* fullMsg := Gmail.fetchMessage this remote
                                              (GmailLists.ref_id msg) in
                            Normal (Gmail.processMessage fullMsg))
                (r :: refs) ref e Hin) as [e' ->]; [rewrite Hfail; reflexivity |].
    reflexivity.
Qed.

Lemma listEmails_witness :
  GmailLists.getRecentEmails Samples.gmail0 listingTwo gmailBoth 5
  = Normal (map Gmail.processMessage [Samples.message "Hello"; Samples.message "Bye"]) /\
  GmailLists.getRecentEmails Samples.gmail0 listingTwo gmailOne 5 = Normal [].
Proof.
  destruct (listEmails_all_or_nothing Samples.gmail0 listingTwo gmailBoth
              "/users/me/messages?maxResults=5"
              [ {| GmailLists.ref_id := "m1" |}; {| GmailLists.ref_id := "m2" |} ] eq_refl)
    as [Hall _].
  destruct (listEmails_all_or_nothing Samples.gmail0 listingTwo gmailOne
              "/users/me/messages?maxResults=5"
              [ {| GmailLists.ref_id := "m1" |}; {| GmailLists.ref_id := "m2" |} ] eq_refl)
    as [_ Hnone].
  split.
  - apply Hall. repeat constructor.
  - apply (Hnone {| GmailLists.ref_id := "m2" |}
             (Error "Gmail API error: 404 Not Found")); [simpl; auto | reflexivity].
Defined.

(** A Gmail connector without a token sends nothing: whatever Gmail and
    Trello would answer, the three lists are empty and
    [createTrelloCardFromEmail] returns [null]. *)
Theorem gmail_without_token_sends_nothing
    (host : JSDate.Host) (this : GmailConnector) (listing : GmailLists.ListRemote)
    (remote : Gmail.Remote) (trello : Trello.Remote)
    (limit : Z) (query emailId listId : string) :
  gmail_token this = "" ->
  GmailLists.getRecentEmails this listing remote limit = Normal [] /\
  GmailLists.getUnreadEmails this listing remote = Normal [] /\
  GmailLists.searchEmails this listing remote query = Normal [] /\
  Gmail.createTrelloCardFromEmail host this remote emailId trello listId = Normal None.
Proof.
  intros Htoken.
  unfold GmailLists.getRecentEmails, GmailLists.getUnreadEmails, GmailLists.searchEmails,
    GmailLists.listEmails, GmailLists.fetchListing,
    Gmail.createTrelloCardFromEmail, Gmail.composeCard, Gmail.fetchMessage.
  rewrite Htoken. repeat split; reflexivity.
Qed.

(** The connector the factory makes when no token is given and the
    environment has none. *)
Lemma gmail_without_token_witness :
  GmailLists.getRecentEmails gmailNoToken listingTwo gmailBoth 5 = Normal [] /\
  GmailLists.getUnreadEmails gmailNoToken listingTwo gmailBoth = Normal [] /\
  GmailLists.searchEmails gmailNoToken listingTwo gmailBoth "from:ann" = Normal [] /\
  Gmail.createTrelloCardFromEmail Samples.host0 gmailNoToken gmailBoth "m1"
    Samples.trello0 "l1" = Normal None.
Proof.
  apply (gmail_without_token_sends_nothing Samples.host0 gmailNoToken listingTwo gmailBoth
           Samples.trello0 5 "from:ann" "m1" "l1").
  reflexivity.
Defined.

Lemma allChars_app p s t :
  allChars p (s +:+ t) = allChars p s && allChars p t.
Proof.
  induction s as [| c s IH]; [reflexivity |].
  simpl. rewrite IH. apply andb_assoc.
Qed.

Lemma encodeUnit_safe c : allChars isUriSafe (Uri.encodeUnit c) = true.
Proof. destruct c as [[] [] [] [] [] [] [] []]; vm_compute; reflexivity. Qed.

Lemma encodeURIComponent_safe s : allChars isUriSafe (Uri.encodeURIComponent s) = true.
Proof.
  induction s as [| c s IH]; [reflexivity |].
  cbn [Uri.encodeURIComponent]. rewrite allChars_app, encodeUnit_safe, IH. reflexivity.
Qed.

(** [searchEmails] asks Gmail for a listing whose query is escaped: the
    result depends on Gmail's answers only at the endpoints
    [/users/me/messages?q=e] where [e] is made of letters, digits,
    [-_.!~*'()] and [%]; whatever Gmail answers elsewhere, for instance
    where the query holds a raw space, [&] or [#], is never asked for. *)
Theorem searchEmails_requests_escaped_query
    (this : GmailConnector) (listing listing' : GmailLists.ListRemote)
    (remote : Gmail.Remote) (query : string) :
  (forall e, allChars isUriSafe e = true ->
             listing ("/users/me/messages?q=" +:+ e)
             = listing' ("/users/me/messages?q=" +:+ e)) ->
  GmailLists.searchEmails this listing remote query
  = GmailLists.searchEmails this listing' remote query.
Proof.
  intros Hagree.
  unfold GmailLists.searchEmails, GmailLists.listEmails, GmailLists.fetchListing.
  rewrite (Hagree _ (encodeURIComponent_safe query)). reflexivity.
Qed.

Lemma searchEmails_escaped_witness :
  GmailLists.searchEmails Samples.gmail0 listingTwo gmailBoth "a b"
  = GmailLists.searchEmails Samples.gmail0 listingRaw gmailBoth "a b".
Proof.
  apply (searchEmails_requests_escaped_query Samples.gmail0 listingTwo listingRaw
           gmailBoth "a b").
  intros e He. unfold listingRaw.
  destruct (String.eqb_spec ("/users/me/messages?q=" +:+ e) "/users/me/messages?q=a b")
    as [Heq |]; [| reflexivity].
  simpl in Heq. injection Heq as Heq. change (e = "a b") in Heq. subst e. discriminate He.
Defined.

(** *** The routes that read the services *)

Lemma caught_is_normal {A} (c : completion A) (a : A) :
  exists r, try_catch c (fun _ => Normal a) = Normal r.
Proof. destruct c; simpl; eauto. Qed.

Lemma answer_code_normal {A} (c : completion A) :
  (exists r, c = Normal r) -> Proxy.code (Proxy.answer c) = 200.
Proof. intros [r ->]. reflexivity. Qed.

(** The three routes that list cards, pages and messages never answer 500:
    the answer is 404 when the user has no connected integration of the
    type, and 200 otherwise, whatever the service does. *)
Theorem list_routes_never_answer_500
    (env : Env) (host : JSDate.Host)
    (trello : TrelloConnector -> Trello.Remote)
    (notion : NotionConnector -> Notion.Remote)
    (gmail : GmailConnector -> GmailLists.ListRemote * Gmail.Remote)
    (storage : Integrations.Store) (userId : Z)
    (days limit : option Z) (view : option string) (clock0 clock1 : Z) :
  Proxy.code (Proxy.trelloCards env host trello storage userId days clock0 clock1)
  = (if hasConnected "trello" storage userId then 200 else 404) /\
  Proxy.code (Proxy.notionPages env notion storage userId limit)
  = (if hasConnected "notion" storage userId then 200 else 404) /\
  Proxy.code (Proxy.gmailMessages env gmail storage userId view)
  = (if hasConnected "gmail" storage userId then 200 else 404).
Proof.
  unfold hasConnected, Proxy.trelloCards, Proxy.notionPages, Proxy.gmailMessages.
  repeat split.
  - destruct (Proxy.connectedOf "trello" _) as [i |]; [| reflexivity].
    rewrite bool_decide_eq_true_2 by eauto.
    apply answer_code_normal. cbn [ConnectorFactory.createConnector JS.bind].
    apply caught_is_normal.
  - destruct (Proxy.connectedOf "notion" _) as [i |]; [| reflexivity].
    rewrite bool_decide_eq_true_2 by eauto.
    apply answer_code_normal. cbn [ConnectorFactory.createConnector JS.bind].
    apply caught_is_normal.
  - destruct (Proxy.connectedOf "gmail" _) as [i |]; [| reflexivity].
    rewrite bool_decide_eq_true_2 by eauto.
    apply answer_code_normal. cbn [ConnectorFactory.createConnector JS.bind].
    destruct (String.eqb (str_or view "recent") "unread"); apply caught_is_normal.
Qed.

Lemma find_filter {A} (p q : A -> bool) l :
  List.find p (List.filter q l) = List.find (fun x => q x && p x) l.
Proof.
  induction l as [| a l IH]; [reflexivity |].
  simpl. destruct (q a); simpl; [destruct (p a); [reflexivity | exact IH] | exact IH].
Qed.

Lemma find_values_set {V} (p : V -> bool) k v (m : JSMap.t V) :
  List.find p (JSMap.values m) = None ->
  p v = true ->
  List.find p (JSMap.values (JSMap.set k v m)) = Some v.
Proof.
  unfold JSMap.values. intros Hnone Hv.
  induction m as [| [k' v'] m IH]; simpl in *.
  - rewrite Hv. reflexivity.
  - destruct (p v') eqn:Hv'; [discriminate |].
    destruct (k =? k'); simpl.
    + rewrite Hv. reflexivity.
    + rewrite Hv'. apply IH, Hnone.
Qed.

(** A user who has no connected Trello integration and posts one that is
    connected but has no token is then served, by GET /api/trello/cards, what
    Trello answers to the token and the key of the server's environment. *)
Theorem tokenless_integration_reads_the_servers_account
    (env : Env) (host : JSDate.Host) (trello : TrelloConnector -> Trello.Remote)
    (storage : Integrations.Store) (userId : Z) (name : string)
    (now : Z) (days : option Z) (clock0 clock1 : Z) :
  userId <> 0 ->
  hasConnected "trello" storage userId = false ->
  Proxy.trelloCards env host trello
    (snd (Proxy.postIntegration host storage userId (tokenless name) now))
    userId days clock0 clock1
  = Proxy.answer
      (Trello.getCardsDueWithin host
         (trello {| trello_token := str_or (TRELLO_TOKEN env) "";
                    trello_apiKey := str_or (TRELLO_API_KEY env) "";
                    trello_baseUrl := "https://api.trello.com/1" |})
         (default 7 days) clock0 clock1).
Proof.
  intros Huser Hnone.
  unfold hasConnected in Hnone. apply bool_decide_eq_false_1 in Hnone.
  assert (Hfind : Proxy.connectedOf "trello"
                    (Integrations.getIntegrationsByUserId storage userId) = None).
  { destruct (Proxy.connectedOf "trello" _); [exfalso; apply Hnone; eauto | reflexivity]. }
  unfold Proxy.postIntegration. rewrite (proj2 (Z.eqb_neq userId 0) Huser).
  cbn [Integrations.createIntegration snd].
  unfold Proxy.trelloCards, Proxy.connectedOf, Integrations.getIntegrationsByUserId in *.
  cbn [Integrations.integrations]. rewrite find_filter in Hfind. rewrite find_filter.
  rewrite (find_values_set _ _ _ _ Hfind).
  - reflexivity.
  - simpl. rewrite Z.eqb_refl. reflexivity.
Qed.

Lemma tokenless_integration_witness :
  Proxy.trelloCards envServer hostUTC trelloOfServer
    (snd (Proxy.postIntegration hostUTC integrationsOfDemo 2 (tokenless "Mine") 0))
    2 None 1740787200000 1740787200000
  = Proxy.answer
      (Trello.getCardsDueWithin hostUTC
         (trelloOfServer {| trello_token := "server-token"; trello_apiKey := "key";
                            trello_baseUrl := "https://api.trello.com/1" |})
         7 1740787200000 1740787200000).
Proof.
  apply (tokenless_integration_reads_the_servers_account envServer hostUTC trelloOfServer
           integrationsOfDemo 2 "Mine" 0 None 1740787200000 1740787200000).
  - lia.
  - reflexivity.
Defined.

(** *** The badge of a task in the Trello widget *)

Lemma today_is_midnight host clock :
  Z.abs clock + 2 * JSDate.msPerDay <= 8640000000000000 ->
  TrelloWidget.setHours4 host (JSDate.new_Date_now clock) 0 0 0 0
  = Some (midnightBefore host clock).
Proof.
  intros Hclock. unfold JSDate.new_Date_now, JSDate.msPerDay in *.
  rewrite TimeClip_in_range by lia. simpl.
  unfold TrelloWidget.setHours4, midnightBefore, JSDate.MakeDate, JSDate.MakeTime,
    JSDate.Day, JSDate.UTC, JSDate.LocalTime, JSDate.msPerDay.
  pose proof (Z.div_mod (clock + JSDate.LocalTZA host) 86400000 ltac:(lia)) as Hdm.
  pose proof (Z.mod_pos_bound (clock + JSDate.LocalTZA host) 86400000 ltac:(lia)) as Hr.
  replace ((clock + JSDate.LocalTZA host) / 86400000 * 86400000 + (0 * JSDate.msPerHour + 0 * JSDate.msPerMinute + 0 * JSDate.msPerSecond + 0) - JSDate.LocalTZA host)
    with (clock - (clock + JSDate.LocalTZA host) mod 86400000) by lia.
  apply TimeClip_in_range. lia.
Qed.

Lemma tomorrow_is_next_midnight host clock :
  Z.abs clock + 2 * JSDate.msPerDay <= 8640000000000000 ->
  JSDate.setDate host (Some (midnightBefore host clock))
    (dt ← JSDate.getDate host (Some (midnightBefore host clock)); Some (dt + 1))
  = Some (midnightBefore host clock + JSDate.msPerDay).
Proof.
  intros Hclock.
  assert (Hr : 0 <= (clock + JSDate.LocalTZA host) mod JSDate.msPerDay < JSDate.msPerDay)
    by (apply Z.mod_pos_bound; reflexivity).
  destruct (window_of_now host (midnightBefore host clock) 1) as [Hnow Hnext].
  - unfold midnightBefore, JSDate.msPerDay in *. lia.
  - unfold midnightBefore, JSDate.msPerDay in *. lia.
  - rewrite Hnow in Hnext. rewrite Hnext. reflexivity.
Qed.

(** The badge of a task whose due date parses, by the local midnights of
    the reader's clock: overdue before the last midnight, today on that very
    millisecond, tomorrow on the millisecond of the next midnight, and
    upcoming at every other instant; so a task due later today, or later
    tomorrow, is upcoming. *)
Theorem getDueDateStatus_by_midnights
    (host : JSDate.Host) (dueDate : string) (clock d : Z) :
  dueDate <> EmptyString ->
  JSDate.new_Date host dueDate = Some d ->
  Z.abs clock + 2 * JSDate.msPerDay <= 8640000000000000 ->
  let today := midnightBefore host clock in
  TrelloWidget.text (TrelloWidget.getDueDateStatus host (Some dueDate) clock)
  = (if d <? today then "Overdue"
     else if d =? today then "Today"
     else if d =? today + JSDate.msPerDay then "Tomorrow"
     else "Upcoming") /\
  (today < d < today + JSDate.msPerDay ->
   TrelloWidget.text (TrelloWidget.getDueDateStatus host (Some dueDate) clock) = "Upcoming").
Proof.
  intros Hne Hdue Hclock today.
  assert (Htext : TrelloWidget.text (TrelloWidget.getDueDateStatus host (Some dueDate) clock)
                  = (if d <? today then "Overdue"
                     else if d =? today then "Today"
                     else if d =? today + JSDate.msPerDay then "Tomorrow"
                     else "Upcoming")).
  { unfold TrelloWidget.getDueDateStatus.
    destruct dueDate as [| c s]; [contradiction |].
    rewrite Hdue, (today_is_midnight host clock Hclock),
      (tomorrow_is_next_midnight host clock Hclock).
    fold today. cbn [TrelloWidget.date_ltb TrelloWidget.sameTime].
    destruct (d <? today); [reflexivity |].
    destruct (d =? today); [reflexivity |].
    destruct (d =? today + JSDate.msPerDay); reflexivity. }
  split; [exact Htext |].
  intros Hbetween. rewrite Htext.
  destruct (Z.ltb_spec d today); [lia |].
  destruct (Z.eqb_spec d today); [lia |].
  destruct (Z.eqb_spec d (today + JSDate.msPerDay)); [lia | reflexivity].
Qed.

(** At one in the morning of 1 March 2025, UTC, a task due at noon of that
    day is upcoming. *)
Lemma getDueDateStatus_witness :
  TrelloWidget.text
    (TrelloWidget.getDueDateStatus hostUTC (Some "2025-03-01T12:00:00.000Z") 1740790800000)
  = "Upcoming".
Proof.
  apply (getDueDateStatus_by_midnights hostUTC "2025-03-01T12:00:00.000Z"
           1740790800000 1740830400000).
  - discriminate.
  - reflexivity.
  - vm_compute. discriminate.
  - vm_compute. split; reflexivity.
Defined.

Lemma getCardsDueWithin_member host remote days clock0 clock1 cards card :
  Trello.getCardsDueWithin host remote days clock0 clock1 = Normal cards ->
  In card cards ->
  exists futureDate,
    Trello.dueWithin host (JSDate.new_Date_now clock0) futureDate card = true.
Proof.
  unfold Trello.getCardsDueWithin. intros Hcards Hin.
  destruct (getBoards_total remote) as [boards Hboards]. rewrite Hboards in Hcards.
  cbn [JS.bind] in Hcards.
  destruct ((length boards =? 0)%nat).
  - simpl in Hcards. injection Hcards as <-. destruct Hin.
  - destruct (collectLists_total remote boards ∅) as [boardLists Hlists].
    rewrite Hlists in Hcards. cbn [JS.bind] in Hcards.
    destruct (Trello.collectCards remote boardLists boards []) as [allCards | e].
    + simpl in Hcards. injection Hcards as <-.
      apply filter_In in Hin as [_ Hdue]. eauto.
    + simpl in Hcards. injection Hcards as <-. destruct Hin.
Qed.

(** The cards GET /api/trello/cards delivers carry a due date that is at or
    after the instant the server read; a client whose last local midnight is
    not after that instant, and whose [Date] parses as the server's, shows
    none of them without a date or overdue. *)
Theorem fetched_cards_are_never_overdue
    (server client : JSDate.Host) (remote : Trello.Remote) (days clock0 clock1 : Z)
    (cards : list Trello.EnhancedCard) (card : Trello.EnhancedCard) (clock : Z) :
  Trello.getCardsDueWithin server remote days clock0 clock1 = Normal cards ->
  In card cards ->
  (forall s, JSDate.Date_parse client s = JSDate.Date_parse server s) ->
  Z.abs clock + 2 * JSDate.msPerDay <= 8640000000000000 ->
  midnightBefore client clock <= clock0 ->
  In (TrelloWidget.text
        (TrelloWidget.getDueDateStatus client (Trello.Card.due (Trello.card card)) clock))
     ["Today"; "Tomorrow"; "Upcoming"].
Proof.
  intros Hcards Hin Hparse Hclock Hmidnight.
  destruct (getCardsDueWithin_member _ _ _ _ _ _ _ Hcards Hin) as [futureDate Hdue].
  unfold Trello.dueWithin in Hdue.
  destruct (Trello.Card.due (Trello.card card)) as [[| c s] |]; try discriminate.
  apply andb_true_iff in Hdue as [Hge _].
  unfold JSDate.date_geb in Hge.
  destruct (JSDate.new_Date server (String c s)) as [d |] eqn:Hd; [| discriminate].
  unfold JSDate.new_Date_now, JSDate.TimeClip in Hge.
  destruct (Z.abs clock0 >? 8640000000000000); [discriminate |].
  apply Z.leb_le in Hge.
  assert (Hd' : JSDate.new_Date client (String c s) = Some d).
  { unfold JSDate.new_Date in *. rewrite Hparse. exact Hd. }
  unfold TrelloWidget.getDueDateStatus.
  rewrite Hd', (today_is_midnight client clock Hclock),
    (tomorrow_is_next_midnight client clock Hclock).
  cbn [TrelloWidget.date_ltb TrelloWidget.sameTime].
  destruct (Z.ltb_spec d (midnightBefore client clock)); [lia |].
  destruct (d =? midnightBefore client clock); [simpl; auto |].
  destruct (d =? midnightBefore client clock + JSDate.msPerDay); simpl; auto.
Qed.

Lemma fetched_cards_witness :
  In (TrelloWidget.text
        (TrelloWidget.getDueDateStatus hostUTC
           (Trello.Card.due
              (Samples.sampleCard "m1" (Some "2025-03-01T12:00:00.000Z") false "bA"))
           1740790800000))
     ["Today"; "Tomorrow"; "Upcoming"].
Proof.
  apply (fetched_cards_are_never_overdue hostUTC hostUTC trelloMarch 7
           1740787200000 1740787200000
           [ {| Trello.card :=
                  Samples.sampleCard "m1" (Some "2025-03-01T12:00:00.000Z") false "bA";
                Trello.status := "Unknown"; Trello.members := [] |} ]
           {| Trello.card :=
                Samples.sampleCard "m1" (Some "2025-03-01T12:00:00.000Z") false "bA";
              Trello.status := "Unknown"; Trello.members := [] |}
           1740790800000).
  - vm_compute. reflexivity.
  - left. reflexivity.
  - reflexivity.
  - vm_compute. discriminate.
  - vm_compute. discriminate.
Defined.

(** GET /api/notion/pages/:pageId, unlike the routes that list, passes a
    failure of Notion on: when the user has a connected Notion integration
    and Notion answers the page request with a status outside 200..299, the
    answer is 500 and its message names that status and its text. *)
Theorem page_content_route_reports_the_failure
    (env : Env) (notion : NotionConnector -> Notion.Remote)
    (storage : Integrations.Store) (userId : Z) (pageId : string)
    (integration : Integrations.Integration) (response : Response value) :
  pageId <> EmptyString ->
  Proxy.connectedOf "notion" (Integrations.getIntegrationsByUserId storage userId)
  = Some integration ->
  notion (new_NotionConnector env (Proxy.tokenOf integration))
    ("/pages/" +:+ pageId) "GET" VUndefined
  = Responded response ->
  ok response = false ->
  Proxy.notionPageContent env notion storage userId pageId
  = {| Proxy.code := 500;
       Proxy.body := Proxy.Message ("Notion API error: " +:+ show (Http.status response)
                                    +:+ " " +:+ statusText response) |}.
Proof.
  intros Hpage Hfound Hanswer Hok.
  unfold Proxy.notionPageContent.
  assert (Hempty : Text.isEmpty pageId = false)
    by (destruct pageId; [contradiction | reflexivity]).
  rewrite Hempty, Hfound.
  unfold Notion.getPageContent, Notion.fetchFromNotion.
  change (ConnectorFactory.createConnector env "notion" (Proxy.tokenOf integration))
    with (Normal (ConnectorFactory.OfNotion
                    (new_NotionConnector env (Proxy.tokenOf integration)))).
  cbv beta iota delta [JS.bind ToBoolean]. rewrite Hanswer.
  rewrite (fetchFrom_not_ok "Notion" response Hok). reflexivity.
Qed.

Lemma page_content_route_witness :
  Proxy.notionPageContent envServer (fun _ => Samples.notion500) integrationsWithNotion 1 "p1"
  = {| Proxy.code := 500;
       Proxy.body := Proxy.Message "Notion API error: 500 Internal Server Error" |}.
Proof.
  apply (page_content_route_reports_the_failure envServer (fun _ => Samples.notion500)
           integrationsWithNotion 1 "p1"
           {| Integrations.id := 3; Integrations.userId := Some 1;
              Integrations.type := "notion"; Integrations.name := "Notes";
              Integrations.accessToken := Some "secret";
              Integrations.refreshToken := None; Integrations.tokenExpiry := None;
              Integrations.connected := true; Integrations.lastSynced := None;
              Integrations.createdAt := 0 |}
           (Samples.failed 500 "Internal Server Error")).
  - discriminate.
  - reflexivity.
  - reflexivity.
  - reflexivity.
Defined.
